(** * Washing timer bot: the timer registry and its time parser

    A shallow embedding of [src/washing_timer.py] (the multi-timer module):
    the time parser [validate_time_format], the registry functions
    [get_user_timers], [add_timer], [remove_timer], [get_timer_count],
    the list view [format_timer_list], the expiry callback
    [timer_callback] and the handlers [handle_time], [cancel_timer] and
    [button_callback].

    Conventions of the embedding.
    - A Python [str] is a [string]; each [ascii] stands for one code point
      below 256.  In that range the regular-expression class [\d] holds
      exactly for the characters 0 to 9.
    - A Python [int] is a [Z]; [//] and [%] are [Z.div] and [Z.modulo].
    - A [datetime] is a [Z] counting microseconds.
    - [active_timers] is a [gmap] from user ids to the user's dict; a
      user's dict is an association list in insertion order, as Python
      dicts keep it.
    - Functions that read or write the module state are written in a state
      monad over [world]. *)

From Stdlib Require Import ZArith Lia List String Ascii Bool Sorting.Sorted
  Sorting.Permutation.
From stdpp Require Import gmap strings list.

Local Open Scope Z_scope.

(** ** Text *)

Module Text.

(** The line feed, the character the pattern [$] tolerates at the end. *)
Definition LF : ascii := ascii_of_nat 10.

Definition code (c : ascii) : Z := Z.of_N (N_of_ascii c).

(** [\d] on code points below 256. *)
Definition is_digit (c : ascii) : bool := (48 <=? code c) && (code c <=? 57).

Definition digit_value (c : ascii) : Z := code c - 48.

(** Python's whitespace test on code points below 256, used by
    [str.strip] and by [int]. *)
Definition is_space (c : ascii) : bool :=
  let n := code c in
  ((9 <=? n) && (n <=? 13)) || ((28 <=? n) && (n <=? 32))
  || (n =? 133) || (n =? 160).

Fixpoint lstrip (l : list ascii) : list ascii :=
  match l with
  | c :: r => if is_space c then lstrip r else l
  | [] => []
  end.

Definition rstrip (l : list ascii) : list ascii := rev (lstrip (rev l)).

(** [s.strip()] *)
Definition strip (s : string) : string :=
  string_of_list_ascii (rstrip (lstrip (list_ascii_of_string s))).

(** [s[:n]] and [s[n:]] for a non-negative literal [n]. *)
Fixpoint str_take (n : nat) (s : string) : string :=
  match n, s with
  | S n', String c r => String c (str_take n' r)
  | _, _ => EmptyString
  end.

Fixpoint str_drop (n : nat) (s : string) : string :=
  match n, s with
  | S n', String _ r => str_drop n' r
  | _, _ => s
  end.

(** [len(s)] *)
Definition len (s : string) : Z := Z.of_nat (String.length s).

(** *** [re.match(r'^\d+$', s)]

    [match_digits_end] is the matcher once one digit has been consumed:
    more digits, then [$], which holds at the end of the string and also
    just before a line feed that ends the string. *)
Fixpoint match_digits_end (s : string) : bool :=
  match s with
  | EmptyString => true
  | String c r =>
      if is_digit c then match_digits_end r
      else if Ascii.eqb c LF then
             match r with EmptyString => true | _ => false end
           else false
  end.

Definition re_match_digits (s : string) : bool :=
  match s with
  | EmptyString => false
  | String c r => is_digit c && match_digits_end r
  end.

(** *** [int(s)] in base ten

    The digits of an integer literal, with single underscores allowed
    between digits; [seen] tells whether the previous character was a
    digit.  [None] stands for [ValueError]. *)
Fixpoint int_digits (acc : Z) (seen : bool) (l : list ascii) : option Z :=
  match l with
  | [] => if seen then Some acc else None
  | c :: r =>
      if is_digit c then int_digits (10 * acc + digit_value c) true r
      else if Ascii.eqb c "_"%char
           then (if seen then int_digits acc false r else None)
           else None
  end.

Definition int_signed (l : list ascii) : option Z :=
  match l with
  | c :: r =>
      if Ascii.eqb c "-"%char then Z.opp <$> int_digits 0 false r
      else if Ascii.eqb c "+"%char then int_digits 0 false r
      else int_digits 0 false l
  | [] => None
  end.

Definition py_int (s : string) : option Z :=
  int_signed (rstrip (lstrip (list_ascii_of_string s))).

End Text.

Import Text.

(** ** The time parser *)

(** [validate_time_format]: [None] is the Python [None], returned on every
    rejection and from the [except ValueError] clause. *)
Definition validate_time_format (time_str : string) : option (Z * Z) :=
  if negb (re_match_digits time_str) then None
  else if len time_str <=? 3 then
    match py_int time_str with
    | None => None
    | Some minutes =>
        if negb ((1 <=? minutes) && (minutes <=? 999)) then None
        else
          let hours := minutes / 60 in
          let remaining_minutes := minutes mod 60 in
          Some (hours, remaining_minutes)
    end
  else if len time_str =? 4 then
    match py_int (str_take 2 time_str) with
    | None => None
    | Some hours =>
        match py_int (str_drop 2 time_str) with
        | None => None
        | Some minutes =>
            if negb ((0 <=? hours) && (hours <=? 23)) then None
            else if negb ((0 <=? minutes) && (minutes <=? 59)) then None
            else if (hours =? 0) && (minutes =? 0) then None
            else Some (hours, minutes)
        end
    end
  else None.

(** A second parser, written from the words of the specification (section
    4.1): digits only, one to three digits read as minutes between 1 and
    999, four digits read as HHMM with HH up to 23, MM up to 59 and not both
    zero.  It is compared with [validate_time_format] below. *)
Fixpoint all_digits (s : string) : bool :=
  match s with
  | EmptyString => true
  | String c r => is_digit c && all_digits r
  end.

Fixpoint decimal (acc : Z) (s : string) : Z :=
  match s with
  | EmptyString => acc
  | String c r => decimal (10 * acc + digit_value c) r
  end.

Definition parse_spec (input : string) : option (Z * Z) :=
  if negb (all_digits input) then None
  else match String.length input with
       | 1%nat | 2%nat | 3%nat =>
           let m := decimal 0 input in
           if (1 <=? m) && (m <=? 999) then Some (m / 60, m mod 60) else None
       | 4%nat =>
           let hh := decimal 0 (str_take 2 input) in
           let mm := decimal 0 (str_drop 2 input) in
           if (hh <=? 23) && (mm <=? 59) && negb ((hh =? 0) && (mm =? 0))
           then Some (hh, mm) else None
       | _ => None
       end.

(** [s] ends with a line feed. *)
Fixpoint ends_with_LF (s : string) : bool :=
  match s with
  | EmptyString => false
  | String c EmptyString => Ascii.eqb c LF
  | String _ r => ends_with_LF r
  end.

(** ** Data of the registry *)

(** [MAX_TIMERS_PER_USER] *)
Definition MAX_TIMERS_PER_USER : Z := 10.

(** The duration shown to the user: hours and minutes when [hours > 0],
    minutes alone otherwise.  The texts the bot renders are kept as the
    values they are rendered from. *)
Inductive time_display :=
| DisplayHM (hours minutes : Z)
| DisplayM (minutes : Z).

(** The description of a timer: the duration shown and the end time whose
    hour and minute are shown after it. *)
Record Description := mkDescription {
  desc_display : time_display;
  desc_until : Z }.

(** A job of the job queue, with the delay, the [user_id] and the [data]
    given to [run_once]; [job_id] is the identity of the job object.  The
    [name] of the job is not modelled. *)
Record Job := mkJob {
  job_id : nat;
  job_when : Z;
  job_user_id : Z;
  job_timer_id : string;
  job_description : Description;
  job_duration : time_display }.

(** The dict stored for one timer.  [job] is [None] for a falsy value. *)
Record timer_info := mkTimerInfo {
  description : Description;
  end_time : Z;
  job : option Job;
  created_at : Z }.

(** What a button sends back when pressed (its [callback_data]); the
    labels are not modelled. *)
Inductive callback_data :=
| ListTimers
| TimersPage (page : Z)
| CancelTimerData (timer_id : string)
| CancelAllTimers
| NewTimer
| Help
| Examples.

Inductive status :=
| StatusRemaining (minutes seconds : Z)
| StatusOverdue.

(** One entry of the list view: its number, id, description and status. *)
Record row := mkRow {
  row_number : Z;
  row_timer_id : string;
  row_description : Description;
  row_status : status }.

(** The texts the bot sends, each with the values it shows. *)
Inductive message_text :=
| StartText (timer_count max_timers : Z)
| HelpCommandText (timer_count max_timers : Z)
| CancelledText (cancelled_count : Z)
| NoTimersToCancelText
| StatusText (timers : list (string * Description)) (timer_count : Z)
| NoActiveTimersStatusText
| TimerFinishedText (description : Description) (remaining_count : Z)
| LimitReachedText (timer_count max_timers : Z)
| BadFormatText
| TimerStartedText (timer_id : string) (display : time_display)
    (end_time : Z) (new_timer_count max_timers : Z)
| NoActiveTimersText
| TimerListText (total_count : Z) (rows : list row)
| NewTimerPromptText (timer_count max_timers : Z)
| HelpText
| ExamplesText
| AnswerEmpty
| AnswerTimerCancelled (timer_id : string)
| AnswerTimerNotFound
| AnswerCancelledAll (cancelled_count : Z)
| AnswerNoActiveTimers
| AnswerLimit (max_timers : Z)
| AnswerHelpSent
| AnswerExamplesSent.

Inductive delivery := Reply | Edit | Notify | Answer.

Record sent := mkSent {
  via : delivery;
  chat_id : Z;
  text : message_text;
  keyboard : list (list callback_data) }.

(** Warnings and errors written to the log; lines of level info are not
    modelled. *)
Inductive log_entry :=
| WarnCancelFailed (timer_id : string)
| WarnBadFormat (user_id : Z) (time_str : string)
| ErrorSend (user_id : Z).

(** The state of the module and of its collaborators: the global dict
    [active_timers], the job queue, the callbacks triggered and not yet run,
    the messages handed to the transport and the log. *)
Record world := mkWorld {
  active_timers : gmap Z (list (string * timer_info));
  job_queue : list Job;
  pending : list Job;
  next_job : nat;
  outbox : list sent;
  log : list log_entry }.

Definition initial_world : world :=
  mkWorld ∅ [] [] 0 [] [].

(** ** The state monad *)

Definition M (A : Type) : Type := world → A * world.

Definition ret {A : Type} (a : A) : M A := λ w, (a, w).

Definition bind {A B : Type} (m : M A) (f : A → M B) : M B :=
  λ w, let '(a, w') := m w in f a w'.

Notation "'let*' x ':=' m 'in' k" := (bind m (λ x, k))
  (at level 10, x name, m at level 100, k at level 200).
Notation "m '>>' k" := (bind m (λ _, k))
  (at level 100, k at level 200, right associativity).

(** The world with [active_timers] replaced. *)
Definition with_timers (w : world)
    (m : gmap Z (list (string * timer_info))) : world :=
  mkWorld m (job_queue w) (pending w) (next_job w) (outbox w) (log w).

Definition set_active_timers (m : gmap Z (list (string * timer_info)))
  : M unit :=
  λ w, (tt, with_timers w m).

Definition get_active_timers : M (gmap Z (list (string * timer_info))) :=
  λ w, (active_timers w, w).

Definition send (d : delivery) (chat : Z) (t : message_text)
    (kb : list (list callback_data)) : M unit :=
  λ w, (tt, mkWorld (active_timers w) (job_queue w) (pending w) (next_job w)
              (outbox w ++ [mkSent d chat t kb]) (log w)).

(** [pass] *)
Definition pass : M unit := ret tt.

Definition write_log (e : log_entry) : M unit :=
  λ w, (tt, mkWorld (active_timers w) (job_queue w) (pending w) (next_job w)
              (outbox w) (log w ++ [e])).

(** ** Python dicts kept in insertion order *)

Section Dict.
Context {V : Type}.

(** [d.get(k)] *)
Fixpoint dict_get (k : string) (d : list (string * V)) : option V :=
  match d with
  | [] => None
  | (k', v) :: r => if decide (k = k') then Some v else dict_get k r
  end.

(** [k in d] *)
Definition dict_mem (k : string) (d : list (string * V)) : bool :=
  match dict_get k d with Some _ => true | None => false end.

(** [d[k] = v]: an existing key keeps its place, a new key goes last. *)
Fixpoint dict_set (k : string) (v : V) (d : list (string * V))
  : list (string * V) :=
  match d with
  | [] => [(k, v)]
  | (k', v') :: r =>
      if decide (k = k') then (k, v) :: r else (k', v') :: dict_set k v r
  end.

(** [del d[k]] *)
Fixpoint dict_del (k : string) (d : list (string * V))
  : list (string * V) :=
  match d with
  | [] => []
  | (k', v') :: r =>
      if decide (k = k') then r else (k', v') :: dict_del k r
  end.

(** [not d] *)
Definition dict_empty (d : list (string * V)) : bool :=
  match d with [] => true | _ => false end.
End Dict.

(** [not l] for a list. *)
Definition list_empty {A : Type} (l : list A) : bool :=
  match l with [] => true | _ => false end.

(** The dict of a user as a pure read: the empty dict when the user has no
    entry.  Used in statements only. *)
Definition timers_of (w : world) (user_id : Z) : list (string * timer_info) :=
  default [] (active_timers w !! user_id).

Definition count_of (w : world) (user_id : Z) : Z :=
  Z.of_nat (length (timers_of w user_id)).

(** ** The scheduler *)

(** Modelled from the spec: the Scheduler Adapter of section 4.3, which the
    source uses through the job queue of the bot framework.  [run_once]
    creates a job and queues it.  [schedule_removal] takes a queued job off
    the queue; on a job that is no longer queued (fired or removed) it
    raises, which is the harsher of the two behaviours the source's
    [try]/[except] allows for.  The result [false] stands for the
    exception. *)
Definition run_once (when : Z) (user_id : Z) (timer_id : string)
    (description : Description) (duration : time_display) : M Job :=
  λ w,
    let j := mkJob (next_job w) when user_id timer_id description duration in
    (j, mkWorld (active_timers w) (job_queue w ++ [j]) (pending w)
          (S (next_job w)) (outbox w) (log w)).

Definition same_job (j j' : Job) : bool := Nat.eqb (job_id j) (job_id j').

Definition queued (j : Job) (q : list Job) : bool := existsb (same_job j) q.

Definition unqueue (j : Job) (q : list Job) : list Job :=
  List.filter (λ j', negb (same_job j j')) q.

Definition schedule_removal (j : Job) : M bool :=
  λ w,
    if queued j (job_queue w)
    then (true, mkWorld (active_timers w) (unqueue j (job_queue w))
                  (pending w) (next_job w) (outbox w) (log w))
    else (false, w).

(** ** The registry *)

(** [get_user_timers]: [active_timers.setdefault(user_id, {})].  The result
    is the dict stored under [user_id]; the callers that change it write it
    back with [store_user_timers]. *)
Definition get_user_timers (user_id : Z) : M (list (string * timer_info)) :=
  let* m := get_active_timers in
  match m !! user_id with
  | Some user_timers => ret user_timers
  | None => set_active_timers (<[user_id := []]> m) >> ret []
  end.

(** A change of the dict held under [user_id], seen through
    [active_timers]. *)
Definition store_user_timers (user_id : Z)
    (user_timers : list (string * timer_info)) : M unit :=
  let* m := get_active_timers in
  set_active_timers (<[user_id := user_timers]> m).

(** [active_timers.pop(user_id, None)] *)
Definition pop_user (user_id : Z) : M unit :=
  let* m := get_active_timers in
  set_active_timers (delete user_id m).

(** [add_timer]; [now] is the reading of [datetime.now()]. *)
Definition add_timer (now : Z) (user_id : Z) (timer_id : string)
    (description : Description) (end_time : Z) (job : option Job) : M unit :=
  let* user_timers := get_user_timers user_id in
  store_user_timers user_id
    (dict_set timer_id (mkTimerInfo description end_time job now) user_timers).

(** The guarded cancellation inside [remove_timer]: [if job: try: ...
    except Exception: logger.warning(...)]. *)
Definition cancel_job (timer_id : string) (job : option Job) : M unit :=
  match job with
  | Some j =>
      let* ok := schedule_removal j in
      if ok : bool then pass else write_log (WarnCancelFailed timer_id)
  | None => pass
  end.

(** [remove_timer] *)
Definition remove_timer (user_id : Z) (timer_id : string) : M bool :=
  let* user_timers := get_user_timers user_id in
  match dict_get timer_id user_timers with
  | Some info =>
      cancel_job timer_id (job info) >>
      let user_timers' := dict_del timer_id user_timers in
      store_user_timers user_id user_timers' >>
      (if dict_empty user_timers' then pop_user user_id else pass) >>
      ret true
  | None => ret false
  end.

(** [get_timer_count] *)
Definition get_timer_count (user_id : Z) : M Z :=
  let* user_timers := get_user_timers user_id in
  ret (Z.of_nat (length user_timers)).

(** ** The list view *)

(** [sorted(..., key=created_at)]: a stable sort, written as insertion
    sort. *)
Fixpoint insert_by_created_at (x : string * timer_info)
    (l : list (string * timer_info)) : list (string * timer_info) :=
  match l with
  | [] => [x]
  | y :: r =>
      if created_at (snd x) <=? created_at (snd y) then x :: y :: r
      else y :: insert_by_created_at x r
  end.

Fixpoint sorted_by_created_at (l : list (string * timer_info))
    : list (string * timer_info) :=
  match l with
  | [] => []
  | x :: r => insert_by_created_at x (sorted_by_created_at r)
  end.

(** A slice bound as Python reads it: a negative bound counts from the
    end, and every bound is clamped to the list. *)
Definition slice_bound (n i : Z) : Z :=
  if i <? 0 then Z.max (i + n) 0 else Z.min i n.

(** [l[start:stop]] *)
Definition py_slice {A : Type} (l : list A) (start stop : Z) : list A :=
  let n := Z.of_nat (length l) in
  let lo := slice_bound n start in
  let hi := slice_bound n stop in
  take (Z.to_nat (hi - lo)) (drop (Z.to_nat lo) l).

(** [timedelta.seconds] of a positive difference in microseconds. *)
Definition timedelta_seconds_part (delta : Z) : Z :=
  (delta / 1000000) mod 86400.

(** [timedelta(seconds=s)] in microseconds. *)
Definition timedelta_of_seconds (s : Z) : Z := s * 1000000.

Definition status_at (now end_time : Z) : status :=
  if end_time >? now then
    let remaining := end_time - now in
    StatusRemaining (timedelta_seconds_part remaining / 60)
                    (timedelta_seconds_part remaining mod 60)
  else StatusOverdue.

(** The loop that lays the cancel buttons out two to a keyboard row;
    [timer_buttons] is the row being filled. *)
Fixpoint button_rows (keyboard : list (list callback_data))
    (timer_buttons : list callback_data) (ids : list string)
    : list (list callback_data) * list callback_data :=
  match ids with
  | [] => (keyboard, timer_buttons)
  | timer_id :: r =>
      let timer_buttons' := timer_buttons ++ [CancelTimerData timer_id] in
      if Nat.eqb (length timer_buttons') 2
      then button_rows (keyboard ++ [timer_buttons']) [] r
      else button_rows keyboard timer_buttons' r
  end.

(** [format_timer_list]; [now k] is the reading of [datetime.now()] while
    entry [k] of the page is rendered. *)
Definition format_timer_list (now : nat → Z) (user_id : Z) (page : Z)
    (items_per_page : Z) : M (message_text * list (list callback_data)) :=
  let* user_timers := get_user_timers user_id in
  if dict_empty user_timers then ret (NoActiveTimersText, [[NewTimer]])
  else
    let sorted_timers := sorted_by_created_at user_timers in
    let total_count := Z.of_nat (length sorted_timers) in
    let start_idx := page * items_per_page in
    let end_idx := start_idx + items_per_page in
    let page_timers := py_slice sorted_timers start_idx end_idx in
    let rows :=
      imap (λ k (entry : string * timer_info),
              mkRow (start_idx + 1 + Z.of_nat k) (fst entry)
                    (description (snd entry))
                    (status_at (now k) (end_time (snd entry))))
           page_timers in
    let '(keyboard, timer_buttons) := button_rows [] [] (map fst page_timers) in
    let keyboard :=
      if list_empty timer_buttons then keyboard
      else keyboard ++ [timer_buttons] in
    let pagination_buttons :=
      (if page >? 0 then [TimersPage (page - 1)] else [])
      ++ (if end_idx <? total_count then [TimersPage (page + 1)] else []) in
    let keyboard :=
      if list_empty pagination_buttons then keyboard
      else keyboard ++ [pagination_buttons] in
    let keyboard := keyboard ++ [[CancelAllTimers; NewTimer]] in
    ret (TimerListText total_count rows, keyboard).

(** The two flags of the view, read off the keyboard built for [page]: the
    back button and the forward button. *)
Definition is_page_button (target : Z) (b : callback_data) : bool :=
  match b with TimersPage p => p =? target | _ => false end.

Definition has_prev (page : Z) (keyboard : list (list callback_data)) : bool :=
  existsb (is_page_button (page - 1)) (concat keyboard).

Definition has_next (page : Z) (keyboard : list (list callback_data)) : bool :=
  existsb (is_page_button (page + 1)) (concat keyboard).

(** The rows of a view. *)
Definition rows_of (t : message_text) : list row :=
  match t with TimerListText _ rows => rows | _ => [] end.

(** ** The handlers *)

(** [start] *)
Definition start (user_id : Z) : M unit :=
  let* timer_count := get_timer_count user_id in
  let max_timers := MAX_TIMERS_PER_USER in
  send Reply user_id (StartText timer_count max_timers) [[Help]; [Examples]].

(** [help_command] *)
Definition help_command (user_id : Z) : M unit :=
  let* timer_count := get_timer_count user_id in
  let max_timers := MAX_TIMERS_PER_USER in
  send Reply user_id (HelpCommandText timer_count max_timers) [].

(** The loop [for timer_id in user_timers: if remove_timer(user_id,
    timer_id): cancelled_count += 1] over the ids of the copied dict. *)
Fixpoint cancel_loop (user_id : Z) (ids : list string) (cancelled_count : Z)
    : M Z :=
  match ids with
  | [] => ret cancelled_count
  | timer_id :: r =>
      let* removed := remove_timer user_id timer_id in
      cancel_loop user_id r
        (if removed : bool then cancelled_count + 1 else cancelled_count)
  end.

(** [cancel_timer], the command that cancels every timer of the user.
    [user_timers] is the copy taken before the loop: the loop runs over
    the ids it holds, whatever [remove_timer] does to the live dict. *)
Definition cancel_timer (user_id : Z) : M unit :=
  let* timer_count := get_timer_count user_id in
  if timer_count >? 0 then
    let* user_timers := get_user_timers user_id in
    let* cancelled_count := cancel_loop user_id (map fst user_timers) 0 in
    send Reply user_id (CancelledText cancelled_count) [[NewTimer]]
  else
    send Reply user_id NoTimersToCancelText [[NewTimer]].

(** [status_timer] *)
Definition status_timer (user_id : Z) : M unit :=
  let* user_timers := get_user_timers user_id in
  if dict_empty user_timers then
    send Reply user_id NoActiveTimersStatusText [[NewTimer]]
  else
    let timer_list :=
      map (λ e : string * timer_info, (fst e, description (snd e)))
          user_timers in
    let timer_count := Z.of_nat (length user_timers) in
    send Reply user_id (StatusText timer_list timer_count)
         [[ListTimers]; [CancelAllTimers]; [NewTimer]].

(** [timer_callback], run for job [j]; [delivered] tells whether
    [send_message] returned (otherwise it raised and the [except] clause
    logged the error).  The result of [remove_timer] is bound to
    [timer_removed] and not read again, as in the source. *)
Definition timer_callback (delivered : bool) (j : Job) : M unit :=
  let user_id := job_user_id j in
  let timer_id := job_timer_id j in
  let description := job_description j in
  let* timer_removed := remove_timer user_id timer_id in
  let* remaining_count := get_timer_count user_id in
  let keyboard :=
    (if remaining_count >? 0 then [[ListTimers]] else []) ++ [[NewTimer]] in
  if delivered
  then send Notify user_id (TimerFinishedText description remaining_count)
            keyboard
  else write_log (ErrorSend user_id).

(** [handle_time]; [uuid4] is the text of the generated UUID, [now] the
    clock reading behind [end_time] and [now'] the later reading taken by
    [add_timer]. *)
Definition handle_time (uuid4 : string) (now now' : Z) (user_id : Z)
    (message_text : string) : M unit :=
  let time_str := strip message_text in
  let* timer_count := get_timer_count user_id in
  let max_timers := MAX_TIMERS_PER_USER in
  if timer_count >=? max_timers then
    send Reply user_id (LimitReachedText timer_count max_timers)
         [[ListTimers]; [CancelAllTimers]]
  else
    match validate_time_format time_str with
    | None =>
        send Reply user_id BadFormatText [] >>
        write_log (WarnBadFormat user_id time_str)
    | Some (hours, minutes) =>
        let total_seconds := hours * 3600 + minutes * 60 in
        let display :=
          if hours >? 0 then DisplayHM hours minutes else DisplayM minutes in
        let timer_id := str_take 8 uuid4 in
        let end_time := now + timedelta_of_seconds total_seconds in
        let description := mkDescription display end_time in
        let* job := run_once total_seconds user_id timer_id description
                      display in
        add_timer now' user_id timer_id description end_time (Some job) >>
        let* new_timer_count := get_timer_count user_id in
        send Reply user_id
             (TimerStartedText timer_id display end_time new_timer_count
                max_timers)
             [[ListTimers]; [NewTimer]]
    end.

(** [edit_message_text] with its fallback to [reply_text]. *)
Definition show (edit_ok : bool) (user_id : Z) (t : message_text)
    (kb : list (list callback_data)) : M unit :=
  send (if edit_ok then Edit else Reply) user_id t kb.

(** [button_callback]; the dispatch on the text of [query.data] is written
    as a match on the parsed [callback_data]. *)
Definition button_callback (now : nat → Z) (edit_ok : bool) (user_id : Z)
    (data : callback_data) : M unit :=
  send Answer user_id AnswerEmpty [] >>
  match data with
  | ListTimers =>
      let* view := format_timer_list now user_id 0 5 in
      show edit_ok user_id (fst view) (snd view)
  | TimersPage page =>
      let* view := format_timer_list now user_id page 5 in
      show edit_ok user_id (fst view) (snd view)
  | CancelTimerData timer_id =>
      let* removed := remove_timer user_id timer_id in
      if removed : bool then
        send Answer user_id (AnswerTimerCancelled timer_id) [] >>
        let* view := format_timer_list now user_id 0 5 in
        show edit_ok user_id (fst view) (snd view)
      else send Answer user_id AnswerTimerNotFound []
  | CancelAllTimers =>
      let* timer_count := get_timer_count user_id in
      if timer_count >? 0 then
        let* user_timers := get_user_timers user_id in
        let* cancelled_count := cancel_loop user_id (map fst user_timers) 0 in
        show edit_ok user_id (CancelledText cancelled_count) [[NewTimer]] >>
        send Answer user_id (AnswerCancelledAll cancelled_count) []
      else send Answer user_id AnswerNoActiveTimers []
  | NewTimer =>
      let* timer_count := get_timer_count user_id in
      let max_timers := MAX_TIMERS_PER_USER in
      if timer_count >=? max_timers
      then send Answer user_id (AnswerLimit max_timers) []
      else show edit_ok user_id (NewTimerPromptText timer_count max_timers) []
  | Help =>
      if edit_ok then send Edit user_id HelpText []
      else send Answer user_id AnswerHelpSent [] >>
           send Reply user_id HelpText []
  | Examples =>
      if edit_ok then send Edit user_id ExamplesText []
      else send Answer user_id AnswerExamplesSent [] >>
           send Reply user_id ExamplesText []
  end.

(** ** Runs of the bot *)

(** Modelled from the spec: the firing of a job (sections 4.3 and 5).  When
    a job is due the scheduler takes it off the queue and its callback
    becomes pending; the callback runs later, and a handler may run in
    between. *)
Definition find_job (id : nat) (q : list Job) : option Job :=
  List.find (λ j, Nat.eqb (job_id j) id) q.

Definition trigger (id : nat) : M unit :=
  λ w,
    match find_job id (job_queue w) with
    | Some j =>
        (tt, mkWorld (active_timers w) (unqueue j (job_queue w))
               (pending w ++ [j]) (next_job w) (outbox w) (log w))
    | None => (tt, w)
    end.

Definition take_pending (id : nat) : M (option Job) :=
  λ w,
    match find_job id (pending w) with
    | Some j =>
        (Some j, mkWorld (active_timers w) (job_queue w)
                   (unqueue j (pending w)) (next_job w) (outbox w) (log w))
    | None => (None, w)
    end.

Definition run_callback (id : nat) (delivered : bool) : M unit :=
  let* found := take_pending id in
  match found with
  | Some j => timer_callback delivered j
  | None => pass
  end.

(** What can happen to the bot: an update from a user, with the readings
    of the environment its handler takes, or a move of the scheduler.  A
    handler is run as one step.  In the source a handler gives way to
    others only at an [await], and the calls a handler makes to the
    registry lie between two of them; the one exception is the cancel
    button, where the list view is read after the answer has been
    awaited. *)
Inductive event :=
| EvStart (user_id : Z)
| EvHelp (user_id : Z)
| EvCancel (user_id : Z)
| EvStatus (user_id : Z)
| EvText (uuid4 : string) (now now' : Z) (user_id : Z) (message_text : string)
| EvButton (now : nat → Z) (edit_ok : bool) (user_id : Z)
    (data : callback_data)
| EvTrigger (id : nat)
| EvCallback (id : nat) (delivered : bool).

Definition step (e : event) : M unit :=
  match e with
  | EvStart user_id => start user_id
  | EvHelp user_id => help_command user_id
  | EvCancel user_id => cancel_timer user_id
  | EvStatus user_id => status_timer user_id
  | EvText uuid4 now now' user_id t => handle_time uuid4 now now' user_id t
  | EvButton now edit_ok user_id data =>
      button_callback now edit_ok user_id data
  | EvTrigger id => trigger id
  | EvCallback id delivered => run_callback id delivered
  end.

(** The state after a computation. *)
Definition exec {A : Type} (m : M A) (w : world) : world := snd (m w).

(** The value of a computation. *)
Definition eval {A : Type} (m : M A) (w : world) : A := fst (m w).

Fixpoint run (es : list event) (w : world) : world :=
  match es with
  | [] => w
  | e :: r => run r (exec (step e) w)
  end.

Inductive reachable : world → Prop :=
| reachable_init : reachable initial_world
| reachable_step e w : reachable w → reachable (exec (step e) w).

(** The registry invariant of section 3: no user is stored with an empty
    dict. *)
Definition no_empty_entry (w : world) : Prop :=
  ∀ user_id user_timers,
    active_timers w !! user_id = Some user_timers → user_timers ≠ [].

(** ** Maps used in the statements *)

(** The map after [setdefault(user_id, {})]. *)
Definition touched (user_id : Z) (m : gmap Z (list (string * timer_info)))
  : gmap Z (list (string * timer_info)) :=
  match m !! user_id with
  | Some _ => m
  | None => <[user_id := []]> m
  end.

(** The map after [remove_timer] has deleted [timer_id] from the dict [d]
    of [user_id]: the entry of the user goes when the dict is left empty. *)
Definition after_removal (user_id : Z) (timer_id : string)
    (d : list (string * timer_info)) (m : gmap Z (list (string * timer_info)))
  : gmap Z (list (string * timer_info)) :=
  if dict_empty (dict_del timer_id d) then delete user_id m
  else <[user_id := dict_del timer_id d]> m.


(** ** Sample runs *)

(** Two timers for user 7 and one for user 8. *)
Definition sample_world : world :=
  run [EvText "aaaaaaaa-0000" 0 1 7 "90";
       EvText "bbbbbbbb-0000" 10 11 7 "0200";
       EvText "cccccccc-0000" 20 21 8 "5"] initial_world.

(** A timer is created, its job comes due, and the user cancels the timer
    before the pending callback runs. *)
Definition cancelled_while_pending : world :=
  run [EvText "aaaaaaaa-0000" 0 1 7 "90";
       EvTrigger 0;
       EvButton (λ _, 2) true 7 (CancelTimerData "aaaaaaaa")] initial_world.

(** One timer for user 7. *)
Definition one_timer_world : world :=
  run [EvText "aaaaaaaa-0000" 0 1 7 "90"] initial_world.

(** Three timers for user 7. *)
Definition three_timers_world : world :=
  run [EvText "aaaaaaaa-0000" 0 1 7 "90";
       EvText "bbbbbbbb-0000" 10 11 7 "0200";
       EvText "cccccccc-0000" 20 21 7 "5"] initial_world.

(** ** Capacity *)

(** No user holds more than [MAX_TIMERS_PER_USER] timers. *)
Definition capacity_ok (w : world) : Prop :=
  ∀ user_id, count_of w user_id <= MAX_TIMERS_PER_USER.

(** No user has more timers in [w'] than in [w]. *)
Definition no_growth (w w' : world) : Prop :=
  ∀ user_id,
    (length (timers_of w' user_id) ≤ length (timers_of w user_id))%nat.

(** A computation after which no user has more timers than before. *)
Definition NoGrowth {A : Type} (m : M A) : Prop :=
  ∀ w, no_growth w (exec m w).

(** The dict [handle_time] stores for a timer of [hours] and [minutes]
    when the job counter stands at [next]. *)
Definition created_timer (uuid4 : string) (now now' : Z) (user_id : Z)
    (hours minutes : Z) (next : nat) : timer_info :=
  let total_seconds := hours * 3600 + minutes * 60 in
  let display :=
    if hours >? 0 then DisplayHM hours minutes else DisplayM minutes in
  let end_time := now + timedelta_of_seconds total_seconds in
  let description := mkDescription display end_time in
  mkTimerInfo description end_time
    (Some (mkJob next total_seconds user_id (str_take 8 uuid4) description
             display))
    now'.

(** Ten timers for user 7. *)
Definition full_world : world :=
  run [EvText "00000000" 0 0 7 "1"; EvText "11111111" 1 1 7 "2";
       EvText "22222222" 2 2 7 "3"; EvText "33333333" 3 3 7 "4";
       EvText "44444444" 4 4 7 "5"; EvText "55555555" 5 5 7 "6";
       EvText "66666666" 6 6 7 "7"; EvText "77777777" 7 7 7 "8";
       EvText "88888888" 8 8 7 "9"; EvText "99999999" 9 9 7 "10"]
      initial_world.

(** ** The view, in the statements *)

(** The order of the list view. *)
Definition created_before (x y : string * timer_info) : Prop :=
  created_at (snd x) <= created_at (snd y).

(** The rows shown for the entries [page_timers], numbered from
    [start_idx + 1]. *)
Definition rows_for (now : nat → Z) (start_idx : Z)
    (page_timers : list (string * timer_info)) : list row :=
  imap (λ k (entry : string * timer_info),
          mkRow (start_idx + 1 + Z.of_nat k) (fst entry)
                (description (snd entry))
                (status_at (now k) (end_time (snd entry))))
       page_timers.

(** Seven timers for user 7, not created in the order of their ids' first
    use: the clock readings of [add_timer] are 3, 1, 2, 7, 5, 6, 4. *)
Definition seven_timers_world : world :=
  run [EvText "00000000" 0 3 7 "1"; EvText "11111111" 0 1 7 "2";
       EvText "22222222" 0 2 7 "3"; EvText "33333333" 0 7 7 "4";
       EvText "44444444" 0 5 7 "5"; EvText "55555555" 0 6 7 "6";
       EvText "66666666" 0 4 7 "7"] initial_world.

(** ** Changes of the registry, in the statements *)

(** The dicts of all users after a run of changes to the dict of
    [user_id] alone: deletions of a key and assignments to a key. *)
Inductive evolve_on (user_id : Z)
  : (Z → list (string * timer_info)) → (Z → list (string * timer_info))
    → Prop :=
| evolve_same f g : (∀ o, g o = f o) → evolve_on user_id f g
| evolve_del f g h timer_id :
    evolve_on user_id f g →
    (∀ o, h o = if decide (o = user_id)
                then dict_del timer_id (g user_id) else g o) →
    evolve_on user_id f h
| evolve_set f g h timer_id info :
    evolve_on user_id f g →
    (∀ o, h o = if decide (o = user_id)
                then dict_set timer_id info (g user_id) else g o) →
    evolve_on user_id f h.

(** A computation that changes the dict of [user_id] alone. *)
Definition EvolvesOn {A : Type} (user_id : Z) (m : M A) : Prop :=
  ∀ w, evolve_on user_id (timers_of w) (timers_of (exec m w)).

(** The user an event acts for: the sender of an update, the owner of the
    job whose callback runs. *)
Definition actor (e : event) (w : world) : Z :=
  match e with
  | EvStart user_id | EvHelp user_id | EvCancel user_id
  | EvStatus user_id => user_id
  | EvText _ _ _ user_id _ => user_id
  | EvButton _ _ user_id _ => user_id
  | EvTrigger _ => 0
  | EvCallback id _ =>
      match find_job id (pending w) with
      | Some j => job_user_id j
      | None => 0
      end
  end.

(** Every user's timer ids are pairwise distinct. *)
Definition ids_distinct (w : world) : Prop :=
  ∀ user_id, NoDup (map fst (timers_of w user_id)).

(** ** Events that only read, in the statements *)

(** The events whose handlers only look at the registry: the commands
    start, help and status, and the buttons that show a page of the list,
    the prompt for a new timer, the help or the examples. *)
Definition reads_only (e : event) : bool :=
  match e with
  | EvStart _ | EvHelp _ | EvStatus _ => true
  | EvButton _ _ _ data =>
      match data with
      | ListTimers | TimersPage _ | NewTimer | Help | Examples => true
      | CancelTimerData _ | CancelAllTimers => false
      end
  | _ => false
  end.

(** [w'] has the timers, the jobs and the log of [w]. *)
Definition same_registry (w w' : world) : Prop :=
  (∀ o, timers_of w' o = timers_of w o)
  ∧ job_queue w' = job_queue w
  ∧ pending w' = pending w
  ∧ next_job w' = next_job w
  ∧ log w' = log w.

(** A computation that leaves the timers, the jobs and the log alone. *)
Definition Quiet {A : Type} (m : M A) : Prop :=
  ∀ w, same_registry w (exec m w).

(** The ids on the cancel buttons of a keyboard, read row by row. *)
Definition cancel_ids (keyboard : list (list callback_data)) : list string :=
  flat_map (λ b, match b with CancelTimerData timer_id => [timer_id]
                 | _ => [] end)
           (concat keyboard).

(** The ids listed on a page of the view of [user_id]. *)
Definition page_ids (now : nat → Z) (user_id : Z) (w : world) (page : nat)
    : list string :=
  map row_timer_id
    (rows_of (eval (format_timer_list now user_id (Z.of_nat page) 5) w).1).

(** ** Timers and their jobs, in the statements *)

(** The jobs the scheduler still holds: queued, or triggered with the
    callback pending. *)
Definition live_jobs (w : world) : list Job := job_queue w ++ pending w.

(** The world with [pending] replaced. *)
Definition with_pending (w : world) (p : list Job) : world :=
  mkWorld (active_timers w) (job_queue w) p (next_job w) (outbox w) (log w).

(** Every timer in the registry has a job that names the timer's owner
    and id and that the scheduler still holds; the live jobs have pairwise
    distinct identities, below the counter, and a delay between one minute
    and 23 hours 59 minutes. *)
Record jobs_ok (w : world) : Prop := mkJobsOk {
  stored_job_live :
    ∀ user_id timer_id info,
      dict_get timer_id (timers_of w user_id) = Some info →
      ∃ j, job info = Some j ∧ job_user_id j = user_id
           ∧ job_timer_id j = timer_id ∧ j ∈ live_jobs w;
  live_ids_below : ∀ j, j ∈ live_jobs w → (job_id j < next_job w)%nat;
  live_ids_distinct : NoDup (map job_id (live_jobs w));
  live_delays : ∀ j, j ∈ live_jobs w → 60 <= job_when j <= 86340 }.

(** The invariant the events keep: timers have live jobs and ids are
    distinct. *)
Definition registry_ok (w : world) : Prop := jobs_ok w ∧ ids_distinct w.

(** A computation that keeps [registry_ok]. *)
Definition Keeps {A : Type} (m : M A) : Prop :=
  ∀ w, registry_ok w → registry_ok (exec m w).

(** A computation that neither reads nor writes the pending callbacks. *)
Definition IgnoresPending {A : Type} (m : M A) : Prop :=
  ∀ w p, m (with_pending w p) = ((m w).1, with_pending (m w).2 p).

(** * Properties *)

(** ** The time parser *)

Example parse_90 : validate_time_format "90" = Some (1, 30).
Proof. reflexivity. Qed.

Example parse_0200 : validate_time_format "0200" = Some (2, 0).
Proof. reflexivity. Qed.

Example parse_0000 : validate_time_format "0000" = None.
Proof. reflexivity. Qed.

Example parse_999 : validate_time_format "999" = Some (16, 39).
Proof. reflexivity. Qed.

Example parse_2359 : validate_time_format "2359" = Some (23, 59).
Proof. reflexivity. Qed.

Example parse_2400 : validate_time_format "2400" = None.
Proof. reflexivity. Qed.

Example parse_12345 : validate_time_format "12345" = None.
Proof. reflexivity. Qed.

Section ParserFacts.

Lemma is_digit_code c : is_digit c = true → 48 <= code c <= 57.
Proof. unfold is_digit. intros H. apply andb_prop in H. lia. Qed.

Lemma digit_not_space c : is_digit c = true → is_space c = false.
Proof.
  intros H%is_digit_code. unfold is_space. cbv zeta.
  replace (code c <=? 13) with false by (symmetry; apply Z.leb_gt; lia).
  replace (code c <=? 32) with false by (symmetry; apply Z.leb_gt; lia).
  replace (code c =? 133) with false by (symmetry; apply Z.eqb_neq; lia).
  replace (code c =? 160) with false by (symmetry; apply Z.eqb_neq; lia).
  by rewrite !andb_false_r.
Qed.

Lemma digit_not_char c (x : ascii) :
  is_digit c = true → ¬ (48 <= code x <= 57) → Ascii.eqb c x = false.
Proof.
  intros H%is_digit_code Hx. apply Ascii.eqb_neq. intros ->. lia.
Qed.

Lemma digit_value_bounds c : is_digit c = true → 0 <= digit_value c <= 9.
Proof. intros H%is_digit_code. unfold digit_value. lia. Qed.

(** Without a final line feed the pattern accepts exactly the non-empty
    strings of digits. *)
Lemma match_digits_end_no_LF s :
  ends_with_LF s = false → match_digits_end s = all_digits s.
Proof.
  induction s as [|c r IH]; [done|]. intros HLF. simpl.
  destruct (is_digit c) eqn:Hd; simpl.
  - apply IH. destruct r; [done | exact HLF].
  - destruct (Ascii.eqb c LF) eqn:Hc; [|done].
    destruct r; [|done]. simpl in HLF. congruence.
Qed.

Lemma re_match_digits_no_LF s :
  ends_with_LF s = false →
  re_match_digits s = all_digits s && negb (String.eqb s "").
Proof.
  destruct s as [|c r]; [done|]. intros HLF. simpl.
  rewrite andb_true_r. f_equal.
  apply match_digits_end_no_LF. destruct r; [done | exact HLF].
Qed.

(** [int] on a string of digits is its decimal value. *)
Lemma int_digits_decimal s acc seen :
  all_digits s = true → s ≠ EmptyString ∨ seen = true →
  int_digits acc seen (list_ascii_of_string s) = Some (decimal acc s).
Proof.
  revert acc seen. induction s as [|c r IH]; intros acc seen Hall Hne.
  - destruct Hne as [? | ->]; done.
  - simpl in *. apply andb_prop in Hall as [Hc Hr]. rewrite Hc.
    apply IH; auto.
Qed.

Lemma lstrip_digit c l : is_digit c = true → lstrip (c :: l) = c :: l.
Proof. intros H. simpl. by rewrite digit_not_space. Qed.

Lemma all_digits_last s c l :
  all_digits s = true → rev (list_ascii_of_string s) = c :: l →
  is_digit c = true.
Proof.
  revert c l. induction s as [|a r IH]; intros c l Hall Hrev; [done|].
  simpl in *. apply andb_prop in Hall as [Ha Hr].
  destruct (rev (list_ascii_of_string r)) as [|c' l'] eqn:E.
  - simpl in Hrev. congruence.
  - simpl in Hrev. injection Hrev as -> _. eauto.
Qed.

Lemma py_int_digits s :
  all_digits s = true → s ≠ EmptyString → py_int s = Some (decimal 0 s).
Proof.
  intros Hall Hne. unfold py_int.
  destruct s as [|c r]; [done|].
  pose proof Hall as Hall'. simpl in Hall'.
  apply andb_prop in Hall' as [Hc Hr].
  change (list_ascii_of_string (String c r))
    with (c :: list_ascii_of_string r).
  rewrite lstrip_digit by done.
  assert (rstrip (c :: list_ascii_of_string r)
          = c :: list_ascii_of_string r) as ->.
  { unfold rstrip.
    destruct (rev (c :: list_ascii_of_string r)) as [|z l] eqn:E.
    - apply (f_equal (@length _)) in E. rewrite length_rev in E. done.
    - rewrite lstrip_digit.
      + by rewrite <- E, rev_involutive.
      + eapply (all_digits_last (String c r)); [exact Hall | exact E]. }
  unfold int_signed.
  rewrite (digit_not_char c "-")
    by (done || (change (code "-") with 45; lia)).
  rewrite (digit_not_char c "+")
    by (done || (change (code "+") with 43; lia)).
  apply (int_digits_decimal (String c r)); auto.
Qed.

Lemma decimal_nonneg s acc :
  all_digits s = true → 0 <= acc → 0 <= decimal acc s.
Proof.
  revert acc. induction s as [|c r IH]; intros acc Hall Hacc; [done|].
  simpl in *. apply andb_prop in Hall as [Hc Hr].
  apply IH; [done|]. apply digit_value_bounds in Hc. lia.
Qed.

End ParserFacts.

(** On every string that does not end with a line feed,
    [validate_time_format] is the parser of the specification. *)
Lemma validate_time_format_refines_spec (time_str : string) :
  ends_with_LF time_str = false →
  validate_time_format time_str = parse_spec time_str.
Proof.
  intros HLF. unfold validate_time_format, parse_spec.
  rewrite re_match_digits_no_LF by done.
  destruct (all_digits time_str) eqn:Hall; [|done]. simpl.
  destruct time_str as [|a [|b [|c [|d [|e r]]]]]; try done.
  - (* one digit *)
    rewrite py_int_digits by done. cbn [negb String.eqb len String.length].
    by destruct (_ && _).
  - rewrite py_int_digits by done. cbn [negb String.eqb len String.length].
    by destruct (_ && _).
  - rewrite py_int_digits by done. cbn [negb String.eqb len String.length].
    by destruct (_ && _).
  - (* four digits *)
    cbn [negb String.eqb len String.length str_take str_drop].
    simpl in Hall.
    apply andb_prop in Hall as [Ha Hall]. apply andb_prop in Hall as [Hb Hall].
    apply andb_prop in Hall as [Hc Hall]. apply andb_prop in Hall as [Hd _].
    rewrite !py_int_digits by (simpl; rewrite ?Ha, ?Hb, ?Hc, ?Hd; done).
    change (Z.of_nat 4 <=? 3) with false. change (Z.of_nat 4 =? 4) with true.
    cbv iota.
    assert (0 <= decimal 0 (String a (String b EmptyString))) as H1.
    { apply decimal_nonneg; [simpl; by rewrite Ha, Hb | lia]. }
    assert (0 <= decimal 0 (String c (String d EmptyString))) as H2.
    { apply decimal_nonneg; [simpl; by rewrite Hc, Hd | lia]. }
    apply Z.leb_le in H1, H2. rewrite H1, H2. simpl.
    repeat (destruct (_ <=? _)); simpl; try done;
      repeat (destruct (_ =? _)); done.
  - (* five characters or more *)
    cbn [negb String.eqb]. unfold len.
    assert (Z.of_nat (String.length
              (String a (String b (String c (String d (String e r))))))
            >= 5) as Hlen by (simpl; lia).
    destruct (_ <=? 3) eqn:E1; [apply Z.leb_le in E1; lia|].
    destruct (_ =? 4) eqn:E2; [apply Z.eqb_eq in E2; lia|]. done.
Qed.

(** C2: on every string that does not end with a line feed the parser is
    the case analysis of the specification; but it accepts a string that
    holds a character other than a digit.  On the two-character string
    made of the digit 5 and a line feed [validate_time_format] returns
    (0, 5), where the claim and the comment in the source (the string
    consists of digits only) ask for a rejection. *)
Theorem validate_time_format_accepts_final_line_feed :
  (∀ time_str,
     ends_with_LF time_str = false →
     validate_time_format time_str = parse_spec time_str)
  ∧ (let time_str := String "5" (String LF EmptyString) in
     all_digits time_str = false
     ∧ parse_spec time_str = None
     ∧ validate_time_format time_str = Some (0, 5)).
Proof.
  split.
  - apply validate_time_format_refines_spec.
  - by vm_compute.
Qed.

Lemma validate_time_format_accepts_final_line_feed_witness :
  ends_with_LF "90" = false
  ∧ validate_time_format "90" = parse_spec "90"
  ∧ parse_spec "90" = Some (1, 30).
Proof.
  assert (ends_with_LF "90" = false) as Hend by reflexivity.
  split; [exact Hend|]. split; [|reflexivity].
  exact (proj1 validate_time_format_accepts_final_line_feed "90" Hend).
Defined.

(** The same slip on the four-character path: three digits and a line feed
    are read as HHMM. *)
Example validate_time_format_three_digits_line_feed :
  validate_time_format (String "1" (String "2" (String "3" (String LF ""))))
  = Some (12, 3).
Proof. reflexivity. Qed.

(** C3, as stated, fails: the input 1000 has four digits, is read as HHMM
    and yields ten hours. *)
Lemma validate_time_format_1000_is_a_value :
  validate_time_format "1000" = Some (10, 0).
Proof. reflexivity. Qed.

(** C3, amended: the inputs 0, abcd and the empty string are rejected; the
    input 1000 is the four-digit time 10:00 and yields (10, 0). *)
Theorem validate_time_format_listed_inputs :
  validate_time_format "0" = None
  ∧ validate_time_format "abcd" = None
  ∧ validate_time_format "" = None
  ∧ validate_time_format "1000" = Some (10, 0).
Proof. by vm_compute. Qed.

(** ** The registry *)

Section RegistryFacts.

Implicit Types (w : world) (user_id : Z) (timer_id : string).
Implicit Types (m : gmap Z (list (string * timer_info))).
Implicit Types (d : list (string * timer_info)).

Lemma run_pair {A : Type} (m : M A) w : m w = (eval m w, exec m w).
Proof. unfold eval, exec. by destruct (m w). Qed.

Lemma exec_bind {A B : Type} (m : M A) (f : A → M B) w :
  exec (bind m f) w = exec (f (eval m w)) (exec m w).
Proof. unfold exec, eval, bind. by destruct (m w). Qed.

Lemma eval_bind {A B : Type} (m : M A) (f : A → M B) w :
  eval (bind m f) w = eval (f (eval m w)) (exec m w).
Proof. unfold exec, eval, bind. by destruct (m w). Qed.

Lemma timers_of_send dl chat t kb w other :
  timers_of (exec (send dl chat t kb) w) other = timers_of w other.
Proof. done. Qed.

Lemma outbox_send dl chat t kb w :
  outbox (exec (send dl chat t kb) w) = outbox w ++ [mkSent dl chat t kb].
Proof. done. Qed.

Lemma count_of_ext w w' user_id :
  (∀ other, timers_of w' other = timers_of w other) →
  count_of w' user_id = count_of w user_id.
Proof. intros H. unfold count_of. by rewrite H. Qed.

Lemma touched_lookup user_id m :
  touched user_id m !! user_id = Some (default [] (m !! user_id)).
Proof.
  unfold touched. destruct (m !! user_id) eqn:E; simpl; [done|].
  apply lookup_insert_eq.
Qed.

Lemma touched_lookup_ne user_id user_id' m :
  user_id ≠ user_id' → touched user_id m !! user_id' = m !! user_id'.
Proof.
  intros Hne. unfold touched. destruct (m !! user_id); [done|].
  by apply lookup_insert_ne.
Qed.

Lemma insert_touched user_id d m :
  <[user_id := d]> (touched user_id m) = <[user_id := d]> m.
Proof.
  unfold touched. destruct (m !! user_id); [done|].
  apply insert_insert_eq.
Qed.

Lemma get_user_timers_run user_id w :
  get_user_timers user_id w
  = (timers_of w user_id, with_timers w (touched user_id (active_timers w))).
Proof.
  unfold get_user_timers, bind, get_active_timers, timers_of, touched.
  destruct (active_timers w !! user_id) eqn:E; simpl; [|done].
  by destruct w.
Qed.

Lemma get_timer_count_run user_id w :
  get_timer_count user_id w
  = (count_of w user_id, with_timers w (touched user_id (active_timers w))).
Proof.
  unfold get_timer_count, bind. by rewrite get_user_timers_run.
Qed.

Lemma eval_get_user_timers user_id w :
  eval (get_user_timers user_id) w = timers_of w user_id.
Proof. unfold eval. by rewrite get_user_timers_run. Qed.

Lemma eval_get_timer_count user_id w :
  eval (get_timer_count user_id) w = count_of w user_id.
Proof. unfold eval. by rewrite get_timer_count_run. Qed.

Lemma outbox_get_timer_count user_id w :
  outbox (exec (get_timer_count user_id) w) = outbox w.
Proof. unfold exec. by rewrite get_timer_count_run. Qed.

Lemma add_timer_run now user_id timer_id description end_time job w :
  add_timer now user_id timer_id description end_time job w
  = (tt, with_timers w
           (<[user_id :=
                dict_set timer_id
                  (mkTimerInfo description end_time job now)
                  (timers_of w user_id)]> (active_timers w))).
Proof.
  unfold add_timer, bind. rewrite get_user_timers_run.
  unfold store_user_timers, bind, get_active_timers, set_active_timers.
  simpl. unfold with_timers. simpl. by rewrite insert_touched.
Qed.

(** [cancel_job] leaves the registry, the pending callbacks and the
    outbox as they are; it never fails. *)
Lemma cancel_job_frame timer_id job w :
  let w' := exec (cancel_job timer_id job) w in
  active_timers w' = active_timers w ∧ pending w' = pending w
  ∧ outbox w' = outbox w ∧ next_job w' = next_job w.
Proof.
  unfold exec, cancel_job. destruct job as [j|]; [|done].
  unfold bind, schedule_removal.
  destruct (queued j (job_queue w)); done.
Qed.

(** A queued job is off the queue after [cancel_job]. *)
Lemma cancel_job_unqueues timer_id j w :
  job_queue (exec (cancel_job timer_id (Some j)) w)
  = unqueue j (job_queue w).
Proof.
  unfold exec, cancel_job, bind, schedule_removal.
  destruct (queued j (job_queue w)) eqn:E; simpl; [done|].
  unfold unqueue, queued in *. symmetry.
  induction (job_queue w) as [|x q IH]; [done|]. simpl in *.
  apply orb_false_elim in E as [-> E]. simpl. f_equal. auto.
Qed.

Lemma remove_timer_missing user_id timer_id w :
  dict_get timer_id (timers_of w user_id) = None →
  remove_timer user_id timer_id w
  = (false, with_timers w (touched user_id (active_timers w))).
Proof.
  intros H. unfold remove_timer, bind. rewrite get_user_timers_run.
  by rewrite H.
Qed.

Lemma remove_timer_found user_id timer_id info w :
  dict_get timer_id (timers_of w user_id) = Some info →
  remove_timer user_id timer_id w
  = (true,
     with_timers (exec (cancel_job timer_id (job info)) w)
       (after_removal user_id timer_id (timers_of w user_id)
          (active_timers w))).
Proof.
  intros H. unfold remove_timer, bind. rewrite get_user_timers_run, H.
  unfold exec.
  destruct (cancel_job timer_id (job info)
              (with_timers w (touched user_id (active_timers w))))
    as [[] w1] eqn:E1.
  destruct (cancel_job timer_id (job info) w) as [[] w2] eqn:E2.
  assert (w1 = with_timers w2 (touched user_id (active_timers w))) as ->.
  { unfold cancel_job in *. destruct (job info) as [j|].
    - unfold bind, schedule_removal in *. simpl in *.
      destruct (queued j (job_queue w)); simpl in *;
        injection E1 as <-; injection E2 as <-; done.
    - unfold pass, ret in *. injection E1 as <-. injection E2 as <-.
      done. }
  unfold store_user_timers, pop_user, bind, get_active_timers,
    set_active_timers, after_removal. simpl.
  destruct (dict_empty (dict_del timer_id (timers_of w user_id))); simpl.
  - unfold with_timers. simpl. f_equal. f_equal.
    rewrite insert_touched. apply delete_insert_eq.
  - unfold pass, ret, with_timers. simpl. f_equal. f_equal.
    apply insert_touched.
Qed.

End RegistryFacts.

(** ** Dicts *)

Section DictFacts.
Context {V : Type}.
Implicit Types (k : string) (v : V) (d : list (string * V)).

Lemma dict_get_set_eq k v d : dict_get k (dict_set k v d) = Some v.
Proof.
  induction d as [|[k' v'] r IH]; simpl.
  - by rewrite decide_True.
  - destruct (decide (k = k')) as [->|Hne]; simpl.
    + by rewrite decide_True.
    + by rewrite decide_False.
Qed.

Lemma dict_get_set_ne k k' v d :
  k' ≠ k → dict_get k' (dict_set k v d) = dict_get k' d.
Proof.
  intros Hne. induction d as [|[k0 v0] r IH]; simpl.
  - by rewrite decide_False.
  - destruct (decide (k = k0)) as [->|Hk]; simpl.
    + by rewrite !decide_False.
    + by rewrite IH.
Qed.

Lemma dict_get_del_ne k k' d :
  k' ≠ k → dict_get k' (dict_del k d) = dict_get k' d.
Proof.
  intros Hne. induction d as [|[k0 v0] r IH]; simpl; [done|].
  destruct (decide (k = k0)) as [->|Hk]; simpl.
  - by rewrite decide_False.
  - by rewrite IH.
Qed.

Lemma dict_del_missing k d : dict_get k d = None → dict_del k d = d.
Proof.
  induction d as [|[k0 v0] r IH]; simpl; [done|].
  destruct (decide (k = k0)); [done|]. intros H. by rewrite IH.
Qed.

Lemma length_dict_set_new k v d :
  dict_get k d = None → length (dict_set k v d) = S (length d).
Proof.
  induction d as [|[k0 v0] r IH]; simpl; [done|].
  destruct (decide (k = k0)); [done|]. intros H. simpl. by rewrite IH.
Qed.

Lemma length_dict_set_old k v v' d :
  dict_get k d = Some v' → length (dict_set k v d) = length d.
Proof.
  induction d as [|[k0 v0] r IH]; simpl; [done|].
  destruct (decide (k = k0)); [done|]. intros H. simpl. by rewrite IH.
Qed.

Lemma length_dict_set_le k v d :
  (length (dict_set k v d) ≤ S (length d))%nat.
Proof.
  destruct (dict_get k d) eqn:E.
  - erewrite length_dict_set_old by done. lia.
  - rewrite length_dict_set_new by done. lia.
Qed.

Lemma length_dict_del_found k v d :
  dict_get k d = Some v → S (length (dict_del k d)) = length d.
Proof.
  induction d as [|[k0 v0] r IH]; simpl; [done|].
  destruct (decide (k = k0)); [done|]. intros H. simpl. by rewrite IH.
Qed.

Lemma length_dict_del_le k d : (length (dict_del k d) ≤ length d)%nat.
Proof.
  destruct (dict_get k d) eqn:E.
  - apply length_dict_del_found in E. lia.
  - by rewrite dict_del_missing.
Qed.

Lemma dict_empty_nil d : dict_empty d = true ↔ d = [].
Proof. by destruct d. Qed.

End DictFacts.

(** ** What the registry functions do to the dict of each user *)

Section TimersOf.

Implicit Types (w : world) (user_id other : Z) (timer_id : string).

Lemma timers_of_touched w user_id other :
  timers_of (with_timers w (touched user_id (active_timers w))) other
  = timers_of w other.
Proof.
  unfold timers_of. simpl. destruct (decide (user_id = other)) as [->|Hne].
  - by rewrite touched_lookup.
  - by rewrite touched_lookup_ne.
Qed.

Lemma timers_of_after_removal w w0 user_id timer_id other :
  timers_of
    (with_timers w0
       (after_removal user_id timer_id (timers_of w user_id)
          (active_timers w))) other
  = if decide (other = user_id)
    then dict_del timer_id (timers_of w user_id)
    else timers_of w other.
Proof.
  unfold timers_of at 1, after_removal. simpl.
  destruct (dict_empty _) eqn:E.
  - apply dict_empty_nil in E. rewrite E.
    destruct (decide (other = user_id)) as [->|Hne].
    + by rewrite lookup_delete_eq.
    + by rewrite lookup_delete_ne.
  - destruct (decide (other = user_id)) as [->|Hne].
    + by rewrite lookup_insert_eq.
    + by rewrite lookup_insert_ne.
Qed.

Lemma timers_of_get_user_timers w user_id other :
  timers_of (exec (get_user_timers user_id) w) other = timers_of w other.
Proof.
  unfold exec. rewrite get_user_timers_run. apply timers_of_touched.
Qed.

Lemma timers_of_get_timer_count w user_id other :
  timers_of (exec (get_timer_count user_id) w) other = timers_of w other.
Proof.
  unfold exec. rewrite get_timer_count_run. apply timers_of_touched.
Qed.

Lemma timers_of_add_timer now user_id timer_id description end_time job w
    other :
  timers_of
    (exec (add_timer now user_id timer_id description end_time job) w) other
  = if decide (other = user_id)
    then dict_set timer_id (mkTimerInfo description end_time job now)
           (timers_of w user_id)
    else timers_of w other.
Proof.
  unfold exec. rewrite add_timer_run. unfold timers_of at 1. simpl.
  destruct (decide (other = user_id)) as [->|Hne].
  - by rewrite lookup_insert_eq.
  - by rewrite lookup_insert_ne.
Qed.

Lemma remove_timer_result w user_id timer_id :
  eval (remove_timer user_id timer_id) w
  = dict_mem timer_id (timers_of w user_id).
Proof.
  unfold eval, dict_mem.
  destruct (dict_get timer_id (timers_of w user_id)) eqn:E.
  - by erewrite remove_timer_found.
  - by rewrite remove_timer_missing.
Qed.

Lemma timers_of_remove_timer w user_id timer_id other :
  timers_of (exec (remove_timer user_id timer_id) w) other
  = if decide (other = user_id)
    then dict_del timer_id (timers_of w user_id)
    else timers_of w other.
Proof.
  unfold exec.
  destruct (dict_get timer_id (timers_of w user_id)) eqn:E.
  - erewrite remove_timer_found by done. simpl.
    apply timers_of_after_removal.
  - rewrite remove_timer_missing by done. simpl.
    rewrite timers_of_touched, dict_del_missing by done.
    by destruct (decide (other = user_id)) as [->|].
Qed.

(** Other users keep their entry in [active_timers] itself. *)
Lemma add_timer_other now user_id timer_id description end_time job w other :
  other ≠ user_id →
  active_timers
    (exec (add_timer now user_id timer_id description end_time job) w)
    !! other
  = active_timers w !! other.
Proof.
  intros Hne. unfold exec. rewrite add_timer_run. simpl.
  by rewrite lookup_insert_ne.
Qed.

Lemma remove_timer_other w user_id timer_id other :
  other ≠ user_id →
  active_timers (exec (remove_timer user_id timer_id) w) !! other
  = active_timers w !! other.
Proof.
  intros Hne. unfold exec.
  destruct (dict_get timer_id (timers_of w user_id)) eqn:E.
  - erewrite remove_timer_found by done. simpl. unfold after_removal.
    destruct (dict_empty _).
    + by rewrite lookup_delete_ne.
    + by rewrite lookup_insert_ne.
  - rewrite remove_timer_missing by done. simpl.
    by rewrite touched_lookup_ne.
Qed.

End TimersOf.

(** C10: [add_timer] and [remove_timer] for user [user_id] and timer
    [timer_id] leave the entry of every other user in [active_timers] as it
    was, and leave every other timer of [user_id], with its description,
    end time, creation time and job, as it was. *)
Theorem single_timer_mutation_frame now user_id timer_id description end_time
    job w other timer_id' :
  other ≠ user_id → timer_id' ≠ timer_id →
  let w_add :=
    exec (add_timer now user_id timer_id description end_time job) w in
  let w_rem := exec (remove_timer user_id timer_id) w in
  active_timers w_add !! other = active_timers w !! other
  ∧ active_timers w_rem !! other = active_timers w !! other
  ∧ dict_get timer_id' (timers_of w_add user_id)
    = dict_get timer_id' (timers_of w user_id)
  ∧ dict_get timer_id' (timers_of w_rem user_id)
    = dict_get timer_id' (timers_of w user_id).
Proof.
  intros Hother Htimer. cbv zeta. split_and!.
  - by apply add_timer_other.
  - by apply remove_timer_other.
  - rewrite timers_of_add_timer, decide_True by done.
    by apply dict_get_set_ne.
  - rewrite timers_of_remove_timer, decide_True by done.
    by apply dict_get_del_ne.
Qed.

Lemma single_timer_mutation_frame_witness :
  (8 ≠ 7 ∧ "bbbbbbbb" ≠ "aaaaaaaa")
  ∧ let d := mkDescription (DisplayM 3) 9 in
    let w_add := exec (add_timer 30 7 "aaaaaaaa" d 9 None) sample_world in
    let w_rem := exec (remove_timer 7 "aaaaaaaa") sample_world in
    active_timers w_add !! 8 = active_timers sample_world !! 8
    ∧ active_timers w_rem !! 8 = active_timers sample_world !! 8
    ∧ dict_get "bbbbbbbb" (timers_of w_add 7)
      = dict_get "bbbbbbbb" (timers_of sample_world 7)
    ∧ dict_get "bbbbbbbb" (timers_of w_rem 7)
      = dict_get "bbbbbbbb" (timers_of sample_world 7).
Proof.
  split; [split; discriminate|].
  apply single_timer_mutation_frame; discriminate.
Defined.

(** ** Removal *)

Section RemovalFacts.

Implicit Types (w : world) (user_id : Z) (timer_id : string).

Lemma remove_timer_outbox w user_id timer_id :
  outbox (exec (remove_timer user_id timer_id) w) = outbox w.
Proof.
  unfold exec.
  destruct (dict_get timer_id (timers_of w user_id)) eqn:E.
  - erewrite remove_timer_found by done. simpl.
    apply (cancel_job_frame timer_id (job t) w).
  - by rewrite remove_timer_missing.
Qed.

Lemma remove_timer_pending w user_id timer_id :
  pending (exec (remove_timer user_id timer_id) w) = pending w.
Proof.
  unfold exec.
  destruct (dict_get timer_id (timers_of w user_id)) eqn:E.
  - erewrite remove_timer_found by done. simpl.
    apply (cancel_job_frame timer_id (job t) w).
  - by rewrite remove_timer_missing.
Qed.

(** A timer that is found is deleted, its job leaves the queue, and the
    user's entry goes with the last timer. *)
Lemma remove_timer_found_effect w user_id timer_id info :
  dict_get timer_id (timers_of w user_id) = Some info →
  let w' := exec (remove_timer user_id timer_id) w in
  eval (remove_timer user_id timer_id) w = true
  ∧ timers_of w' user_id = dict_del timer_id (timers_of w user_id)
  ∧ (dict_del timer_id (timers_of w user_id) = [] →
     active_timers w' !! user_id = None)
  ∧ (∀ j, job info = Some j → job_queue w' = unqueue j (job_queue w)).
Proof.
  intros H. cbv zeta. split_and!.
  - rewrite remove_timer_result. unfold dict_mem. by rewrite H.
  - by rewrite timers_of_remove_timer, decide_True.
  - intros Hnil. unfold exec. erewrite remove_timer_found by done. simpl.
    unfold after_removal. rewrite Hnil. simpl. apply lookup_delete_eq.
  - intros j Hj. unfold exec. erewrite remove_timer_found by done. simpl.
    rewrite Hj. apply cancel_job_unqueues.
Qed.

(** A timer that is not found: the answer is [False] and every user
    keeps the same timers, jobs and messages. *)
Lemma remove_timer_missing_effect w user_id timer_id :
  dict_get timer_id (timers_of w user_id) = None →
  let w' := exec (remove_timer user_id timer_id) w in
  eval (remove_timer user_id timer_id) w = false
  ∧ (∀ other, timers_of w' other = timers_of w other)
  ∧ job_queue w' = job_queue w ∧ outbox w' = outbox w ∧ log w' = log w.
Proof.
  intros H. cbv zeta. unfold eval, exec.
  rewrite remove_timer_missing by done. simpl. split_and!; try done.
  intros other. apply timers_of_touched.
Qed.

Lemma dict_get_del_eq {V : Type} timer_id (d : list (string * V)) :
  NoDup (map fst d) → dict_get timer_id (dict_del timer_id d) = None.
Proof.
  induction d as [|[k v] r IH]; simpl; [done|].
  intros Hnd. apply NoDup_cons in Hnd as [Hk Hnd].
  destruct (decide (timer_id = k)) as [->|Hne]; simpl.
  - clear IH Hnd. induction r as [|[k' v'] r IH]; simpl; [done|].
    destruct (decide (k = k')) as [->|]; [|apply IH].
    + exfalso. apply Hk. simpl. left.
    + intros Hin. apply Hk. simpl. by right.
  - rewrite decide_False by done. by apply IH.
Qed.

(** Removing the same id twice: found, then not found. *)
Lemma remove_timer_twice w user_id timer_id info :
  NoDup (map fst (timers_of w user_id)) →
  dict_get timer_id (timers_of w user_id) = Some info →
  eval (remove_timer user_id timer_id) w = true
  ∧ eval (remove_timer user_id timer_id)
      (exec (remove_timer user_id timer_id) w) = false.
Proof.
  intros Hnd H. split.
  - rewrite remove_timer_result. unfold dict_mem. by rewrite H.
  - rewrite remove_timer_result. unfold dict_mem.
    rewrite timers_of_remove_timer, decide_True by done.
    by rewrite dict_get_del_eq.
Qed.

(** The entry a removal leaves for a user who had none. *)
Lemma remove_timer_not_found_entry w user_id timer_id :
  active_timers w !! user_id = None →
  active_timers (exec (remove_timer user_id timer_id) w) !! user_id = Some [].
Proof.
  intros Hnone.
  assert (dict_get timer_id (timers_of w user_id) = None) as Hmiss
    by (unfold timers_of; by rewrite Hnone).
  unfold exec. rewrite remove_timer_missing by done. simpl.
  by rewrite touched_lookup, Hnone.
Qed.

End RemovalFacts.

(** C6: a removal that finds nothing is not without effect when the user
    has no entry in [active_timers]: the answer is [False], and
    [get_user_timers] has stored an empty dict for the user, so the
    registry is not what it was. *)
Theorem remove_timer_not_found_adds_entry user_id timer_id w :
  active_timers w !! user_id = None →
  let w' := exec (remove_timer user_id timer_id) w in
  eval (remove_timer user_id timer_id) w = false
  ∧ active_timers w' !! user_id = Some []
  ∧ active_timers w' ≠ active_timers w.
Proof.
  intros Hnone. cbv zeta.
  assert (dict_get timer_id (timers_of w user_id) = None) as Hmiss
    by (unfold timers_of; by rewrite Hnone).
  unfold eval, exec. rewrite remove_timer_missing by done. simpl.
  assert (touched user_id (active_timers w) !! user_id = Some []) as Hnew
    by (by rewrite touched_lookup, Hnone).
  split_and!; try done.
  intros Heq. rewrite Heq in Hnew. congruence.
Qed.

Lemma remove_timer_not_found_adds_entry_witness :
  active_timers initial_world !! 7 = None
  ∧ eval (remove_timer 7 "aaaaaaaa") initial_world = false
  ∧ active_timers (exec (remove_timer 7 "aaaaaaaa") initial_world) !! 7
    = Some [].
Proof.
  assert (active_timers initial_world !! 7 = None) as Hnone by reflexivity.
  split; [exact Hnone|].
  destruct (remove_timer_not_found_adds_entry 7 "aaaaaaaa" initial_world
              Hnone) as (Hres & Hentry & _).
  split; [exact Hres | exact Hentry].
Defined.

(** Removing the only timer of a user twice: the first removal deletes the
    user's entry, the second one, which finds nothing, brings it back,
    empty. *)
Example remove_timer_twice_restores_entry :
  let w1 := exec (remove_timer 7 "aaaaaaaa") one_timer_world in
  let w2 := exec (remove_timer 7 "aaaaaaaa") w1 in
  eval (remove_timer 7 "aaaaaaaa") one_timer_world = true
  ∧ active_timers w1 !! 7 = None
  ∧ eval (remove_timer 7 "aaaaaaaa") w1 = false
  ∧ active_timers w2 !! 7 = Some [].
Proof. by vm_compute. Qed.

(** ** The invariant on empty entries *)

Lemma no_empty_entry_initial : no_empty_entry initial_world.
Proof. intros user_id d H. simpl in H. by rewrite lookup_empty in H. Qed.

Lemma add_timer_no_empty_entry now user_id timer_id description end_time job
    w :
  no_empty_entry w →
  no_empty_entry
    (exec (add_timer now user_id timer_id description end_time job) w).
Proof.
  intros Hinv other d. unfold exec. rewrite add_timer_run. simpl.
  destruct (decide (user_id = other)) as [->|Hne].
  - rewrite lookup_insert_eq. intros [= <-].
    by destruct (timers_of w other) as [|[k v] r]; simpl;
      [|destruct (decide (timer_id = k))].
  - rewrite lookup_insert_ne by done. apply Hinv.
Qed.

Lemma remove_timer_found_no_empty_entry w user_id timer_id info :
  dict_get timer_id (timers_of w user_id) = Some info →
  no_empty_entry w →
  no_empty_entry (exec (remove_timer user_id timer_id) w).
Proof.
  intros H Hinv other d. unfold exec. erewrite remove_timer_found by done.
  simpl. unfold after_removal. destruct (dict_empty _) eqn:E.
  - destruct (decide (user_id = other)) as [->|Hne].
    + by rewrite lookup_delete_eq.
    + rewrite lookup_delete_ne by done. apply Hinv.
  - destruct (decide (user_id = other)) as [->|Hne].
    + rewrite lookup_insert_eq. intros [= <-] Hnil.
      apply dict_empty_nil in Hnil. congruence.
    + rewrite lookup_insert_ne by done. apply Hinv.
Qed.

Lemma active_timers_format_timer_list now user_id page items_per_page w :
  active_timers (exec (format_timer_list now user_id page items_per_page) w)
  = touched user_id (active_timers w).
Proof.
  unfold format_timer_list. rewrite exec_bind.
  destruct (dict_empty _).
  - unfold exec at 2. by rewrite get_user_timers_run.
  - destruct (button_rows _ _ _). unfold exec at 2.
    by rewrite get_user_timers_run.
Qed.

(** C4: the invariant holds in the initial state, and the reading
    functions break it: for a user without an entry, [get_timer_count],
    [get_user_timers], [format_timer_list] and a [remove_timer] that finds
    nothing each leave the user stored with an empty dict. *)
Theorem reads_leave_empty_entry now user_id page timer_id w :
  active_timers w !! user_id = None →
  no_empty_entry initial_world
  ∧ ¬ no_empty_entry (exec (get_timer_count user_id) w)
  ∧ ¬ no_empty_entry (exec (get_user_timers user_id) w)
  ∧ ¬ no_empty_entry (exec (format_timer_list now user_id page 5) w)
  ∧ ¬ no_empty_entry (exec (remove_timer user_id timer_id) w).
Proof.
  intros Hnone.
  assert (touched user_id (active_timers w) !! user_id = Some []) as Hnew
    by (by rewrite touched_lookup, Hnone).
  split; [apply no_empty_entry_initial|].
  split_and!; intros H; apply (H user_id []); try done.
  - unfold exec. by rewrite get_timer_count_run.
  - unfold exec. by rewrite get_user_timers_run.
  - by rewrite active_timers_format_timer_list.
  - by apply remove_timer_not_found_entry.
Qed.

Lemma reads_leave_empty_entry_witness :
  active_timers initial_world !! 7 = None
  ∧ ¬ no_empty_entry (exec (get_timer_count 7) initial_world)
  ∧ ¬ no_empty_entry (exec (format_timer_list (λ _, 0) 7 0 5) initial_world).
Proof.
  assert (active_timers initial_world !! 7 = None) as Hnone by reflexivity.
  split; [exact Hnone|].
  destruct (reads_leave_empty_entry (λ _, 0) 7 0 "aaaaaaaa" initial_world
              Hnone) as (_ & Hcount & _ & Hlist & _).
  split; [exact Hcount | exact Hlist].
Defined.

(** ** The expiry callback *)

(** Whatever [remove_timer] answers, the callback goes on to send the
    notification. *)
Lemma timer_callback_sends w j :
  let user_id := job_user_id j in
  let w1 := exec (remove_timer user_id (job_timer_id j)) w in
  let remaining_count := count_of w1 user_id in
  outbox (exec (timer_callback true j) w)
  = outbox w
    ++ [mkSent Notify user_id
          (TimerFinishedText (job_description j) remaining_count)
          ((if remaining_count >? 0 then [[ListTimers]] else [])
           ++ [[NewTimer]])].
Proof.
  intros user_id w1 remaining_count.
  unfold timer_callback, bind, exec. fold user_id.
  rewrite (run_pair (remove_timer user_id (job_timer_id j)) w).
  fold w1. rewrite get_timer_count_run. simpl. fold remaining_count.
  f_equal. apply remove_timer_outbox.
Qed.

(** C1: a timer that is no longer in the registry when its callback runs
    is still announced: [remove_timer] answers [False], the answer is not
    looked at, and the message that the timer has finished is sent. *)
Theorem timer_callback_notifies_removed_timer w j :
  dict_get (job_timer_id j) (timers_of w (job_user_id j)) = None →
  let user_id := job_user_id j in
  let remaining_count := count_of w user_id in
  eval (remove_timer user_id (job_timer_id j)) w = false
  ∧ outbox (exec (timer_callback true j) w)
    = outbox w
      ++ [mkSent Notify user_id
            (TimerFinishedText (job_description j) remaining_count)
            ((if remaining_count >? 0 then [[ListTimers]] else [])
             ++ [[NewTimer]])].
Proof.
  intros Hmiss. cbv zeta.
  destruct (remove_timer_missing_effect w (job_user_id j) (job_timer_id j)
              Hmiss) as (Hres & Hsame & _).
  split; [exact Hres|].
  rewrite timer_callback_sends.
  by rewrite (count_of_ext w _ (job_user_id j) Hsame).
Qed.

(** The run [cancelled_while_pending]: the user has cancelled the timer and
    the bot has answered so; the pending callback then announces the
    timer. *)
Lemma timer_callback_notifies_removed_timer_witness :
  let w := cancelled_while_pending in
  let d := mkDescription (DisplayHM 1 30) 5400000000 in
  let j := mkJob 0 5400 7 "aaaaaaaa" d (DisplayHM 1 30) in
  (pending w = [j]
   ∧ map text (outbox w)
     = [TimerStartedText "aaaaaaaa" (DisplayHM 1 30) 5400000000 1 10;
        AnswerEmpty; AnswerTimerCancelled "aaaaaaaa"; NoActiveTimersText]
   ∧ dict_get (job_timer_id j) (timers_of w (job_user_id j)) = None)
  ∧ eval (remove_timer 7 "aaaaaaaa") w = false
  ∧ outbox (exec (timer_callback true j) w)
    = outbox w ++ [mkSent Notify 7 (TimerFinishedText d 0) [[NewTimer]]].
Proof.
  cbv zeta.
  set (j := mkJob 0 5400 7 "aaaaaaaa"
              (mkDescription (DisplayHM 1 30) 5400000000) (DisplayHM 1 30)).
  assert (dict_get (job_timer_id j)
            (timers_of cancelled_while_pending (job_user_id j)) = None)
    as Hmiss by reflexivity.
  split; [split_and!; reflexivity|].
  exact (timer_callback_notifies_removed_timer cancelled_while_pending j
           Hmiss).
Defined.

(** ** Cancelling every timer *)

Section CancelAll.

Implicit Types (w : world) (user_id other : Z).




End CancelAll.


(** ** Capacity *)

Section Capacity.

Implicit Types (w : world) (user_id other : Z).

Lemma no_growth_refl w : no_growth w w.
Proof. by intros u. Qed.

Lemma no_growth_trans w1 w2 w3 :
  no_growth w1 w2 → no_growth w2 w3 → no_growth w1 w3.
Proof. intros H1 H2 u. specialize (H1 u). specialize (H2 u). lia. Qed.

Lemma no_growth_same w w' :
  (∀ other, timers_of w' other = timers_of w other) → no_growth w w'.
Proof. intros H u. by rewrite H. Qed.

Lemma no_growth_capacity w w' :
  no_growth w w' → capacity_ok w → capacity_ok w'.
Proof.
  intros Hg Hc u. specialize (Hg u). specialize (Hc u).
  unfold count_of in *. lia.
Qed.

Lemma NoGrowth_ret {A : Type} (a : A) : NoGrowth (ret a).
Proof. intros w. apply no_growth_refl. Qed.

Lemma NoGrowth_bind {A B : Type} (m : M A) (f : A → M B) :
  NoGrowth m → (∀ a, NoGrowth (f a)) → NoGrowth (bind m f).
Proof.
  intros Hm Hf w. rewrite exec_bind.
  eapply no_growth_trans; [apply Hm | apply Hf].
Qed.

Lemma NoGrowth_pass : NoGrowth pass.
Proof. apply NoGrowth_ret. Qed.

Lemma NoGrowth_send dl chat t kb : NoGrowth (send dl chat t kb).
Proof. intros w. by apply no_growth_same. Qed.

Lemma NoGrowth_write_log e : NoGrowth (write_log e).
Proof. intros w. by apply no_growth_same. Qed.

Lemma NoGrowth_get_user_timers user_id : NoGrowth (get_user_timers user_id).
Proof.
  intros w. apply no_growth_same. intros.
  apply timers_of_get_user_timers.
Qed.

Lemma NoGrowth_get_timer_count user_id : NoGrowth (get_timer_count user_id).
Proof.
  intros w. apply no_growth_same. intros.
  apply timers_of_get_timer_count.
Qed.

Lemma NoGrowth_remove_timer user_id timer_id :
  NoGrowth (remove_timer user_id timer_id).
Proof.
  intros w other. rewrite timers_of_remove_timer.
  destruct (decide (other = user_id)) as [->|]; [|done].
  apply length_dict_del_le.
Qed.

Lemma NoGrowth_cancel_loop user_id ids :
  ∀ cancelled_count, NoGrowth (cancel_loop user_id ids cancelled_count).
Proof.
  induction ids as [|timer_id r IH]; intros c; simpl.
  - apply NoGrowth_ret.
  - apply NoGrowth_bind; [apply NoGrowth_remove_timer|]. intros b. apply IH.
Qed.

Lemma timers_of_format_timer_list now user_id page items_per_page w other :
  timers_of (exec (format_timer_list now user_id page items_per_page) w)
    other
  = timers_of w other.
Proof.
  unfold format_timer_list. rewrite exec_bind.
  destruct (dict_empty _); [apply timers_of_get_user_timers|].
  destruct (button_rows _ _ _). apply timers_of_get_user_timers.
Qed.

Lemma NoGrowth_format_timer_list now user_id page items_per_page :
  NoGrowth (format_timer_list now user_id page items_per_page).
Proof.
  intros w. apply no_growth_same. intros.
  apply timers_of_format_timer_list.
Qed.

Lemma NoGrowth_timer_callback delivered j :
  NoGrowth (timer_callback delivered j).
Proof.
  unfold timer_callback.
  apply NoGrowth_bind; [apply NoGrowth_remove_timer|]. intros _.
  apply NoGrowth_bind; [apply NoGrowth_get_timer_count|]. intros rc.
  destruct delivered; [apply NoGrowth_send | apply NoGrowth_write_log].
Qed.

Lemma NoGrowth_cancel_timer user_id : NoGrowth (cancel_timer user_id).
Proof.
  unfold cancel_timer.
  apply NoGrowth_bind; [apply NoGrowth_get_timer_count|]. intros tc.
  destruct (tc >? 0); [|apply NoGrowth_send].
  apply NoGrowth_bind; [apply NoGrowth_get_user_timers|]. intros ut.
  apply NoGrowth_bind; [apply NoGrowth_cancel_loop|]. intros c.
  apply NoGrowth_send.
Qed.

Lemma NoGrowth_button_callback now edit_ok user_id data :
  NoGrowth (button_callback now edit_ok user_id data).
Proof.
  unfold button_callback, show.
  apply NoGrowth_bind; [apply NoGrowth_send|]. intros _.
  destruct data.
  - apply NoGrowth_bind; [apply NoGrowth_format_timer_list|]. intros v.
    apply NoGrowth_send.
  - apply NoGrowth_bind; [apply NoGrowth_format_timer_list|]. intros v.
    apply NoGrowth_send.
  - apply NoGrowth_bind; [apply NoGrowth_remove_timer|]. intros [|].
    + apply NoGrowth_bind; [apply NoGrowth_send|]. intros _.
      apply NoGrowth_bind; [apply NoGrowth_format_timer_list|]. intros v.
      apply NoGrowth_send.
    + apply NoGrowth_send.
  - apply NoGrowth_bind; [apply NoGrowth_get_timer_count|]. intros tc.
    destruct (tc >? 0); [|apply NoGrowth_send].
    apply NoGrowth_bind; [apply NoGrowth_get_user_timers|]. intros ut.
    apply NoGrowth_bind; [apply NoGrowth_cancel_loop|]. intros c.
    apply NoGrowth_bind; apply NoGrowth_send || (intros; apply NoGrowth_send).
  - apply NoGrowth_bind; [apply NoGrowth_get_timer_count|]. intros tc.
    destruct (tc >=? MAX_TIMERS_PER_USER); apply NoGrowth_send.
  - destruct edit_ok; [apply NoGrowth_send|].
    apply NoGrowth_bind; [apply NoGrowth_send|]. intros _.
    apply NoGrowth_send.
  - destruct edit_ok; [apply NoGrowth_send|].
    apply NoGrowth_bind; [apply NoGrowth_send|]. intros _.
    apply NoGrowth_send.
Qed.

Lemma NoGrowth_trigger id : NoGrowth (trigger id).
Proof.
  intros w. apply no_growth_same. intros other.
  unfold exec, trigger. by destruct (find_job id (job_queue w)).
Qed.

Lemma NoGrowth_run_callback id delivered :
  NoGrowth (run_callback id delivered).
Proof.
  unfold run_callback. apply NoGrowth_bind.
  - intros w. apply no_growth_same. intros other.
    unfold exec, take_pending. by destruct (find_job id (pending w)).
  - intros [j|]; [apply NoGrowth_timer_callback | apply NoGrowth_pass].
Qed.

(** [handle_time] at capacity: a refusal, and nothing else. *)
Lemma handle_time_at_capacity uuid4 now now' user_id message_text w :
  count_of w user_id >= MAX_TIMERS_PER_USER →
  handle_time uuid4 now now' user_id message_text w
  = (tt,
     mkWorld (touched user_id (active_timers w)) (job_queue w) (pending w)
       (next_job w)
       (outbox w
        ++ [mkSent Reply user_id
              (LimitReachedText (count_of w user_id) MAX_TIMERS_PER_USER)
              [[ListTimers]; [CancelAllTimers]]])
       (log w)).
Proof.
  intros Hfull. unfold handle_time, bind. rewrite get_timer_count_run.
  assert ((count_of w user_id >=? MAX_TIMERS_PER_USER) = true) as ->
    by (apply Z.geb_le; lia).
  done.
Qed.

(** The timers of each user after [handle_time]. *)
Lemma timers_of_handle_time uuid4 now now' user_id message_text w other :
  timers_of (exec (handle_time uuid4 now now' user_id message_text) w) other
  = if count_of w user_id >=? MAX_TIMERS_PER_USER then timers_of w other
    else match validate_time_format (strip message_text) with
         | None => timers_of w other
         | Some (hours, minutes) =>
             if decide (other = user_id)
             then dict_set (str_take 8 uuid4)
                    (created_timer uuid4 now now' user_id hours minutes
                       (next_job w))
                    (timers_of w user_id)
             else timers_of w other
         end.
Proof.
  unfold handle_time. rewrite exec_bind, eval_get_timer_count.
  destruct (count_of w user_id >=? MAX_TIMERS_PER_USER).
  { by rewrite timers_of_send, timers_of_get_timer_count. }
  destruct (validate_time_format (strip message_text)) as [[hours minutes]|].
  - rewrite exec_bind.
    set (w0 := exec (get_timer_count user_id) w).
    set (total_seconds := hours * 3600 + minutes * 60).
    set (display := if hours >? 0 then _ else _).
    set (end_time := now + timedelta_of_seconds total_seconds).
    set (description := mkDescription display end_time).
    set (run := run_once total_seconds user_id (str_take 8 uuid4)
                  description display).
    assert (eval run w0
            = mkJob (next_job w) total_seconds user_id (str_take 8 uuid4)
                description display) as Hjob.
    { unfold eval, run, run_once, w0, exec. by rewrite get_timer_count_run. }
    assert (∀ o, timers_of (exec run w0) o = timers_of w o) as Hrun.
    { intros o. change (timers_of (exec run w0) o) with (timers_of w0 o).
      apply timers_of_get_timer_count. }
    rewrite exec_bind, exec_bind, timers_of_send,
      timers_of_get_timer_count, timers_of_add_timer, Hjob, !Hrun.
    done.
  - rewrite exec_bind. change (timers_of (exec (write_log _) ?w1) other)
      with (timers_of w1 other).
    by rewrite timers_of_send, timers_of_get_timer_count.
Qed.

Lemma handle_time_capacity uuid4 now now' user_id message_text w :
  capacity_ok w →
  capacity_ok (exec (handle_time uuid4 now now' user_id message_text) w).
Proof.
  intros Hc other. unfold count_of. rewrite timers_of_handle_time.
  destruct (count_of w user_id >=? MAX_TIMERS_PER_USER) eqn:Hfull;
    [apply Hc|].
  destruct (validate_time_format _) as [[hours minutes]|]; [|apply Hc].
  destruct (decide (other = user_id)) as [->|]; [|apply Hc].
  pose proof (length_dict_set_le (str_take 8 uuid4)
    (created_timer uuid4 now now' user_id hours minutes (next_job w))
    (timers_of w user_id)) as Hlen.
  rewrite Z.geb_leb in Hfull. apply Z.leb_gt in Hfull.
  unfold count_of in Hfull. lia.
Qed.

Lemma step_capacity e w : capacity_ok w → capacity_ok (exec (step e) w).
Proof.
  destruct e; simpl; try apply handle_time_capacity;
    apply no_growth_capacity.
  - apply NoGrowth_bind; [apply NoGrowth_get_timer_count|].
    intros. apply NoGrowth_send.
  - apply NoGrowth_bind; [apply NoGrowth_get_timer_count|].
    intros. apply NoGrowth_send.
  - apply NoGrowth_cancel_timer.
  - unfold status_timer.
    apply NoGrowth_bind; [apply NoGrowth_get_user_timers|]. intros ut.
    destruct (dict_empty ut); apply NoGrowth_send.
  - apply NoGrowth_button_callback.
  - apply NoGrowth_trigger.
  - apply NoGrowth_run_callback.
Qed.

Lemma reachable_run es w : reachable w → reachable (run es w).
Proof.
  revert w. induction es as [|e r IH]; intros w Hw; [done|].
  simpl. apply IH. by constructor.
Qed.

End Capacity.

(** C5: in every state the bot can reach, no user holds more than
    [MAX_TIMERS_PER_USER] timers; and where a user holds exactly that many,
    [handle_time] answers with the refusal only: it adds no timer for any
    user, queues no job, and the user's count stays at the maximum. *)
Theorem capacity_invariant w :
  reachable w →
  (∀ user_id, count_of w user_id <= MAX_TIMERS_PER_USER)
  ∧ (∀ uuid4 now now' user_id message_text,
       count_of w user_id = MAX_TIMERS_PER_USER →
       let w' := exec (handle_time uuid4 now now' user_id message_text) w in
       outbox w'
       = outbox w
         ++ [mkSent Reply user_id
               (LimitReachedText MAX_TIMERS_PER_USER MAX_TIMERS_PER_USER)
               [[ListTimers]; [CancelAllTimers]]]
       ∧ (∀ other, timers_of w' other = timers_of w other)
       ∧ job_queue w' = job_queue w
       ∧ pending w' = pending w
       ∧ next_job w' = next_job w
       ∧ count_of w' user_id = MAX_TIMERS_PER_USER).
Proof.
  intros Hreach. split.
  - induction Hreach as [|e w Hw IH].
    + intros u. by vm_compute.
    + by apply step_capacity.
  - intros uuid4 now now' user_id message_text Hfull. cbv zeta.
    unfold exec. rewrite handle_time_at_capacity by lia. simpl.
    rewrite Hfull. split_and!; try done.
    + intros other. apply (timers_of_touched w user_id other).
    + rewrite <- Hfull. unfold count_of. f_equal. f_equal.
      apply (timers_of_touched w user_id user_id).
Qed.

Lemma capacity_invariant_witness :
  reachable full_world
  ∧ count_of full_world 7 = MAX_TIMERS_PER_USER
  ∧ count_of full_world 7 <= MAX_TIMERS_PER_USER
  ∧ (let w' := exec (handle_time "aaaaaaaa" 20 21 7 "15") full_world in
     job_queue w' = job_queue full_world
     ∧ count_of w' 7 = MAX_TIMERS_PER_USER).
Proof.
  assert (reachable full_world) as Hreach
    by (apply reachable_run; constructor).
  assert (count_of full_world 7 = MAX_TIMERS_PER_USER) as Hfull
    by reflexivity.
  destruct (capacity_invariant full_world Hreach) as [Hcap Hrefuse].
  split; [exact Hreach|]. split; [exact Hfull|]. split; [apply Hcap|].
  destruct (Hrefuse "aaaaaaaa" 20 21 7 "15" Hfull)
    as (_ & _ & Hq & _ & _ & Hc).
  split; [exact Hq | exact Hc].
Defined.

(** ** Creation *)

(** The job queue after a successful [handle_time]: one more job, carrying
    the id that was generated. *)
Lemma job_queue_handle_time uuid4 now now' user_id message_text w hours
    minutes :
  count_of w user_id < MAX_TIMERS_PER_USER →
  validate_time_format (strip message_text) = Some (hours, minutes) →
  job_queue (exec (handle_time uuid4 now now' user_id message_text) w)
  = job_queue w
    ++ match job (created_timer uuid4 now now' user_id hours minutes
                    (next_job w)) with
       | Some j => [j]
       | None => []
       end.
Proof.
  intros Hroom Hparse. unfold exec, handle_time, bind.
  rewrite get_timer_count_run.
  assert ((count_of w user_id >=? MAX_TIMERS_PER_USER) = false) as ->
    by (rewrite Z.geb_leb; apply Z.leb_gt; lia).
  rewrite Hparse. unfold run_once. rewrite add_timer_run.
  rewrite get_timer_count_run. done.
Qed.




(** ** The list view *)

Section View.

Implicit Types (w : world) (user_id page : Z).
Implicit Types (l : list (string * timer_info)).

Lemma insert_by_created_at_perm x l :
  Permutation (insert_by_created_at x l) (x :: l).
Proof.
  induction l as [|y r IH]; simpl; [done|].
  destruct (_ <=? _); [done|].
  rewrite IH. apply perm_swap.
Qed.

Lemma sorted_by_created_at_perm l :
  Permutation (sorted_by_created_at l) l.
Proof.
  induction l as [|x r IH]; simpl; [done|].
  rewrite insert_by_created_at_perm. by constructor.
Qed.

Lemma insert_by_created_at_sorted x l :
  Sorted created_before l → Sorted created_before (insert_by_created_at x l).
Proof.
  induction l as [|y r IH]; intros Hs; simpl.
  - by repeat constructor.
  - destruct (created_at x.2 <=? created_at y.2) eqn:E.
    + constructor; [done|]. constructor. by apply Z.leb_le.
    + apply Z.leb_gt in E. inversion Hs as [|? ? Hr Hhd]; subst.
      constructor; [by apply IH|].
      destruct r as [|z r']; simpl.
      * constructor. unfold created_before. lia.
      * destruct (created_at x.2 <=? created_at z.2).
        -- constructor. unfold created_before. lia.
        -- constructor. by inversion Hhd.
Qed.

Lemma sorted_by_created_at_sorted l :
  Sorted created_before (sorted_by_created_at l).
Proof.
  induction l as [|x r IH]; simpl; [constructor|].
  by apply insert_by_created_at_sorted.
Qed.

Lemma length_sorted_by_created_at l :
  length (sorted_by_created_at l) = length l.
Proof. apply Permutation_length, sorted_by_created_at_perm. Qed.

(** For a start that is not negative the slice is the plain window. *)
Lemma py_slice_window {A : Type} (l : list A) (start size : Z) :
  0 <= start → 0 <= size →
  py_slice l start (start + size)
  = take (Z.to_nat size) (drop (Z.to_nat start) l).
Proof.
  intros Hstart Hsize. unfold py_slice, slice_bound.
  destruct (start <? 0) eqn:E1; [apply Z.ltb_lt in E1; lia|].
  destruct (start + size <? 0) eqn:E2; [apply Z.ltb_lt in E2; lia|].
  destruct (decide (Z.of_nat (length l) <= start)) as [Hout|Hin].
  - rewrite !Z.min_r by lia. rewrite Z.sub_diag. simpl.
    rewrite (drop_ge l (Z.to_nat start)) by lia. by rewrite take_nil.
  - rewrite (Z.min_l start) by lia.
    destruct (decide (start + size <= Z.of_nat (length l))) as [Hfit|Hcut].
    + rewrite Z.min_l by lia. f_equal. lia.
    + rewrite Z.min_r by lia.
      rewrite !take_ge; [done | |]; rewrite length_drop; lia.
Qed.

(** The keyboard rows of the cancel buttons hold those buttons, in
    order, and nothing else. *)
Lemma button_rows_flat ids :
  ∀ keyboard timer_buttons,
    concat (button_rows keyboard timer_buttons ids).1
      ++ (button_rows keyboard timer_buttons ids).2
    = concat keyboard ++ timer_buttons ++ map CancelTimerData ids.
Proof.
  induction ids as [|timer_id r IH]; intros kb tb; simpl.
  - by rewrite app_nil_r.
  - destruct (Nat.eqb _ 2).
    + rewrite IH, concat_app. simpl.
      by rewrite app_nil_r, <- !app_assoc.
    + rewrite IH. by rewrite <- !app_assoc.
Qed.

Lemma no_page_button_among_cancel_buttons target ids :
  existsb (is_page_button target) (map CancelTimerData ids) = false.
Proof. by induction ids. Qed.

(** The view of a user who has timers. *)
Lemma format_timer_list_run now user_id page items_per_page w :
  timers_of w user_id ≠ [] →
  let sorted_timers := sorted_by_created_at (timers_of w user_id) in
  let total_count := Z.of_nat (length sorted_timers) in
  let start_idx := page * items_per_page in
  let end_idx := start_idx + items_per_page in
  let page_timers := py_slice sorted_timers start_idx end_idx in
  let view := eval (format_timer_list now user_id page items_per_page) w in
  view.1 = TimerListText total_count (rows_for now start_idx page_timers)
  ∧ concat view.2
    = map CancelTimerData (map fst page_timers)
      ++ ((if page >? 0 then [TimersPage (page - 1)] else [])
          ++ (if end_idx <? total_count then [TimersPage (page + 1)]
              else []))
      ++ [CancelAllTimers; NewTimer].
Proof.
  intros Hne. cbv zeta. unfold format_timer_list.
  rewrite eval_bind, !eval_get_user_timers.
  destruct (timers_of w user_id) as [|e r] eqn:Hd; [done|].
  cbn [dict_empty]. rewrite <- Hd.
  set (sorted_timers := sorted_by_created_at (timers_of w user_id)).
  set (page_timers := py_slice sorted_timers _ _).
  pose proof (button_rows_flat (map fst page_timers) [] []) as Hflat.
  destruct (button_rows [] [] (map fst page_timers)) as [kb tb].
  simpl in Hflat. unfold eval, ret. cbn [fst snd]. split; [done|].
  set (pag := (if page >? 0 then _ else _) ++ _).
  assert (concat (if list_empty tb then kb else kb ++ [tb])
          = map CancelTimerData (map fst page_timers)) as Hkb.
  { rewrite <- Hflat. destruct tb; simpl.
    - by rewrite app_nil_r.
    - rewrite concat_app. simpl. by rewrite app_nil_r. }
  rewrite concat_app. simpl. rewrite (app_assoc _ pag). f_equal.
  clearbody pag. destruct pag; simpl.
  - by rewrite app_nil_r.
  - rewrite concat_app. simpl. by rewrite app_nil_r, Hkb.
Qed.

Lemma rows_for_ids now start_idx l :
  map row_timer_id (rows_for now start_idx l) = map fst l.
Proof.
  unfold rows_for. change map with (@fmap list _) at 1.
  rewrite fmap_imap. simpl.
  revert now start_idx. induction l as [|x r IH]; intros; [done|].
  simpl. f_equal. unfold compose. simpl.
  specialize (IH (λ k, now (S k)) (start_idx + 1)).
  etrans; [|exact IH]. apply imap_ext. done.
Qed.

End View.

Section ViewFlags.

Implicit Types (page : Z) (ids : list string).

(** The flags of a keyboard made of cancel buttons, the pagination row
    and the action row. *)
Lemma has_prev_keyboard page ids (prev next : bool) keyboard :
  concat keyboard
  = map CancelTimerData ids
    ++ ((if prev then [TimersPage (page - 1)] else [])
        ++ (if next then [TimersPage (page + 1)] else []))
    ++ [CancelAllTimers; NewTimer] →
  has_prev page keyboard = prev ∧ has_next page keyboard = next.
Proof.
  intros H. unfold has_prev, has_next. rewrite H, !existsb_app.
  rewrite !no_page_button_among_cancel_buttons.
  destruct prev, next; simpl;
    rewrite ?Z.eqb_refl, ?orb_true_r, ?orb_false_r; split; try done;
    apply Z.eqb_neq; lia.
Qed.

End ViewFlags.

(** C8, as stated, fails twice.  A user without timers gets the text that
    there is no active timer and a keyboard with the one button for a new
    timer, whatever the page: for page 1 there is no back button although
    the page is greater than 0.  And a negative page is sliced as Python
    slices, counting from the end: page -2 of seven timers, which is out
    of range, shows the first two timers of the order. *)
Lemma format_timer_list_no_timers_no_prev :
  (let view := eval (format_timer_list (λ _, 0) 7 1 5) initial_world in
   view = (NoActiveTimersText, [[NewTimer]])
   ∧ has_prev 1 view.2 = false
   ∧ (1 >? 0) = true)
  ∧ (let view :=
       eval (format_timer_list (λ _, 0) 7 (-2) 5) seven_timers_world in
     map row_timer_id (rows_of view.1) = ["11111111"; "22222222"]).
Proof. by vm_compute. Qed.

(** C8, amended: for a page that is not negative and 5 entries to a page,
    the view of a user who has timers takes the timers in ascending order
    of [created_at], shows exactly the entries from [page * 5] up to
    [page * 5 + 5] of that order (none when the page is out of range), has
    a back button exactly when [page > 0] and a forward button exactly
    when [(page + 1) * 5] is below the number of timers; seven timers at
    page 1 give two rows, a back button and no forward button.  A user
    without timers gets the text that there is none and the one button for
    a new timer. *)
Theorem format_timer_list_view now user_id page w :
  0 <= page →
  let user_timers := timers_of w user_id in
  let sorted_timers := sorted_by_created_at user_timers in
  let total_count := Z.of_nat (length user_timers) in
  let page_timers := take 5 (drop (Z.to_nat (page * 5)) sorted_timers) in
  let view := eval (format_timer_list now user_id page 5) w in
  Permutation sorted_timers user_timers
  ∧ Sorted created_before sorted_timers
  ∧ (if dict_empty user_timers
     then view = (NoActiveTimersText, [[NewTimer]])
     else view.1
          = TimerListText total_count (rows_for now (page * 5) page_timers)
          ∧ map row_timer_id (rows_of view.1) = map fst page_timers
          ∧ length (rows_of view.1)
            = Z.to_nat (Z.min 5 (Z.max 0 (total_count - page * 5)))
          ∧ has_prev page view.2 = (page >? 0)
          ∧ has_next page view.2 = ((page + 1) * 5 <? total_count)
          ∧ (total_count = 7 → page = 1 →
             length (rows_of view.1) = 2%nat
             ∧ has_prev page view.2 = true
             ∧ has_next page view.2 = false)).
Proof.
  intros Hpage. cbv zeta.
  split; [apply sorted_by_created_at_perm|].
  split; [apply sorted_by_created_at_sorted|].
  destruct (dict_empty (timers_of w user_id)) eqn:Hempty.
  - apply dict_empty_nil in Hempty. unfold format_timer_list.
    rewrite eval_bind, !eval_get_user_timers, Hempty. done.
  - assert (timers_of w user_id ≠ []) as Hne.
    { intros Hnil. by rewrite Hnil in Hempty. }
    destruct (format_timer_list_run now user_id page 5 w Hne)
      as [Htext Hkeys].
    rewrite py_slice_window in Htext, Hkeys by lia.
    rewrite length_sorted_by_created_at in Htext, Hkeys.
    change (Z.to_nat 5) with 5%nat in Htext, Hkeys.
    apply has_prev_keyboard in Hkeys as [Hprev Hnext].
    assert (length
              (take 5 (drop (Z.to_nat (page * 5))
                         (sorted_by_created_at (timers_of w user_id))))
            = Z.to_nat
                (Z.min 5
                   (Z.max 0
                      (Z.of_nat (length (timers_of w user_id)) - page * 5))))
      as Hlen.
    { rewrite length_take, length_drop, length_sorted_by_created_at. lia. }
    assert (page * 5 + 5 = (page + 1) * 5) as Hend by lia.
    rewrite Hend in Hnext.
    rewrite Htext. cbn [rows_of].
    assert (length
              (rows_for now (page * 5)
                 (take 5 (drop (Z.to_nat (page * 5))
                            (sorted_by_created_at (timers_of w user_id)))))
            = Z.to_nat
                (Z.min 5
                   (Z.max 0
                      (Z.of_nat (length (timers_of w user_id)) - page * 5))))
      as Hrows.
    { unfold rows_for. by rewrite length_imap. }
    split_and!; try done.
    + apply rows_for_ids.
    + intros Htotal ->. rewrite Hrows, Hprev, Hnext, Htotal. done.
Qed.

Lemma format_timer_list_view_witness :
  0 <= 1
  ∧ Z.of_nat (length (timers_of seven_timers_world 7)) = 7
  ∧ (let view :=
       eval (format_timer_list (λ _, 0) 7 1 5) seven_timers_world in
     length (rows_of view.1) = 2%nat
     ∧ has_prev 1 view.2 = true
     ∧ has_next 1 view.2 = false).
Proof.
  assert (0 <= 1) as Hpage by lia.
  assert (Z.of_nat (length (timers_of seven_timers_world 7)) = 7) as Hseven
    by reflexivity.
  assert (dict_empty (timers_of seven_timers_world 7) = false) as Hne
    by reflexivity.
  split; [exact Hpage|]. split; [exact Hseven|].
  pose proof (format_timer_list_view (λ _, 0) 7 1 seven_timers_world Hpage)
    as H.
  cbv zeta in H. destruct H as (_ & _ & H). rewrite Hne in H.
  destruct H as (_ & _ & _ & _ & _ & H).
  exact (H Hseven eq_refl).
Defined.

(** * Further properties *)

(** ** The time parser: what it lets through *)

Lemma accepted_time_bounds time_str hours minutes :
  validate_time_format time_str = Some (hours, minutes) →
  0 <= hours <= 23 ∧ 0 <= minutes <= 59
  ∧ 60 <= hours * 3600 + minutes * 60 <= 86340.
Proof.
  unfold validate_time_format.
  destruct (negb (re_match_digits time_str)); [done|].
  destruct (len time_str <=? 3).
  - destruct (py_int time_str) as [total|]; [|done].
    destruct (negb _) eqn:E; [done|]. intros [= <- <-].
    apply negb_false_iff, andb_prop in E as [H1 H2].
    apply Z.leb_le in H1, H2.
    pose proof (Z.div_mod total 60 ltac:(lia)) as Hdm.
    pose proof (Z.mod_pos_bound total 60 ltac:(lia)) as Hm.
    assert (0 <= total / 60) by (apply Z.div_pos; lia).
    lia.
  - destruct (len time_str =? 4); [|done].
    destruct (py_int (str_take 2 time_str)) as [h|]; [|done].
    destruct (py_int (str_drop 2 time_str)) as [m|]; [|done].
    destruct (negb ((0 <=? h) && (h <=? 23))) eqn:E1; [done|].
    destruct (negb ((0 <=? m) && (m <=? 59))) eqn:E2; [done|].
    destruct ((h =? 0) && (m =? 0)) eqn:E3; [done|]. intros [= <- <-].
    apply negb_false_iff, andb_prop in E1 as [H1 H2].
    apply negb_false_iff, andb_prop in E2 as [H3 H4].
    apply Z.leb_le in H1, H2, H3, H4.
    apply andb_false_iff in E3 as [E3|E3]; apply Z.eqb_neq in E3; lia.
Qed.

(** X1: whatever the string, an accepted time lies between one minute and
    23 hours 59 minutes: the hours are at most 23, the minutes at most 59,
    and the delay in seconds that [handle_time] computes from them is
    between 60 and 86340. *)
Theorem validate_time_format_range time_str hours minutes :
  validate_time_format time_str = Some (hours, minutes) →
  0 <= hours <= 23 ∧ 0 <= minutes <= 59
  ∧ 60 <= hours * 3600 + minutes * 60 <= 86340.
Proof. apply accepted_time_bounds. Qed.

Lemma validate_time_format_range_witness :
  validate_time_format "999" = Some (16, 39)
  ∧ 0 <= 16 <= 23 ∧ 0 <= 39 <= 59 ∧ 60 <= 16 * 3600 + 39 * 60 <= 86340.
Proof.
  assert (validate_time_format "999" = Some (16, 39)) as H by reflexivity.
  split; [exact H|].
  exact (validate_time_format_range "999" 16 39 H).
Defined.

(** ** The text that reaches the parser *)

Section Strip.

Implicit Types (l : list ascii) (c : ascii).

Lemma lstrip_shape l :
  lstrip l = [] ∨ ∃ c r, lstrip l = c :: r ∧ is_space c = false.
Proof.
  induction l as [|c r IH]; simpl; [by left|].
  destruct (is_space c) eqn:E; [done|]. right. by exists c, r.
Qed.

Lemma lstrip_fixed c l : is_space c = false → lstrip (c :: l) = c :: l.
Proof. intros H. simpl. by rewrite H. Qed.

Lemma lstrip_idemp l : lstrip (lstrip l) = lstrip l.
Proof.
  destruct (lstrip_shape l) as [->|(c & r & -> & Hc)]; [done|].
  by apply lstrip_fixed.
Qed.

(** The end of a stripped list is not whitespace. *)
Lemma rstrip_shape l :
  rstrip l = [] ∨ ∃ r c, rstrip l = r ++ [c] ∧ is_space c = false.
Proof.
  unfold rstrip. destruct (lstrip_shape (rev l)) as [->|(c & r & -> & Hc)].
  - by left.
  - right. by exists (rev r), c.
Qed.

Lemma rstrip_idemp l : rstrip (rstrip l) = rstrip l.
Proof. unfold rstrip. by rewrite rev_involutive, lstrip_idemp. Qed.

(** Stripping the end keeps a head that is not whitespace. *)
Lemma rstrip_keeps_head c l :
  is_space c = false → ∃ r, rstrip (c :: l) = c :: r.
Proof.
  intros Hc. unfold rstrip. cbn [rev].
  assert (∀ x, ∃ y, lstrip (x ++ [c]) = y ++ [c]) as H.
  { induction x as [|a x IH]; simpl.
    - rewrite Hc. by exists [].
    - destruct (is_space a); [apply IH|]. by exists (a :: x). }
  destruct (H (rev l)) as [y ->]. exists (rev y).
  by rewrite rev_app_distr.
Qed.

Lemma lstrip_rstrip_lstrip l :
  lstrip (rstrip (lstrip l)) = rstrip (lstrip l).
Proof.
  destruct (lstrip_shape l) as [->|(c & r & -> & Hc)]; [done|].
  destruct (rstrip_keeps_head c r Hc) as [r' ->]. by apply lstrip_fixed.
Qed.

Lemma ends_with_LF_last l c :
  ends_with_LF (string_of_list_ascii (l ++ [c])) = Ascii.eqb c LF.
Proof.
  induction l as [|a l IH]; [done|]. simpl.
  destruct (string_of_list_ascii (l ++ [c])) eqn:E; [|exact IH].
  by destruct l.
Qed.

Lemma strip_no_final_LF s : ends_with_LF (strip s) = false.
Proof.
  unfold strip.
  destruct (rstrip_shape (lstrip (list_ascii_of_string s)))
    as [->|(r & c & -> & Hc)]; [done|].
  rewrite ends_with_LF_last. apply Ascii.eqb_neq. by intros ->.
Qed.

Lemma strip_idemp s : strip (strip s) = strip s.
Proof.
  unfold strip. rewrite list_ascii_of_string_of_list_ascii.
  by rewrite lstrip_rstrip_lstrip, rstrip_idemp.
Qed.

End Strip.

(** X2: the text [handle_time] hands to the parser is stripped, and a
    stripped text never ends with a line feed; so the times [handle_time]
    accepts are written with digits only, one to four of them.  The line
    feed that [validate_time_format] lets through on its own cannot come
    in by a message. *)
Theorem handle_time_accepts_digits_only message_text hours minutes :
  validate_time_format (strip message_text) = Some (hours, minutes) →
  ends_with_LF (strip message_text) = false
  ∧ all_digits (strip message_text) = true
  ∧ 1 <= len (strip message_text) <= 4.
Proof.
  intros Hparse. split; [apply strip_no_final_LF|].
  rewrite validate_time_format_refines_spec in Hparse
    by apply strip_no_final_LF.
  unfold parse_spec, len in *.
  destruct (all_digits (strip message_text)); [|done]. split; [done|].
  destruct (String.length (strip message_text)) as [|[|[|[|[|n]]]]];
    try done; lia.
Qed.

Lemma handle_time_accepts_digits_only_witness :
  validate_time_format (strip " 0145 ") = Some (1, 45)
  ∧ all_digits (strip " 0145 ") = true
  ∧ 1 <= len (strip " 0145 ") <= 4.
Proof.
  assert (validate_time_format (strip " 0145 ") = Some (1, 45)) as Hparse
    by reflexivity.
  split; [exact Hparse|].
  exact (proj2 (handle_time_accepts_digits_only " 0145 " 1 45 Hparse)).
Defined.

(** X3: [handle_time] does not see the whitespace around a message: the
    message and the stripped message have the same effect and the same
    replies. *)
Theorem handle_time_ignores_outer_whitespace uuid4 now now' user_id
    message_text w :
  handle_time uuid4 now now' user_id (strip message_text) w
  = handle_time uuid4 now now' user_id message_text w.
Proof. unfold handle_time. by rewrite strip_idemp. Qed.

(** ** Round trips of the registry *)

Section RoundTrips.

Context {V : Type}.
Implicit Types (k : string) (v : V) (d : list (string * V)).

Lemma dict_del_set_new k v d :
  dict_get k d = None → dict_del k (dict_set k v d) = d.
Proof.
  induction d as [|[k0 v0] r IH]; simpl.
  - by rewrite decide_True.
  - destruct (decide (k = k0)); [done|]. intros H. simpl.
    rewrite decide_False by done. by rewrite IH.
Qed.

Lemma keys_dict_set_new k v d :
  dict_get k d = None → map fst (dict_set k v d) = map fst d ++ [k].
Proof.
  induction d as [|[k0 v0] r IH]; simpl; [done|].
  destruct (decide (k = k0)); [done|]. intros H. simpl. by rewrite IH.
Qed.

Lemma keys_dict_set_old k v v' d :
  dict_get k d = Some v' → map fst (dict_set k v d) = map fst d.
Proof.
  induction d as [|[k0 v0] r IH]; simpl; [done|].
  destruct (decide (k = k0)) as [->|]; [done|]. intros H. simpl.
  by rewrite IH.
Qed.

Lemma dict_get_None_keys k d : dict_get k d = None ↔ k ∉ map fst d.
Proof.
  induction d as [|[k0 v0] r IH]; simpl.
  - split; [intros _; apply not_elem_of_nil | done].
  - rewrite not_elem_of_cons. destruct (decide (k = k0)) as [->|Hne].
    + split; [done | intros [? _]; done].
    + rewrite IH. split; [done | by intros [_ ?]].
Qed.

Lemma keys_dict_del_sub k k' d :
  k' ∈ map fst (dict_del k d) → k' ∈ map fst d.
Proof.
  induction d as [|[k0 v0] r IH]; simpl; [done|].
  destruct (decide (k = k0)).
  - intros H. by right.
  - simpl. rewrite !elem_of_cons. intros [->|H]; [by left | right; auto].
Qed.

Lemma NoDup_dict_del k d :
  NoDup (map fst d) → NoDup (map fst (dict_del k d)).
Proof.
  induction d as [|[k0 v0] r IH]; simpl; [done|].
  intros [Hk Hr]%NoDup_cons. destruct (decide (k = k0)); [done|].
  simpl. apply NoDup_cons. split; [|by apply IH].
  intros Hin. apply Hk. by eapply keys_dict_del_sub.
Qed.

Lemma NoDup_dict_set k v d :
  NoDup (map fst d) → NoDup (map fst (dict_set k v d)).
Proof.
  intros Hnd. destruct (dict_get k d) as [v'|] eqn:E.
  - by erewrite keys_dict_set_old.
  - rewrite keys_dict_set_new by done.
    apply NoDup_app. split_and!; [done | | apply NoDup_singleton].
    intros x Hx [->|[]%elem_of_nil]%elem_of_cons.
    by apply dict_get_None_keys in E.
Qed.

End RoundTrips.

(** X4: [add_timer] and a lookup: the timer is stored under its id with
    the creation time read from the clock; a new id goes last in the dict
    and makes the count one more, an id already in use keeps its place and
    the count, and stands for the new timer from then on. *)
Theorem add_timer_lookup now user_id timer_id description end_time job w :
  let w' :=
    exec (add_timer now user_id timer_id description end_time job) w in
  dict_get timer_id (timers_of w' user_id)
  = Some (mkTimerInfo description end_time job now)
  ∧ eval (get_timer_count user_id) w'
    = (if dict_mem timer_id (timers_of w user_id) then count_of w user_id
       else count_of w user_id + 1)
  ∧ map fst (timers_of w' user_id)
    = (if dict_mem timer_id (timers_of w user_id)
       then map fst (timers_of w user_id)
       else map fst (timers_of w user_id) ++ [timer_id]).
Proof.
  cbv zeta. rewrite eval_get_timer_count. unfold count_of.
  rewrite timers_of_add_timer, decide_True by done. unfold dict_mem.
  split_and!.
  - apply dict_get_set_eq.
  - destruct (dict_get timer_id (timers_of w user_id)) eqn:E.
    + by erewrite length_dict_set_old.
    + rewrite length_dict_set_new by done. lia.
  - destruct (dict_get timer_id (timers_of w user_id)) eqn:E.
    + by erewrite keys_dict_set_old.
    + by rewrite keys_dict_set_new.
Qed.

(** X5: adding a timer under an id the user does not have and removing
    it again gives every user the timers they had: [remove_timer] answers
    [True], and a user who had no timer has no entry in [active_timers]
    afterwards. *)
Theorem add_then_remove_restores now user_id timer_id description end_time
    job w :
  dict_get timer_id (timers_of w user_id) = None →
  let w1 :=
    exec (add_timer now user_id timer_id description end_time job) w in
  let w2 := exec (remove_timer user_id timer_id) w1 in
  eval (remove_timer user_id timer_id) w1 = true
  ∧ (∀ other, timers_of w2 other = timers_of w other)
  ∧ active_timers w2 !! user_id
    = (if dict_empty (timers_of w user_id) then None
       else Some (timers_of w user_id)).
Proof.
  intros Hnew. cbv zeta.
  set (info := mkTimerInfo description end_time job now).
  set (w1 := exec (add_timer now user_id timer_id description end_time job) w).
  assert (timers_of w1 user_id = dict_set timer_id info (timers_of w user_id))
    as H1 by (unfold w1; by rewrite timers_of_add_timer, decide_True).
  assert (dict_get timer_id (timers_of w1 user_id) = Some info) as Hget
    by (rewrite H1; apply dict_get_set_eq).
  split_and!.
  - rewrite remove_timer_result. unfold dict_mem. by rewrite Hget.
  - intros other. rewrite timers_of_remove_timer, H1.
    rewrite dict_del_set_new by done.
    destruct (decide (other = user_id)) as [->|Hne]; [done|].
    unfold w1. by rewrite timers_of_add_timer, decide_False.
  - unfold exec at 1. erewrite remove_timer_found by exact Hget. simpl.
    unfold after_removal. rewrite H1, dict_del_set_new by done.
    destruct (dict_empty (timers_of w user_id)) eqn:E.
    + apply lookup_delete_eq.
    + apply lookup_insert_eq.
Qed.

Lemma add_then_remove_restores_witness :
  dict_get "dddddddd" (timers_of sample_world 7) = None
  ∧ (let d := mkDescription (DisplayM 3) 9 in
     let w1 := exec (add_timer 30 7 "dddddddd" d 9 None) sample_world in
     eval (remove_timer 7 "dddddddd") w1 = true
     ∧ timers_of (exec (remove_timer 7 "dddddddd") w1) 7
       = timers_of sample_world 7).
Proof.
  assert (dict_get "dddddddd" (timers_of sample_world 7) = None) as Hnew
    by reflexivity.
  split; [exact Hnew|].
  destruct (add_then_remove_restores 30 7 "dddddddd"
              (mkDescription (DisplayM 3) 9) 9 None sample_world Hnew)
    as (Hres & Hsame & _).
  split; [exact Hres | exact (Hsame 7)].
Defined.

(** ** Cancelled jobs *)

Lemma queued_unqueue j q : queued j (unqueue j q) = false.
Proof.
  unfold queued, unqueue. induction q as [|x q IH]; [done|]. simpl.
  destruct (same_job j x) eqn:E; simpl; [done|]. by rewrite E.
Qed.

Lemma find_job_not_queued j q :
  queued j q = false → find_job (job_id j) q = None.
Proof.
  unfold queued, find_job, same_job. induction q as [|x q IH]; [done|].
  simpl. intros [Hx Hq]%orb_false_elim.
  rewrite Nat.eqb_sym, Hx. auto.
Qed.

(** X6: removing a timer that is found makes the user's count one less
    and takes the timer's job off the queue, so that the scheduler no
    longer finds the job there: a later [trigger] of that job does
    nothing. *)
Theorem remove_timer_cancels_job w user_id timer_id info j :
  dict_get timer_id (timers_of w user_id) = Some info →
  job info = Some j →
  let w' := exec (remove_timer user_id timer_id) w in
  count_of w' user_id = count_of w user_id - 1
  ∧ job_queue w' = unqueue j (job_queue w)
  ∧ queued j (job_queue w') = false
  ∧ trigger (job_id j) w' = (tt, w').
Proof.
  intros Hget Hjob. cbv zeta.
  destruct (remove_timer_found_effect w user_id timer_id info Hget)
    as (_ & Htimers & _ & Hqueue).
  specialize (Hqueue j Hjob).
  assert (queued j (job_queue (exec (remove_timer user_id timer_id) w))
          = false) as Hq by (rewrite Hqueue; apply queued_unqueue).
  split_and!; try done.
  - unfold count_of. rewrite Htimers.
    apply length_dict_del_found in Hget. lia.
  - unfold trigger. by rewrite find_job_not_queued.
Qed.

Lemma remove_timer_cancels_job_witness :
  let info := created_timer "aaaaaaaa-0000" 0 1 7 1 30 0 in
  (dict_get "aaaaaaaa" (timers_of one_timer_world 7) = Some info
   ∧ ∃ j, job info = Some j)
  ∧ count_of (exec (remove_timer 7 "aaaaaaaa") one_timer_world) 7 = 0
  ∧ job_queue (exec (remove_timer 7 "aaaaaaaa") one_timer_world) = [].
Proof.
  cbv zeta.
  set (info := created_timer "aaaaaaaa-0000" 0 1 7 1 30 0).
  assert (dict_get "aaaaaaaa" (timers_of one_timer_world 7) = Some info)
    as Hget by reflexivity.
  destruct (job info) as [j|] eqn:Hjob; [|discriminate Hjob].
  split; [split; [exact Hget | by exists j]|].
  destruct (remove_timer_cancels_job one_timer_world 7 "aaaaaaaa" info j
              Hget Hjob) as (Hcount & Hqueue & _ & _).
  split; [exact Hcount|].
  rewrite Hqueue. injection Hjob as <-. reflexivity.
Defined.

(** ** Each handler works on one user's dict *)

Section Evolve.

Implicit Types (w : world) (user_id : Z).
Implicit Types (f g h : Z → list (string * timer_info)).

Lemma evolve_refl user_id f : evolve_on user_id f f.
Proof. by apply evolve_same. Qed.

Lemma evolve_ext user_id f g h :
  evolve_on user_id f g → (∀ o, h o = g o) → evolve_on user_id f h.
Proof.
  intros Hfg. revert h. induction Hfg as [f g Hg|f g g' t Hfg IH Hg'|
    f g g' t v Hfg IH Hg']; intros h Hh.
  - apply evolve_same. intros o. by rewrite Hh.
  - apply (evolve_del _ f g h t); [done|]. intros o. by rewrite Hh.
  - apply (evolve_set _ f g h t v); [done|]. intros o. by rewrite Hh.
Qed.

Lemma evolve_trans user_id f g h :
  evolve_on user_id f g → evolve_on user_id g h → evolve_on user_id f h.
Proof.
  intros Hfg Hgh. induction Hgh as [g h Hh|g h h' t Hgh IH Hh'|
    g h h' t v Hgh IH Hh'].
  - by eapply evolve_ext.
  - eapply evolve_del; [by apply IH | done].
  - eapply evolve_set; [by apply IH | done].
Qed.

(** Only the dict of [user_id] differs after such a run of changes. *)
Lemma evolve_others user_id f g o :
  evolve_on user_id f g → o ≠ user_id → g o = f o.
Proof.
  intros Hfg Hne. induction Hfg as [f g Hg|f g h t Hfg IH Hh|
    f g h t v Hfg IH Hh].
  - apply Hg.
  - by rewrite Hh, decide_False.
  - by rewrite Hh, decide_False.
Qed.

Lemma evolve_NoDup user_id f g :
  evolve_on user_id f g →
  (∀ o, NoDup (map fst (f o))) → ∀ o, NoDup (map fst (g o)).
Proof.
  intros Hfg Hf. induction Hfg as [f g Hg|f g h t Hfg IH Hh|
    f g h t v Hfg IH Hh]; intros o.
  - by rewrite Hg.
  - rewrite Hh. destruct (decide (o = user_id)); [|by apply IH].
    by apply NoDup_dict_del, IH.
  - rewrite Hh. destruct (decide (o = user_id)); [|by apply IH].
    by apply NoDup_dict_set, IH.
Qed.

Lemma EvolvesOn_same {A : Type} user_id (m : M A) :
  (∀ w o, timers_of (exec m w) o = timers_of w o) → EvolvesOn user_id m.
Proof. intros H w. apply evolve_same. apply H. Qed.

Lemma EvolvesOn_ret {A : Type} user_id (a : A) : EvolvesOn user_id (ret a).
Proof. by apply EvolvesOn_same. Qed.

Lemma EvolvesOn_bind {A B : Type} user_id (m : M A) (k : A → M B) :
  EvolvesOn user_id m → (∀ a, EvolvesOn user_id (k a)) →
  EvolvesOn user_id (bind m k).
Proof.
  intros Hm Hk w. rewrite exec_bind.
  eapply evolve_trans; [apply Hm | apply Hk].
Qed.

Lemma EvolvesOn_send user_id dl chat t kb :
  EvolvesOn user_id (send dl chat t kb).
Proof. by apply EvolvesOn_same. Qed.

Lemma EvolvesOn_write_log user_id e : EvolvesOn user_id (write_log e).
Proof. by apply EvolvesOn_same. Qed.

Lemma EvolvesOn_get_user_timers user_id :
  EvolvesOn user_id (get_user_timers user_id).
Proof. apply EvolvesOn_same. intros. apply timers_of_get_user_timers. Qed.

Lemma EvolvesOn_get_timer_count user_id :
  EvolvesOn user_id (get_timer_count user_id).
Proof. apply EvolvesOn_same. intros. apply timers_of_get_timer_count. Qed.

Lemma EvolvesOn_format_timer_list now user_id page items_per_page :
  EvolvesOn user_id (format_timer_list now user_id page items_per_page).
Proof.
  apply EvolvesOn_same. intros. apply timers_of_format_timer_list.
Qed.

Lemma EvolvesOn_remove_timer user_id timer_id :
  EvolvesOn user_id (remove_timer user_id timer_id).
Proof.
  intros w. eapply evolve_del; [apply evolve_refl|].
  intros o. apply timers_of_remove_timer.
Qed.

Lemma EvolvesOn_cancel_loop user_id ids :
  ∀ cancelled_count,
    EvolvesOn user_id (cancel_loop user_id ids cancelled_count).
Proof.
  induction ids as [|timer_id r IH]; intros c; simpl.
  - apply EvolvesOn_ret.
  - apply EvolvesOn_bind; [apply EvolvesOn_remove_timer|]. intros b.
    apply IH.
Qed.

Lemma EvolvesOn_handle_time uuid4 now now' user_id message_text :
  EvolvesOn user_id (handle_time uuid4 now now' user_id message_text).
Proof.
  intros w.
  destruct (count_of w user_id >=? MAX_TIMERS_PER_USER) eqn:Hfull.
  { apply evolve_same. intros o. by rewrite timers_of_handle_time, Hfull. }
  destruct (validate_time_format (strip message_text))
    as [[hours minutes]|] eqn:Hparse.
  - eapply evolve_set; [apply evolve_refl|]. intros o.
    by rewrite timers_of_handle_time, Hfull, Hparse.
  - apply evolve_same. intros o.
    by rewrite timers_of_handle_time, Hfull, Hparse.
Qed.

Lemma EvolvesOn_timer_callback delivered j :
  EvolvesOn (job_user_id j) (timer_callback delivered j).
Proof.
  unfold timer_callback.
  apply EvolvesOn_bind; [apply EvolvesOn_remove_timer|]. intros _.
  apply EvolvesOn_bind; [apply EvolvesOn_get_timer_count|]. intros rc.
  destruct delivered; [apply EvolvesOn_send | apply EvolvesOn_write_log].
Qed.

Lemma EvolvesOn_cancel_timer user_id : EvolvesOn user_id (cancel_timer user_id).
Proof.
  unfold cancel_timer.
  apply EvolvesOn_bind; [apply EvolvesOn_get_timer_count|]. intros tc.
  destruct (tc >? 0); [|apply EvolvesOn_send].
  apply EvolvesOn_bind; [apply EvolvesOn_get_user_timers|]. intros ut.
  apply EvolvesOn_bind; [apply EvolvesOn_cancel_loop|]. intros c.
  apply EvolvesOn_send.
Qed.

Lemma EvolvesOn_button_callback now edit_ok user_id data :
  EvolvesOn user_id (button_callback now edit_ok user_id data).
Proof.
  unfold button_callback, show.
  apply EvolvesOn_bind; [apply EvolvesOn_send|]. intros _.
  destruct data.
  - apply EvolvesOn_bind; [apply EvolvesOn_format_timer_list|]. intros v.
    apply EvolvesOn_send.
  - apply EvolvesOn_bind; [apply EvolvesOn_format_timer_list|]. intros v.
    apply EvolvesOn_send.
  - apply EvolvesOn_bind; [apply EvolvesOn_remove_timer|]. intros [|].
    + apply EvolvesOn_bind; [apply EvolvesOn_send|]. intros _.
      apply EvolvesOn_bind; [apply EvolvesOn_format_timer_list|]. intros v.
      apply EvolvesOn_send.
    + apply EvolvesOn_send.
  - apply EvolvesOn_bind; [apply EvolvesOn_get_timer_count|]. intros tc.
    destruct (tc >? 0); [|apply EvolvesOn_send].
    apply EvolvesOn_bind; [apply EvolvesOn_get_user_timers|]. intros ut.
    apply EvolvesOn_bind; [apply EvolvesOn_cancel_loop|]. intros c.
    apply EvolvesOn_bind; [apply EvolvesOn_send|]. intros _.
    apply EvolvesOn_send.
  - apply EvolvesOn_bind; [apply EvolvesOn_get_timer_count|]. intros tc.
    destruct (tc >=? MAX_TIMERS_PER_USER); apply EvolvesOn_send.
  - destruct edit_ok; [apply EvolvesOn_send|].
    apply EvolvesOn_bind; [apply EvolvesOn_send|]. intros _.
    apply EvolvesOn_send.
  - destruct edit_ok; [apply EvolvesOn_send|].
    apply EvolvesOn_bind; [apply EvolvesOn_send|]. intros _.
    apply EvolvesOn_send.
Qed.

(** Every event changes the dict of its actor alone. *)
Lemma step_evolves e w :
  evolve_on (actor e w) (timers_of w) (timers_of (exec (step e) w)).
Proof.
  destruct e; simpl.
  - apply EvolvesOn_bind; [apply EvolvesOn_get_timer_count|].
    intros. apply EvolvesOn_send.
  - apply EvolvesOn_bind; [apply EvolvesOn_get_timer_count|].
    intros. apply EvolvesOn_send.
  - apply EvolvesOn_cancel_timer.
  - unfold status_timer.
    apply EvolvesOn_bind; [apply EvolvesOn_get_user_timers|]. intros ut.
    destruct (dict_empty ut); apply EvolvesOn_send.
  - apply EvolvesOn_handle_time.
  - apply EvolvesOn_button_callback.
  - apply evolve_same. intros o. unfold exec, trigger.
    by destruct (find_job id (job_queue w)).
  - unfold run_callback. rewrite exec_bind.
    unfold eval, exec at 2, take_pending.
    destruct (find_job id (pending w)) as [j|]; simpl.
    + set (w1 := mkWorld _ _ _ _ _ _).
      change (timers_of w) with (timers_of w1).
      apply EvolvesOn_timer_callback.
    + apply evolve_refl.
Qed.

Lemma reachable_ids_distinct w : reachable w → ids_distinct w.
Proof.
  induction 1 as [|e w Hw IH].
  - intros u. apply NoDup_nil_2.
  - intros u. by eapply evolve_NoDup; [apply step_evolves|].
Qed.

End Evolve.

(** X7: the timers of a user are changed by that user's own updates and
    by the callbacks of that user's own jobs only: whatever happens, every
    user other than the one the event acts for has the same timers
    afterwards, in the same order. *)
Theorem step_leaves_other_users e w other :
  other ≠ actor e w →
  timers_of (exec (step e) w) other = timers_of w other.
Proof. intros Hne. by eapply evolve_others; [apply step_evolves|]. Qed.

Lemma step_leaves_other_users_witness :
  8 ≠ actor (EvCancel 7) sample_world
  ∧ count_of sample_world 8 = 1
  ∧ count_of (exec (step (EvCancel 7)) sample_world) 7 = 0
  ∧ timers_of (exec (step (EvCancel 7)) sample_world) 8
    = timers_of sample_world 8.
Proof.
  assert (8 ≠ actor (EvCancel 7) sample_world) as Hne by discriminate.
  split; [exact Hne|]. split; [reflexivity|]. split; [reflexivity|].
  exact (step_leaves_other_users (EvCancel 7) sample_world 8 Hne).
Defined.

(** X8: in every state the bot can reach the ids of a user's timers are
    pairwise distinct, and removing a timer twice never succeeds twice:
    after [remove_timer] for an id, a second [remove_timer] for the same
    id answers [False]. *)
Theorem reachable_remove_twice w user_id timer_id :
  reachable w →
  NoDup (map fst (timers_of w user_id))
  ∧ eval (remove_timer user_id timer_id)
      (exec (remove_timer user_id timer_id) w) = false.
Proof.
  intros Hreach. pose proof (reachable_ids_distinct w Hreach user_id) as Hnd.
  split; [exact Hnd|].
  rewrite remove_timer_result. unfold dict_mem.
  rewrite timers_of_remove_timer, decide_True by done.
  by rewrite dict_get_del_eq.
Qed.

Lemma reachable_remove_twice_witness :
  reachable three_timers_world
  ∧ eval (remove_timer 7 "bbbbbbbb") three_timers_world = true
  ∧ eval (remove_timer 7 "bbbbbbbb")
      (exec (remove_timer 7 "bbbbbbbb") three_timers_world) = false.
Proof.
  assert (reachable three_timers_world) as Hreach
    by (apply reachable_run; constructor).
  split; [exact Hreach|]. split; [reflexivity|].
  exact (proj2 (reachable_remove_twice three_timers_world 7 "bbbbbbbb"
                  Hreach)).
Defined.

(** ** Handlers that only read *)

Section Quiet.

Implicit Types (w : world) (user_id : Z).

Lemma same_registry_refl w : same_registry w w.
Proof. by repeat split. Qed.

Lemma same_registry_trans w1 w2 w3 :
  same_registry w1 w2 → same_registry w2 w3 → same_registry w1 w3.
Proof.
  intros (Ht & Hq & Hp & Hn & Hl) (Ht' & Hq' & Hp' & Hn' & Hl').
  split_and!; [intros o; by rewrite Ht', Ht | congruence..].
Qed.

Lemma Quiet_ret {A : Type} (a : A) : Quiet (ret a).
Proof. intros w. apply same_registry_refl. Qed.

Lemma Quiet_bind {A B : Type} (m : M A) (k : A → M B) :
  Quiet m → (∀ a, Quiet (k a)) → Quiet (bind m k).
Proof.
  intros Hm Hk w. rewrite exec_bind.
  eapply same_registry_trans; [apply Hm | apply Hk].
Qed.

Lemma Quiet_send dl chat t kb : Quiet (send dl chat t kb).
Proof. intros w. by repeat split. Qed.

Lemma Quiet_get_user_timers user_id : Quiet (get_user_timers user_id).
Proof.
  intros w. unfold exec. rewrite get_user_timers_run. simpl.
  split_and!; try done. intros o. apply timers_of_touched.
Qed.

Lemma Quiet_get_timer_count user_id : Quiet (get_timer_count user_id).
Proof.
  intros w. unfold exec. rewrite get_timer_count_run. simpl.
  split_and!; try done. intros o. apply timers_of_touched.
Qed.

Lemma exec_format_timer_list now user_id page items_per_page w :
  exec (format_timer_list now user_id page items_per_page) w
  = exec (get_user_timers user_id) w.
Proof.
  unfold format_timer_list. rewrite exec_bind.
  destruct (dict_empty _); [done|]. by destruct (button_rows _ _ _).
Qed.

Lemma Quiet_format_timer_list now user_id page items_per_page :
  Quiet (format_timer_list now user_id page items_per_page).
Proof.
  intros w. rewrite exec_format_timer_list. apply Quiet_get_user_timers.
Qed.

End Quiet.

(** X9: the commands start, help and status and the buttons that show the
    list, the prompt, the help or the examples look at the registry only:
    after them every user has the same timers in the same order, and the
    job queue, the pending callbacks and the log are what they were. *)
Theorem reading_events_change_nothing e w :
  reads_only e = true → same_registry w (exec (step e) w).
Proof.
  destruct e as [u|u|u|u| | now edit_ok u data| |]; try done.
  - intros _. simpl. apply Quiet_bind; [apply Quiet_get_timer_count|].
    intros. apply Quiet_send.
  - intros _. simpl. apply Quiet_bind; [apply Quiet_get_timer_count|].
    intros. apply Quiet_send.
  - intros _. simpl. unfold status_timer.
    apply Quiet_bind; [apply Quiet_get_user_timers|]. intros ut.
    destruct (dict_empty ut); apply Quiet_send.
  - destruct data; try done; intros _; simpl;
      unfold button_callback, show;
      (apply Quiet_bind; [apply Quiet_send|]; intros _).
    + apply Quiet_bind; [apply Quiet_format_timer_list|]. intros v.
      apply Quiet_send.
    + apply Quiet_bind; [apply Quiet_format_timer_list|]. intros v.
      apply Quiet_send.
    + apply Quiet_bind; [apply Quiet_get_timer_count|]. intros tc.
      destruct (tc >=? MAX_TIMERS_PER_USER); apply Quiet_send.
    + destruct edit_ok; [apply Quiet_send|].
      apply Quiet_bind; [apply Quiet_send|]. intros _. apply Quiet_send.
    + destruct edit_ok; [apply Quiet_send|].
      apply Quiet_bind; [apply Quiet_send|]. intros _. apply Quiet_send.
Qed.

Lemma reading_events_change_nothing_witness :
  reads_only (EvButton (λ _, 0) true 7 (TimersPage 1)) = true
  ∧ job_queue (exec (step (EvButton (λ _, 0) true 7 (TimersPage 1)))
                 seven_timers_world)
    = job_queue seven_timers_world
  ∧ timers_of (exec (step (EvButton (λ _, 0) true 7 (TimersPage 1)))
                 seven_timers_world) 7
    = timers_of seven_timers_world 7.
Proof.
  assert (reads_only (EvButton (λ _, 0) true 7 (TimersPage 1)) = true)
    as Hread by reflexivity.
  split; [exact Hread|].
  destruct (reading_events_change_nothing
              (EvButton (λ _, 0) true 7 (TimersPage 1)) seven_timers_world
              Hread) as (Ht & Hq & _).
  split; [exact Hq | exact (Ht 7)].
Defined.

(** ** The expiry callback, timer present or delivery failed *)

Lemma exec_timer_callback delivered j w :
  let user_id := job_user_id j in
  let w2 :=
    exec (get_timer_count user_id)
      (exec (remove_timer user_id (job_timer_id j)) w) in
  exec (timer_callback delivered j) w
  = if delivered
    then exec (send Notify user_id
                 (TimerFinishedText (job_description j) (count_of w2 user_id))
                 ((if count_of w2 user_id >? 0 then [[ListTimers]] else [])
                  ++ [[NewTimer]])) w2
    else exec (write_log (ErrorSend user_id)) w2.
Proof.
  cbv zeta. unfold timer_callback. rewrite !exec_bind.
  rewrite eval_get_timer_count.
  rewrite (count_of_ext _ (exec (get_timer_count (job_user_id j)) _))
    by (intros; apply timers_of_get_timer_count).
  by destruct delivered.
Qed.

(** X10: the callback of a timer that is still in the registry deletes
    that timer and no other, and tells the user how many timers are left:
    the count in the message is the user's count after the deletion, and
    the button to the list is shown exactly when that count is not zero. *)
Theorem timer_callback_removes_timer w j info :
  dict_get (job_timer_id j) (timers_of w (job_user_id j)) = Some info →
  let user_id := job_user_id j in
  let w' := exec (timer_callback true j) w in
  let remaining_count := count_of w user_id - 1 in
  (∀ other, timers_of w' other
            = if decide (other = user_id)
              then dict_del (job_timer_id j) (timers_of w user_id)
              else timers_of w other)
  ∧ count_of w' user_id = remaining_count
  ∧ outbox w'
    = outbox w
      ++ [mkSent Notify user_id
            (TimerFinishedText (job_description j) remaining_count)
            (if remaining_count >? 0 then [[ListTimers]; [NewTimer]]
             else [[NewTimer]])].
Proof.
  intros Hget. cbv zeta.
  assert (∀ other,
            timers_of (exec (timer_callback true j) w) other
            = if decide (other = job_user_id j)
              then dict_del (job_timer_id j) (timers_of w (job_user_id j))
              else timers_of w other) as Htimers.
  { intros other. rewrite exec_timer_callback. cbv zeta.
    by rewrite timers_of_send, timers_of_get_timer_count,
      timers_of_remove_timer. }
  assert (count_of (exec (remove_timer (job_user_id j) (job_timer_id j)) w)
            (job_user_id j) = count_of w (job_user_id j) - 1) as Hcount.
  { unfold count_of. rewrite timers_of_remove_timer, decide_True by done.
    apply length_dict_del_found in Hget. lia. }
  split_and!.
  - exact Htimers.
  - unfold count_of. rewrite Htimers, decide_True by done.
    apply length_dict_del_found in Hget. unfold count_of. lia.
  - rewrite timer_callback_sends. cbv zeta. rewrite Hcount.
    by destruct (count_of w (job_user_id j) - 1 >? 0).
Qed.

Lemma timer_callback_removes_timer_witness :
  let j := mkJob 1 7200 7 "bbbbbbbb"
             (mkDescription (DisplayHM 2 0) 7200000010) (DisplayHM 2 0) in
  dict_get (job_timer_id j) (timers_of three_timers_world (job_user_id j))
  = Some (created_timer "bbbbbbbb-0000" 10 11 7 2 0 1)
  ∧ count_of (exec (timer_callback true j) three_timers_world) 7 = 2
  ∧ map fst (timers_of (exec (timer_callback true j) three_timers_world) 7)
    = ["aaaaaaaa"; "cccccccc"].
Proof.
  cbv zeta.
  set (j := mkJob 1 7200 7 "bbbbbbbb"
              (mkDescription (DisplayHM 2 0) 7200000010) (DisplayHM 2 0)).
  assert (dict_get (job_timer_id j)
            (timers_of three_timers_world (job_user_id j))
          = Some (created_timer "bbbbbbbb-0000" 10 11 7 2 0 1)) as Hget
    by reflexivity.
  split; [exact Hget|].
  destruct (timer_callback_removes_timer three_timers_world j _ Hget)
    as (Htimers & Hcount & _).
  split; [exact Hcount|].
  rewrite (Htimers 7). reflexivity.
Defined.

(** X11: when the message of the callback cannot be delivered the error
    is logged and that is all: the timer is deleted and its job gone as
    after a delivery, nothing is sent, and nothing is queued for a second
    try. *)
Theorem timer_callback_delivery_failure w j :
  let delivered := exec (timer_callback true j) w in
  let failed := exec (timer_callback false j) w in
  active_timers failed = active_timers delivered
  ∧ job_queue failed = job_queue delivered
  ∧ pending failed = pending delivered
  ∧ next_job failed = next_job delivered
  ∧ outbox failed = outbox w
  ∧ log failed = log delivered ++ [ErrorSend (job_user_id j)].
Proof.
  cbv zeta. rewrite !exec_timer_callback. cbv zeta.
  split_and!; try done.
  change (outbox (exec (write_log _) ?w2)) with (outbox w2).
  by rewrite outbox_get_timer_count, remove_timer_outbox.
Qed.

(** ** The replies of [handle_time] *)

Lemma add_timer_frame now user_id timer_id description end_time job w :
  let w' :=
    exec (add_timer now user_id timer_id description end_time job) w in
  job_queue w' = job_queue w ∧ pending w' = pending w
  ∧ next_job w' = next_job w ∧ log w' = log w.
Proof. cbv zeta. unfold exec. by rewrite add_timer_run. Qed.

Lemma outbox_add_timer now user_id timer_id description end_time job w :
  outbox (exec (add_timer now user_id timer_id description end_time job) w)
  = outbox w.
Proof. unfold exec. by rewrite add_timer_run. Qed.

Lemma handle_time_created_run uuid4 now now' user_id message_text w hours
    minutes :
  count_of w user_id < MAX_TIMERS_PER_USER →
  validate_time_format (strip message_text) = Some (hours, minutes) →
  let created :=
    created_timer uuid4 now now' user_id hours minutes (next_job w) in
  let w' := exec (handle_time uuid4 now now' user_id message_text) w in
  outbox w'
  = outbox w
    ++ [mkSent Reply user_id
          (TimerStartedText (str_take 8 uuid4)
             (desc_display (description created)) (end_time created)
             (count_of w' user_id) MAX_TIMERS_PER_USER)
          [[ListTimers]; [NewTimer]]]
  ∧ log w' = log w
  ∧ pending w' = pending w
  ∧ next_job w' = S (next_job w).
Proof.
  intros Hroom Hparse created w'.
  assert ((count_of w user_id >=? MAX_TIMERS_PER_USER) = false) as Hcond
    by (rewrite Z.geb_leb; apply Z.leb_gt; lia).
  set (w0 := exec (get_timer_count user_id) w).
  set (total_seconds := hours * 3600 + minutes * 60).
  set (display :=
         if hours >? 0 then DisplayHM hours minutes else DisplayM minutes).
  set (finish := now + timedelta_of_seconds total_seconds).
  set (d := mkDescription display finish).
  set (run := run_once total_seconds user_id (str_take 8 uuid4) d display).
  set (w3 := exec (add_timer now' user_id (str_take 8 uuid4) d finish
                     (Some (eval run w0))) (exec run w0)).
  assert (w' = exec (send Reply user_id
                       (TimerStartedText (str_take 8 uuid4) display finish
                          (count_of w3 user_id) MAX_TIMERS_PER_USER)
                       [[ListTimers]; [NewTimer]])
                 (exec (get_timer_count user_id) w3)) as Hw'.
  { unfold w', handle_time.
    rewrite exec_bind, eval_get_timer_count, Hcond, Hparse.
    fold total_seconds display finish d run w0.
    by rewrite exec_bind, exec_bind, exec_bind, eval_get_timer_count. }
  assert (count_of w' user_id = count_of w3 user_id) as Hcount.
  { rewrite Hw'. apply count_of_ext. intros o.
    by rewrite timers_of_send, timers_of_get_timer_count. }
  assert (outbox (exec run w0) = outbox w) as Hout0
    by (unfold w0; apply outbox_get_timer_count).
  destruct (Quiet_get_timer_count user_id w3) as (_ & _ & Hp2 & Hn2 & Hl2).
  destruct (add_timer_frame now' user_id (str_take 8 uuid4) d finish
              (Some (eval run w0)) (exec run w0))
    as (_ & Hp3 & Hn3 & Hl3).
  destruct (Quiet_get_timer_count user_id w) as (_ & _ & Hp0 & Hn0 & Hl0).
  fold w3 in Hp3, Hn3, Hl3. fold w0 in Hp0, Hn0, Hl0.
  split_and!.
  - rewrite Hcount, Hw', outbox_send, outbox_get_timer_count.
    unfold w3. by rewrite outbox_add_timer, Hout0.
  - rewrite Hw'. change (log (exec (send _ _ _ _) ?x)) with (log x).
    rewrite Hl2, Hl3. change (log (exec run w0)) with (log w0). done.
  - rewrite Hw'. change (pending (exec (send _ _ _ _) ?x)) with (pending x).
    rewrite Hp2, Hp3. change (pending (exec run w0)) with (pending w0). done.
  - rewrite Hw'.
    change (next_job (exec (send _ _ _ _) ?x)) with (next_job x).
    rewrite Hn2, Hn3.
    change (next_job (exec run w0)) with (S (next_job w0)). by rewrite Hn0.
Qed.

(** X12: every message gets exactly one reply, and the reply tells what
    was done.  It is the refusal exactly when the user is at the limit, and
    then nothing else changes; it is the format error exactly when the
    user is below the limit and the stripped text is not a time, and then
    no timer is stored and no job queued, and a warning is logged; in the
    remaining case it is the start message, which names the generated id,
    an end time that is the clock reading plus the duration, and the
    user's count after the creation, while the timer is stored and its job
    queued. *)
Theorem handle_time_replies_once uuid4 now now' user_id message_text w :
  let w' := exec (handle_time uuid4 now now' user_id message_text) w in
  ∃ t kb,
    outbox w' = outbox w ++ [mkSent Reply user_id t kb]
    ∧ match t with
      | LimitReachedText timer_count _ =>
          count_of w user_id >= MAX_TIMERS_PER_USER
          ∧ timer_count = count_of w user_id
          ∧ same_registry w w'
      | BadFormatText =>
          count_of w user_id < MAX_TIMERS_PER_USER
          ∧ validate_time_format (strip message_text) = None
          ∧ (∀ o, timers_of w' o = timers_of w o)
          ∧ job_queue w' = job_queue w
          ∧ log w' = log w ++ [WarnBadFormat user_id (strip message_text)]
      | TimerStartedText timer_id _ finish new_timer_count _ =>
          count_of w user_id < MAX_TIMERS_PER_USER
          ∧ ∃ hours minutes,
              validate_time_format (strip message_text)
              = Some (hours, minutes)
              ∧ timer_id = str_take 8 uuid4
              ∧ finish = now + (hours * 3600 + minutes * 60) * 1000000
              ∧ new_timer_count = count_of w' user_id
              ∧ dict_get timer_id (timers_of w' user_id)
                = Some (created_timer uuid4 now now' user_id hours minutes
                          (next_job w))
              ∧ job_queue w'
                = job_queue w
                  ++ match job (created_timer uuid4 now now' user_id hours
                                  minutes (next_job w)) with
                     | Some j => [j]
                     | None => []
                     end
      | _ => False
      end.
Proof.
  cbv zeta.
  destruct (count_of w user_id >=? MAX_TIMERS_PER_USER) eqn:Hfull.
  - (* at the limit *)
    rewrite Z.geb_leb in Hfull. apply Z.leb_le in Hfull.
    eexists _, _. unfold exec.
    rewrite handle_time_at_capacity by lia. simpl.
    split; [done|]. split_and!; try done; [lia|].
    split_and!; try done.
    intros o. apply (timers_of_touched w user_id o).
  - rewrite Z.geb_leb in Hfull. apply Z.leb_gt in Hfull.
    destruct (validate_time_format (strip message_text))
      as [[hours minutes]|] eqn:Hparse.
    + (* a timer is created *)
      destruct (handle_time_created_run uuid4 now now' user_id message_text
                  w hours minutes Hfull Hparse) as (Hout & _).
      eexists _, _. split; [exact Hout|]. cbv beta iota.
      split; [done|]. exists hours, minutes. split_and!; try done.
      * rewrite timers_of_handle_time, Hparse.
        assert ((count_of w user_id >=? MAX_TIMERS_PER_USER) = false) as ->
          by (rewrite Z.geb_leb; apply Z.leb_gt; lia).
        rewrite decide_True by done. apply dict_get_set_eq.
      * by apply job_queue_handle_time.
    + (* not a time *)
      assert (exec (handle_time uuid4 now now' user_id message_text) w
              = exec (write_log (WarnBadFormat user_id (strip message_text)))
                  (exec (send Reply user_id BadFormatText [])
                     (exec (get_timer_count user_id) w))) as ->.
      { unfold handle_time. rewrite exec_bind, eval_get_timer_count.
        assert ((count_of w user_id >=? MAX_TIMERS_PER_USER) = false) as ->
          by (rewrite Z.geb_leb; apply Z.leb_gt; lia).
        by rewrite Hparse, exec_bind. }
      destruct (Quiet_get_timer_count user_id w) as (Ht & Hq & _ & _ & Hl).
      exists BadFormatText, [].
      change (outbox (exec (write_log _) ?x)) with (outbox x).
      rewrite outbox_send, outbox_get_timer_count.
      split; [done|]. split_and!; try done.
      * unfold exec at 1 2, write_log, send. simpl. by rewrite Hl.
Qed.

(** ** The list view: buttons, pages and remaining time *)

Section ViewMore.

Implicit Types (w : world) (user_id page : Z).

Lemma view_of_no_timers now user_id page items_per_page w :
  timers_of w user_id = [] →
  eval (format_timer_list now user_id page items_per_page) w
  = (NoActiveTimersText, [[NewTimer]]).
Proof.
  intros Hnil. unfold format_timer_list.
  by rewrite eval_bind, !eval_get_user_timers, Hnil.
Qed.

(** The rows of a page that is not negative. *)
Lemma format_timer_list_rows now user_id page w :
  timers_of w user_id ≠ [] → 0 <= page →
  rows_of (eval (format_timer_list now user_id page 5) w).1
  = rows_for now (page * 5)
      (take 5 (drop (Z.to_nat (page * 5))
                 (sorted_by_created_at (timers_of w user_id)))).
Proof.
  intros Hne Hpage.
  destruct (format_timer_list_run now user_id page 5 w Hne) as [-> _].
  by rewrite py_slice_window by lia.
Qed.

Lemma cancel_ids_of_buttons ids rest :
  flat_map (λ b, match b with CancelTimerData timer_id => [timer_id]
                 | _ => [] end)
           (map CancelTimerData ids ++ rest)
  = ids ++ flat_map (λ b, match b with CancelTimerData timer_id => [timer_id]
                          | _ => [] end) rest.
Proof. induction ids as [|t r IH]; simpl; [done|]. by rewrite IH. Qed.

Lemma chunks_concat {A : Type} (k : nat) :
  ∀ l : list A,
    (length l ≤ 5 * k)%nat →
    concat (map (λ p, take 5 (drop (5 * p) l)) (seq 0 k)) = l.
Proof.
  induction k as [|k IH]; intros l Hlen.
  - destruct l; [done | simpl in Hlen; lia].
  - cbn [seq map concat]. rewrite <- seq_shift, map_map.
    rewrite Nat.mul_0_r, drop_0.
    rewrite (map_ext _ (λ p, take 5 (drop (5 * p) (drop 5 l)))).
    + rewrite IH by (rewrite length_drop; lia). apply take_drop.
    + intros p. rewrite drop_drop. do 2 f_equal. lia.
Qed.

Lemma rows_for_nil_iff now start l :
  list_empty (rows_for now start l) = list_empty l.
Proof. by destruct l. Qed.

End ViewMore.

(** X13: the cancel buttons under a page of the list are the buttons of
    the timers listed on it, one for each row and in the order of the
    rows, whatever the page and the page size. *)
Theorem format_timer_list_buttons_match_rows now user_id page items_per_page
    w :
  let view := eval (format_timer_list now user_id page items_per_page) w in
  cancel_ids view.2 = map row_timer_id (rows_of view.1).
Proof.
  cbv zeta. destruct (timers_of w user_id) as [|e r] eqn:Hd.
  - by rewrite view_of_no_timers.
  - assert (timers_of w user_id ≠ []) as Hne by (by rewrite Hd).
    destruct (format_timer_list_run now user_id page items_per_page w Hne)
      as [Htext Hkeys].
    unfold cancel_ids. rewrite Hkeys, Htext, cancel_ids_of_buttons.
    cbn [rows_of]. rewrite rows_for_ids.
    destruct (page >? 0), (_ <? _); simpl; by rewrite app_nil_r.
Qed.

(** X14: the pages of the list show every timer of the user exactly once:
    read one after the other, pages 0 to [pages - 1] give the ids of the
    user's timers in the order of creation, as soon as five times the
    number of pages reaches the number of timers. *)
Theorem format_timer_list_pages_cover now user_id w (pages : nat) :
  (length (timers_of w user_id) ≤ 5 * pages)%nat →
  concat (map (page_ids now user_id w) (seq 0 pages))
  = map fst (sorted_by_created_at (timers_of w user_id)).
Proof.
  intros Hlen. destruct (timers_of w user_id) as [|e r] eqn:Hd.
  - unfold page_ids. simpl.
    induction (seq 0 pages) as [|p ps IH]; [done|].
    simpl. by rewrite view_of_no_timers.
  - assert (timers_of w user_id ≠ []) as Hne by (by rewrite Hd).
    rewrite <- Hd in *.
    set (l := sorted_by_created_at (timers_of w user_id)).
    transitivity
      (map fst (concat (map (λ p, take 5 (drop (5 * p) l)) (seq 0 pages)))).
    + rewrite concat_map, map_map. f_equal. apply map_ext. intros p.
      unfold page_ids. rewrite format_timer_list_rows by (done || lia).
      rewrite rows_for_ids. fold l. do 3 f_equal. lia.
    + rewrite chunks_concat; [done|].
      unfold l. by rewrite length_sorted_by_created_at.
Qed.

Lemma format_timer_list_pages_cover_witness :
  (length (timers_of seven_timers_world 7) ≤ 5 * 2)%nat
  ∧ page_ids (λ _, 0) 7 seven_timers_world 0
    ++ page_ids (λ _, 0) 7 seven_timers_world 1
    = ["11111111"; "22222222"; "00000000"; "66666666"; "44444444";
       "55555555"; "33333333"].
Proof.
  assert (length (timers_of seven_timers_world 7) ≤ 5 * 2)%nat as Hlen
    by (vm_compute; lia).
  split; [exact Hlen|].
  pose proof (format_timer_list_pages_cover (λ _, 0) 7 seven_timers_world 2
                Hlen) as H.
  cbn [seq map concat] in H. rewrite app_nil_r in H. rewrite H.
  reflexivity.
Defined.

(** X15: for a user who has timers and a page that is not negative, the
    forward button is there exactly when the next page has a row to
    show. *)
Theorem format_timer_list_next_has_rows now now' user_id page w :
  timers_of w user_id ≠ [] → 0 <= page →
  has_next page (eval (format_timer_list now user_id page 5) w).2
  = negb (list_empty
            (rows_of
               (eval (format_timer_list now' user_id (page + 1) 5) w).1)).
Proof.
  intros Hne Hpage.
  destruct (format_timer_list_run now user_id page 5 w Hne) as [_ Hkeys].
  apply has_prev_keyboard in Hkeys as [_ ->].
  rewrite format_timer_list_rows by (done || lia).
  rewrite rows_for_nil_iff, length_sorted_by_created_at.
  set (l := sorted_by_created_at (timers_of w user_id)).
  assert (length l = length (timers_of w user_id)) as Hl
    by apply length_sorted_by_created_at.
  clearbody l.
  destruct (take 5 (drop (Z.to_nat ((page + 1) * 5)) l)) as [|x t] eqn:E;
    apply (f_equal length) in E; rewrite length_take, length_drop in E;
    cbn [length list_empty negb] in *.
  - apply Z.ltb_ge. lia.
  - apply Z.ltb_lt. lia.
Qed.

Lemma format_timer_list_next_has_rows_witness :
  (timers_of seven_timers_world 7 ≠ [] ∧ 0 <= 0)
  ∧ has_next 0
      (eval (format_timer_list (λ _, 0) 7 0 5) seven_timers_world).2 = true.
Proof.
  assert (timers_of seven_timers_world 7 ≠ []) as Hne by discriminate.
  assert (0 <= 0) as Hpage by lia.
  split; [by split|].
  rewrite (format_timer_list_next_has_rows (λ _, 0) (λ _, 0) 7 0
             seven_timers_world Hne Hpage).
  reflexivity.
Defined.

(** X16: the time left that the list shows for a timer created by
    [handle_time] is exact: from the creation until the end time it is the
    whole seconds still to go, written as minutes and seconds below 60.
    No day is lost, since an accepted time stays under 24 hours. *)
Theorem status_at_exact time_str hours minutes now view_time :
  validate_time_format time_str = Some (hours, minutes) →
  let finish := now + timedelta_of_seconds (hours * 3600 + minutes * 60) in
  now <= view_time → view_time < finish →
  ∃ mins secs,
    status_at view_time finish = StatusRemaining mins secs
    ∧ 0 <= secs < 60 ∧ 0 <= mins
    ∧ mins * 60 + secs = (finish - view_time) / 1000000.
Proof.
  intros Hparse finish Hfrom Hto.
  apply accepted_time_bounds in Hparse as (_ & _ & Hdur).
  unfold status_at. assert ((finish >? view_time) = true) as ->
    by (rewrite Z.gtb_ltb; apply Z.ltb_lt; lia).
  eexists _, _. split; [done|].
  unfold timedelta_seconds_part.
  set (q := (finish - view_time) / 1000000).
  assert (0 <= q < 86400) as Hq.
  { unfold q, finish, timedelta_of_seconds in *. split.
    - apply Z.div_pos; lia.
    - apply Z.div_lt_upper_bound; lia. }
  rewrite (Z.mod_small q 86400) by lia.
  pose proof (Z.div_mod q 60 ltac:(lia)) as Hdm.
  pose proof (Z.mod_pos_bound q 60 ltac:(lia)) as Hm.
  assert (0 <= q / 60) by (apply Z.div_pos; lia).
  lia.
Qed.

Lemma status_at_exact_witness :
  (validate_time_format "90" = Some (1, 30) ∧ 0 <= 61500000
   ∧ 61500000 < 0 + timedelta_of_seconds (1 * 3600 + 30 * 60))
  ∧ status_at 61500000 5400000000 = StatusRemaining 88 58
  ∧ ∃ mins secs,
      status_at 61500000 (0 + timedelta_of_seconds (1 * 3600 + 30 * 60))
      = StatusRemaining mins secs
      ∧ 0 <= secs < 60 ∧ 0 <= mins
      ∧ mins * 60 + secs
        = (0 + timedelta_of_seconds (1 * 3600 + 30 * 60) - 61500000)
          / 1000000.
Proof.
  assert (validate_time_format "90" = Some (1, 30)) as Hparse by reflexivity.
  assert (0 <= 61500000) as Hfrom by lia.
  assert (61500000 < 0 + timedelta_of_seconds (1 * 3600 + 30 * 60)) as Hto
    by reflexivity.
  split; [by split_and!|]. split; [reflexivity|].
  exact (status_at_exact "90" 1 30 0 61500000 Hparse Hfrom Hto).
Defined.

(** ** The layout of the keyboard *)

Lemma button_rows_layout ids :
  ∀ keyboard timer_buttons,
    Forall (λ row, length row = 2%nat) keyboard →
    (length timer_buttons ≤ 1)%nat →
    Forall (λ row, length row = 2%nat)
      (button_rows keyboard timer_buttons ids).1
    ∧ (length (button_rows keyboard timer_buttons ids).2 ≤ 1)%nat.
Proof.
  induction ids as [|timer_id r IH]; intros kb tb Hkb Htb; simpl; [done|].
  destruct (Nat.eqb (length (tb ++ [CancelTimerData timer_id])) 2) eqn:E.
  - apply Nat.eqb_eq in E. apply IH; [|simpl; lia].
    apply Forall_app. split; [done|]. by apply Forall_singleton.
  - apply Nat.eqb_neq in E. apply IH; [done|].
    rewrite length_app in *. simpl in *. lia.
Qed.

(** X17: the keyboard under the list has no empty row and no row of more
    than two buttons: the cancel buttons stand two to a row, the last of
    them alone when their number is odd, then the page buttons that there
    are, then the two buttons for all timers and for a new one. *)
Theorem format_timer_list_keyboard_rows now user_id page items_per_page w :
  Forall (λ row, (1 ≤ length row ≤ 2)%nat)
    (eval (format_timer_list now user_id page items_per_page) w).2.
Proof.
  destruct (timers_of w user_id) as [|e r] eqn:Hd.
  - rewrite view_of_no_timers by done. apply Forall_singleton. simpl. lia.
  - unfold format_timer_list. rewrite eval_bind, !eval_get_user_timers, Hd.
    cbn [dict_empty].
    set (ids := map fst _).
    pose proof (button_rows_layout ids [] [] (Forall_nil_2 _)
                  ltac:(simpl; lia)) as [Hkb Htb].
    destruct (button_rows [] [] ids) as [kb tb]. cbn [fst snd] in Hkb, Htb.
    unfold eval, ret. cbn [fst snd].
    assert (Forall (λ row, (1 ≤ length row ≤ 2)%nat) kb) as Hkb'.
    { eapply Forall_impl; [exact Hkb|]. simpl. intros row ->. lia. }
    apply Forall_app. split; [|apply Forall_singleton; simpl; lia].
    assert (Forall (λ row, (1 ≤ length row ≤ 2)%nat)
              (if list_empty tb then kb else kb ++ [tb])) as Hcancel.
    { destruct tb as [|b tb]; [done|]. simpl.
      apply Forall_app. split; [done|]. apply Forall_singleton.
      simpl in *. lia. }
    destruct (page >? 0), (_ <? _); simpl; try done;
      (apply Forall_app; split; [done|]; apply Forall_singleton; simpl; lia).
Qed.

(** ** Timers and their jobs *)

Section LiveJobs.

Implicit Types (w : world) (user_id : Z) (j : Job) (q p : list Job).

Lemma elem_of_job_id j l : j ∈ l → job_id j ∈ map job_id l.
Proof.
  induction l as [|x l IH]; [by intros ?%elem_of_nil|].
  simpl. rewrite !elem_of_cons. intros [->|H]; [by left | right; auto].
Qed.

Lemma elem_of_unqueue j j' q :
  j' ∈ unqueue j q ↔ j' ∈ q ∧ same_job j j' = false.
Proof.
  unfold unqueue. induction q as [|x q IH]; simpl.
  - split.
    + intros H. by apply elem_of_nil in H.
    + intros [H _]. by apply elem_of_nil in H.
  - destruct (same_job j x) eqn:E; simpl.
    + rewrite IH, elem_of_cons. split.
      * intros [H1 H2]. split; [by right | done].
      * intros [[->|H1] H2]; [congruence | done].
    + rewrite !elem_of_cons, IH. split.
      * intros [->|[H1 H2]]; [by split; [left|] | by split; [right|]].
      * intros [[->|H1] H2]; [by left | by right].
Qed.

Lemma unqueue_sublist j q : unqueue j q `sublist_of` q.
Proof.
  unfold unqueue. induction q as [|x q IH]; simpl; [done|].
  destruct (negb _); [by apply sublist_skip | by apply sublist_cons].
Qed.

Lemma same_id_same_job j j' l :
  NoDup (map job_id l) → j ∈ l → j' ∈ l → job_id j = job_id j' → j = j'.
Proof.
  induction l as [|x l IH]; simpl; [by intros _ ?%elem_of_nil|].
  intros [Hx Hl]%NoDup_cons [->|Hj]%elem_of_cons [->|Hj']%elem_of_cons Hid;
    try done.
  - exfalso. apply Hx. rewrite Hid. by apply elem_of_job_id.
  - exfalso. apply Hx. rewrite <- Hid. by apply elem_of_job_id.
  - by apply IH.
Qed.

Lemma same_job_false j j' : same_job j j' = false ↔ job_id j ≠ job_id j'.
Proof. unfold same_job. apply Nat.eqb_neq. Qed.

(** Taking a job out by its identity takes out that job and no other. *)
Lemma unqueue_perm j q :
  NoDup (map job_id q) → j ∈ q → q ≡ₚ j :: unqueue j q.
Proof.
  unfold unqueue. induction q as [|x q IH]; simpl; [by intros _ ?%elem_of_nil|].
  intros [Hx Hq]%NoDup_cons [->|Hj]%elem_of_cons.
  - unfold same_job at 1. rewrite Nat.eqb_refl. simpl. constructor.
    clear IH. induction q as [|y q IH]; simpl; [done|].
    apply NoDup_cons in Hq as [Hy Hq].
    assert (same_job x y = false) as ->.
    { apply same_job_false. intros Hid. apply Hx. rewrite Hid. simpl.
      by left. }
    simpl. constructor. apply IH; [|done].
    intros Hin. apply Hx. simpl. by right.
  - assert (same_job j x = false) as ->.
    { apply same_job_false. intros Hid. apply Hx. rewrite <- Hid.
      by apply elem_of_job_id. }
    simpl. rewrite (IH Hq Hj) at 1. apply perm_swap.
Qed.

Lemma find_job_Some id q j :
  find_job id q = Some j → j ∈ q ∧ job_id j = id.
Proof.
  unfold find_job. intros [Hin Hid]%find_some.
  split; [by apply list_elem_of_In | by apply Nat.eqb_eq].
Qed.

End LiveJobs.

Section KeepsJobs.

Implicit Types (w : world) (user_id : Z) (j : Job).

Lemma remove_timer_next_job w user_id timer_id :
  next_job (exec (remove_timer user_id timer_id) w) = next_job w.
Proof.
  unfold exec.
  destruct (dict_get timer_id (timers_of w user_id)) eqn:E.
  - erewrite remove_timer_found by done. simpl.
    apply (cancel_job_frame timer_id (job t) w).
  - by rewrite remove_timer_missing.
Qed.

(** The invariant looks at the timers, at the live jobs up to their order
    and at the counter only. *)
Lemma jobs_ok_perm w w' :
  (∀ o, timers_of w' o = timers_of w o) →
  live_jobs w' ≡ₚ live_jobs w →
  next_job w' = next_job w →
  jobs_ok w → jobs_ok w'.
Proof.
  intros Ht Hperm Hn [Hlive Hbelow Hdist Hdelay]. constructor.
  - intros u t info Hget. rewrite Ht in Hget.
    destruct (Hlive u t info Hget) as (j & ? & ? & ? & Hin).
    exists j. split_and!; try done. by rewrite Hperm.
  - intros j Hin. rewrite Hn. apply Hbelow. by rewrite <- Hperm.
  - by rewrite (Permutation_map job_id Hperm).
  - intros j Hin. apply Hdelay. by rewrite <- Hperm.
Qed.

Lemma registry_ok_same w w' :
  (∀ o, timers_of w' o = timers_of w o) →
  job_queue w' = job_queue w → pending w' = pending w →
  next_job w' = next_job w →
  registry_ok w → registry_ok w'.
Proof.
  intros Ht Hq Hp Hn [Hjobs Hids]. split.
  - apply (jobs_ok_perm w w'); try done. unfold live_jobs.
    by rewrite Hq, Hp.
  - intros o. rewrite Ht. apply Hids.
Qed.

Lemma Keeps_quiet {A : Type} (m : M A) : Quiet m → Keeps m.
Proof.
  intros Hm w Hok. destruct (Hm w) as (Ht & Hq & Hp & Hn & _).
  by apply (registry_ok_same w).
Qed.

Lemma Keeps_ret {A : Type} (a : A) : Keeps (ret a).
Proof. by intros w. Qed.

Lemma Keeps_bind {A B : Type} (m : M A) (k : A → M B) :
  Keeps m → (∀ a, Keeps (k a)) → Keeps (bind m k).
Proof. intros Hm Hk w Hok. rewrite exec_bind. by apply Hk, Hm. Qed.

Lemma Keeps_write_log e : Keeps (write_log e).
Proof. intros w Hok. by apply (registry_ok_same w). Qed.

Lemma Keeps_remove_timer user_id timer_id :
  Keeps (remove_timer user_id timer_id).
Proof.
  intros w [Hjobs Hids].
  split;
    [|exact (evolve_NoDup _ _ _
               (EvolvesOn_remove_timer user_id timer_id w) Hids)].
  destruct (dict_get timer_id (timers_of w user_id)) as [info|] eqn:Hget.
  - (* the timer is found *)
    destruct Hjobs as [Hlive Hbelow Hdist Hdelay].
    destruct (Hlive _ _ _ Hget) as (j0 & Hjob0 & Hu0 & Ht0 & Hin0).
    destruct (remove_timer_found_effect w user_id timer_id info Hget)
      as (_ & _ & _ & Hqueue).
    specialize (Hqueue j0 Hjob0).
    set (w' := exec (remove_timer user_id timer_id) w) in *.
    assert (live_jobs w' = unqueue j0 (job_queue w) ++ pending w) as Hl'.
    { unfold live_jobs. rewrite Hqueue. unfold w'.
      by rewrite remove_timer_pending. }
    assert (∀ j, j ∈ live_jobs w' → j ∈ live_jobs w) as Hsub.
    { intros j. rewrite Hl'. unfold live_jobs. rewrite !elem_of_app.
      intros [[? _]%elem_of_unqueue|?]; [by left | by right]. }
    constructor.
    + intros u t info' Hget'. unfold w' in Hget'.
      rewrite timers_of_remove_timer in Hget'.
      assert (dict_get t (timers_of w u) = Some info'
              ∧ (u, t) ≠ (user_id, timer_id)) as [Hold Hkey].
      { destruct (decide (u = user_id)) as [->|Hne].
        - destruct (decide (t = timer_id)) as [->|Hnt].
          + rewrite dict_get_del_eq in Hget' by apply Hids. done.
          + rewrite dict_get_del_ne in Hget' by done.
            split; [done | congruence].
        - split; [done | congruence]. }
      destruct (Hlive _ _ _ Hold) as (j & Hjob & Hu & Ht & Hin).
      exists j. split_and!; try done.
      rewrite Hl'. unfold live_jobs in Hin.
      apply elem_of_app in Hin as [Hin|Hin]; apply elem_of_app;
        [left | by right].
      apply elem_of_unqueue. split; [done|]. apply same_job_false.
      intros Hid.
      assert (j0 = j) as ->.
      { apply (same_id_same_job _ _ (live_jobs w)); try done.
        unfold live_jobs. apply elem_of_app. by left. }
      congruence.
    + intros j Hin. unfold w'. rewrite remove_timer_next_job. auto.
    + rewrite Hl'.
      apply (sublist_NoDup _ (map job_id (live_jobs w))); [exact Hdist|].
      unfold live_jobs. rewrite !map_app.
      apply sublist_app; [|done].
      change map with (@fmap list _). apply fmap_sublist, unqueue_sublist.
    + intros j Hin. auto.
  - (* the timer is not found *)
    destruct (remove_timer_missing_effect w user_id timer_id Hget)
      as (_ & Ht & Hq & _).
    apply (jobs_ok_perm w); try done.
    + unfold live_jobs. by rewrite Hq, remove_timer_pending.
    + apply remove_timer_next_job.
Qed.

Lemma Keeps_cancel_loop user_id ids :
  ∀ cancelled_count, Keeps (cancel_loop user_id ids cancelled_count).
Proof.
  induction ids as [|timer_id r IH]; intros c; simpl.
  - apply Keeps_ret.
  - apply Keeps_bind; [apply Keeps_remove_timer|]. intros b. apply IH.
Qed.

Lemma Keeps_send dl chat t kb : Keeps (send dl chat t kb).
Proof. apply Keeps_quiet, Quiet_send. Qed.

Lemma Keeps_get_timer_count user_id : Keeps (get_timer_count user_id).
Proof. apply Keeps_quiet, Quiet_get_timer_count. Qed.

Lemma Keeps_get_user_timers user_id : Keeps (get_user_timers user_id).
Proof. apply Keeps_quiet, Quiet_get_user_timers. Qed.

Lemma Keeps_format_timer_list now user_id page items_per_page :
  Keeps (format_timer_list now user_id page items_per_page).
Proof. apply Keeps_quiet, Quiet_format_timer_list. Qed.

Lemma Keeps_timer_callback delivered j : Keeps (timer_callback delivered j).
Proof.
  unfold timer_callback.
  apply Keeps_bind; [apply Keeps_remove_timer|]. intros _.
  apply Keeps_bind; [apply Keeps_get_timer_count|]. intros rc.
  destruct delivered; [apply Keeps_send | apply Keeps_write_log].
Qed.

Lemma Keeps_cancel_timer user_id : Keeps (cancel_timer user_id).
Proof.
  unfold cancel_timer.
  apply Keeps_bind; [apply Keeps_get_timer_count|]. intros tc.
  destruct (tc >? 0); [|apply Keeps_send].
  apply Keeps_bind; [apply Keeps_get_user_timers|]. intros ut.
  apply Keeps_bind; [apply Keeps_cancel_loop|]. intros c.
  apply Keeps_send.
Qed.

Lemma Keeps_button_callback now edit_ok user_id data :
  Keeps (button_callback now edit_ok user_id data).
Proof.
  unfold button_callback, show.
  apply Keeps_bind; [apply Keeps_send|]. intros _.
  destruct data.
  - apply Keeps_bind; [apply Keeps_format_timer_list|]. intros v.
    apply Keeps_send.
  - apply Keeps_bind; [apply Keeps_format_timer_list|]. intros v.
    apply Keeps_send.
  - apply Keeps_bind; [apply Keeps_remove_timer|]. intros [|].
    + apply Keeps_bind; [apply Keeps_send|]. intros _.
      apply Keeps_bind; [apply Keeps_format_timer_list|]. intros v.
      apply Keeps_send.
    + apply Keeps_send.
  - apply Keeps_bind; [apply Keeps_get_timer_count|]. intros tc.
    destruct (tc >? 0); [|apply Keeps_send].
    apply Keeps_bind; [apply Keeps_get_user_timers|]. intros ut.
    apply Keeps_bind; [apply Keeps_cancel_loop|]. intros c.
    apply Keeps_bind; [apply Keeps_send|]. intros _. apply Keeps_send.
  - apply Keeps_bind; [apply Keeps_get_timer_count|]. intros tc.
    destruct (tc >=? MAX_TIMERS_PER_USER); apply Keeps_send.
  - destruct edit_ok; [apply Keeps_send|].
    apply Keeps_bind; [apply Keeps_send|]. intros _. apply Keeps_send.
  - destruct edit_ok; [apply Keeps_send|].
    apply Keeps_bind; [apply Keeps_send|]. intros _. apply Keeps_send.
Qed.

Lemma Keeps_start user_id : Keeps (start user_id).
Proof.
  unfold start. apply Keeps_bind; [apply Keeps_get_timer_count|].
  intros. apply Keeps_send.
Qed.

Lemma Keeps_help_command user_id : Keeps (help_command user_id).
Proof.
  unfold help_command. apply Keeps_bind; [apply Keeps_get_timer_count|].
  intros. apply Keeps_send.
Qed.

Lemma Keeps_status_timer user_id : Keeps (status_timer user_id).
Proof.
  unfold status_timer. apply Keeps_bind; [apply Keeps_get_user_timers|].
  intros ut. destruct (dict_empty ut); apply Keeps_send.
Qed.

(** A new job goes to the end of the queue under the next identity. *)
Lemma run_once_keeps when user_id timer_id description duration w :
  60 <= when <= 86340 →
  registry_ok w →
  let run := run_once when user_id timer_id description duration in
  registry_ok (exec run w)
  ∧ eval run w ∈ live_jobs (exec run w)
  ∧ job_user_id (eval run w) = user_id
  ∧ job_timer_id (eval run w) = timer_id.
Proof.
  intros Hwhen [[Hlive Hbelow Hdist Hdelay] Hids]. cbv zeta.
  set (jn := mkJob (next_job w) when user_id timer_id description duration).
  assert (eval (run_once when user_id timer_id description duration) w = jn)
    as -> by done.
  set (w' := exec (run_once when user_id timer_id description duration) w).
  assert (live_jobs w' = (job_queue w ++ [jn]) ++ pending w) as Hl' by done.
  assert (∀ j, j ∈ live_jobs w' ↔ j = jn ∨ j ∈ live_jobs w) as Hin'.
  { intros j. rewrite Hl'. unfold live_jobs.
    rewrite !elem_of_app, list_elem_of_singleton. tauto. }
  split_and!; try done.
  - split; [|exact Hids]. constructor.
    + intros u t info Hget.
      destruct (Hlive u t info Hget) as (j & ? & ? & ? & Hin).
      exists j. split_and!; try done. apply Hin'. by right.
    + intros j [->|Hin]%Hin'.
      * change (next_job w') with (S (next_job w)). simpl. lia.
      * change (next_job w') with (S (next_job w)).
        specialize (Hbelow j Hin). lia.
    + assert (live_jobs w' ≡ₚ jn :: live_jobs w) as Hperm.
      { rewrite Hl'. unfold live_jobs.
        rewrite <- (assoc_L (++)), (Permutation_app_comm [jn]).
        rewrite (assoc_L (++)), Permutation_app_comm. done. }
      rewrite (Permutation_map job_id Hperm). simpl.
      apply NoDup_cons. split; [|done].
      intros Hin. apply list_elem_of_In, in_map_iff in Hin
        as (j & Hid & Hj%list_elem_of_In).
      specialize (Hbelow j Hj). lia.
    + intros j [->|Hin]%Hin'; [done | by apply Hdelay].
  - apply Hin'. by left.
Qed.

(** Storing a timer with a live job that names it keeps the invariant. *)
Lemma add_timer_keeps now user_id timer_id description end_time j w :
  registry_ok w →
  j ∈ live_jobs w → job_user_id j = user_id → job_timer_id j = timer_id →
  registry_ok
    (exec (add_timer now user_id timer_id description end_time (Some j)) w).
Proof.
  intros [[Hlive Hbelow Hdist Hdelay] Hids] Hj Hu Ht.
  set (w' := exec (add_timer now user_id timer_id description end_time
                     (Some j)) w).
  destruct (add_timer_frame now user_id timer_id description end_time
              (Some j) w) as (Hq & Hp & Hn & _).
  fold w' in Hq, Hp, Hn.
  assert (live_jobs w' = live_jobs w) as Hl'
    by (unfold live_jobs; by rewrite Hq, Hp).
  split.
  - constructor.
    + intros u t info Hget. unfold w' in Hget.
      rewrite timers_of_add_timer in Hget. rewrite Hl'.
      destruct (decide (u = user_id)) as [->|Hne]; [|by apply Hlive].
      destruct (decide (t = timer_id)) as [->|Hnt].
      * rewrite dict_get_set_eq in Hget. injection Hget as <-.
        by exists j.
      * rewrite dict_get_set_ne in Hget by done. by apply Hlive.
    + intros j'. rewrite Hl', Hn. apply Hbelow.
    + by rewrite Hl'.
    + intros j'. rewrite Hl'. apply Hdelay.
  - intros u. unfold w'. rewrite timers_of_add_timer.
    destruct (decide (u = user_id)) as [->|Hne]; [|apply Hids].
    apply NoDup_dict_set, Hids.
Qed.

Lemma Keeps_handle_time uuid4 now now' user_id message_text :
  Keeps (handle_time uuid4 now now' user_id message_text).
Proof.
  unfold handle_time.
  apply Keeps_bind; [apply Keeps_get_timer_count|]. intros tc.
  destruct (tc >=? MAX_TIMERS_PER_USER); [apply Keeps_send|].
  destruct (validate_time_format (strip message_text))
    as [[hours minutes]|] eqn:Hparse.
  - intros w Hok.
    destruct (accepted_time_bounds _ _ _ Hparse) as (_ & _ & Hwhen).
    set (total_seconds := hours * 3600 + minutes * 60) in *.
    set (display :=
           if hours >? 0 then DisplayHM hours minutes else DisplayM minutes).
    set (finish := now + timedelta_of_seconds total_seconds).
    set (d := mkDescription display finish).
    set (timer_id := str_take 8 uuid4).
    rewrite exec_bind.
    destruct (run_once_keeps total_seconds user_id timer_id d display w
                Hwhen Hok) as (Hok1 & Hin1 & Hu1 & Ht1).
    set (j := eval (run_once total_seconds user_id timer_id d display) w)
      in *.
    set (w1 := exec (run_once total_seconds user_id timer_id d display) w)
      in *.
    rewrite exec_bind.
    pose proof (add_timer_keeps now' user_id timer_id d finish j w1
                  Hok1 Hin1 Hu1 Ht1) as Hok2.
    revert Hok2. generalize (exec (add_timer now' user_id timer_id d finish
                                     (Some j)) w1).
    intros w2 Hok2.
    revert w2 Hok2.
    apply Keeps_bind; [apply Keeps_get_timer_count|]. intros c.
    apply Keeps_send.
  - apply Keeps_bind; [apply Keeps_send|]. intros _. apply Keeps_write_log.
Qed.

(** A triggered job moves from the queue to the pending callbacks. *)
Lemma Keeps_trigger id : Keeps (trigger id).
Proof.
  intros w [Hjobs Hids]. unfold exec, trigger.
  destruct (find_job id (job_queue w)) as [j|] eqn:Hfind; [|done].
  apply find_job_Some in Hfind as [Hin _]. simpl.
  split; [|exact Hids].
  apply (jobs_ok_perm w); try done.
  unfold live_jobs. simpl.
  assert (NoDup (map job_id (job_queue w))) as Hq.
  { pose proof (live_ids_distinct w Hjobs) as Hd.
    unfold live_jobs in Hd. rewrite map_app in Hd.
    by apply NoDup_app in Hd as (? & _ & _). }
  rewrite (unqueue_perm j (job_queue w) Hq Hin) at 2.
  rewrite (Permutation_app_comm (pending w) [j]). simpl.
  by rewrite Permutation_middle.
Qed.

End KeepsJobs.

(** ** The expiry callback does not look at the pending callbacks *)

Section Pending.

Implicit Types (w : world) (user_id : Z) (j : Job).

Lemma IgnoresPending_ret {A : Type} (a : A) : IgnoresPending (ret a).
Proof. by intros w p. Qed.

Lemma IgnoresPending_bind {A B : Type} (m : M A) (k : A → M B) :
  IgnoresPending m → (∀ a, IgnoresPending (k a)) →
  IgnoresPending (bind m k).
Proof.
  intros Hm Hk w p. unfold bind. rewrite Hm.
  destruct (m w) as [a w1]. simpl. apply Hk.
Qed.

Lemma IgnoresPending_get_active_timers : IgnoresPending get_active_timers.
Proof. by intros w p. Qed.

Lemma IgnoresPending_set_active_timers m :
  IgnoresPending (set_active_timers m).
Proof. by intros w p. Qed.

Lemma IgnoresPending_send dl chat t kb : IgnoresPending (send dl chat t kb).
Proof. by intros w p. Qed.

Lemma IgnoresPending_write_log e : IgnoresPending (write_log e).
Proof. by intros w p. Qed.

Lemma IgnoresPending_schedule_removal j :
  IgnoresPending (schedule_removal j).
Proof.
  intros w p. unfold schedule_removal. simpl.
  by destruct (queued j (job_queue w)).
Qed.

Lemma IgnoresPending_get_user_timers user_id :
  IgnoresPending (get_user_timers user_id).
Proof.
  unfold get_user_timers.
  apply IgnoresPending_bind; [apply IgnoresPending_get_active_timers|].
  intros m. destruct (m !! user_id); [apply IgnoresPending_ret|].
  apply IgnoresPending_bind; [apply IgnoresPending_set_active_timers|].
  intros _. apply IgnoresPending_ret.
Qed.

Lemma IgnoresPending_get_timer_count user_id :
  IgnoresPending (get_timer_count user_id).
Proof.
  unfold get_timer_count.
  apply IgnoresPending_bind; [apply IgnoresPending_get_user_timers|].
  intros ut. apply IgnoresPending_ret.
Qed.

Lemma IgnoresPending_remove_timer user_id timer_id :
  IgnoresPending (remove_timer user_id timer_id).
Proof.
  unfold remove_timer.
  apply IgnoresPending_bind; [apply IgnoresPending_get_user_timers|].
  intros ut. destruct (dict_get timer_id ut) as [info|];
    [|apply IgnoresPending_ret].
  apply IgnoresPending_bind.
  { unfold cancel_job. destruct (job info) as [j|];
      [|apply IgnoresPending_ret].
    apply IgnoresPending_bind; [apply IgnoresPending_schedule_removal|].
    intros [|]; [apply IgnoresPending_ret | apply IgnoresPending_write_log]. }
  intros _. apply IgnoresPending_bind.
  { unfold store_user_timers.
    apply IgnoresPending_bind; [apply IgnoresPending_get_active_timers|].
    intros m. apply IgnoresPending_set_active_timers. }
  intros _. apply IgnoresPending_bind; [|intros _; apply IgnoresPending_ret].
  destruct (dict_empty _); [|apply IgnoresPending_ret].
  unfold pop_user.
  apply IgnoresPending_bind; [apply IgnoresPending_get_active_timers|].
  intros m. apply IgnoresPending_set_active_timers.
Qed.

Lemma IgnoresPending_timer_callback delivered j :
  IgnoresPending (timer_callback delivered j).
Proof.
  unfold timer_callback.
  apply IgnoresPending_bind; [apply IgnoresPending_remove_timer|].
  intros _.
  apply IgnoresPending_bind; [apply IgnoresPending_get_timer_count|].
  intros rc.
  destruct delivered;
    [apply IgnoresPending_send | apply IgnoresPending_write_log].
Qed.

Lemma exec_with_pending {A : Type} (m : M A) w p :
  IgnoresPending m → exec m (with_pending w p) = with_pending (exec m w) p.
Proof. intros Hm. unfold exec. by rewrite Hm. Qed.

Lemma timer_callback_pending delivered j w :
  pending (exec (timer_callback delivered j) w) = pending w.
Proof.
  rewrite exec_timer_callback. cbv zeta.
  destruct (Quiet_get_timer_count (job_user_id j)
              (exec (remove_timer (job_user_id j) (job_timer_id j)) w))
    as (_ & _ & Hp & _).
  destruct delivered; simpl; rewrite Hp; apply remove_timer_pending.
Qed.

Lemma timers_of_timer_callback delivered j w other :
  timers_of (exec (timer_callback delivered j) w) other
  = if decide (other = job_user_id j)
    then dict_del (job_timer_id j) (timers_of w (job_user_id j))
    else timers_of w other.
Proof.
  rewrite exec_timer_callback. cbv zeta.
  rewrite <- timers_of_remove_timer.
  rewrite <- (timers_of_get_timer_count
                (exec (remove_timer (job_user_id j) (job_timer_id j)) w)
                (job_user_id j) other).
  by destruct delivered.
Qed.

(** A pending callback whose timer is gone can be dropped. *)
Lemma registry_ok_drop_pending w j :
  registry_ok w → j ∈ pending w →
  dict_get (job_timer_id j) (timers_of w (job_user_id j)) = None →
  registry_ok (with_pending w (unqueue j (pending w))).
Proof.
  intros [[Hlive Hbelow Hdist Hdelay] Hids] Hj Hgone.
  set (w' := with_pending w (unqueue j (pending w))).
  assert (∀ j', j' ∈ live_jobs w' → j' ∈ live_jobs w) as Hsub.
  { intros j'. unfold live_jobs. simpl. rewrite !elem_of_app.
    intros [?|[? _]%elem_of_unqueue]; [by left | by right]. }
  split; [|exact Hids]. constructor.
  - intros u t info Hget.
    change (dict_get t (timers_of w u) = Some info) in Hget.
    destruct (Hlive u t info Hget) as (j' & Hjob & Hu & Ht & Hin).
    exists j'. split_and!; try done.
    unfold live_jobs in *. simpl.
    apply elem_of_app in Hin as [Hin|Hin]; apply elem_of_app;
      [by left | right].
    apply elem_of_unqueue. split; [done|]. apply same_job_false.
    intros Hid.
    assert (j = j') as ->.
    { apply (same_id_same_job _ _ (job_queue w ++ pending w)); try done;
        apply elem_of_app; by right. }
    rewrite Hu, Ht in Hgone. congruence.
  - intros j' Hin. by apply Hbelow, Hsub.
  - apply (sublist_NoDup _ (map job_id (live_jobs w))); [exact Hdist|].
    unfold live_jobs. simpl. rewrite !map_app.
    apply sublist_app; [done|].
    change map with (@fmap list _). apply fmap_sublist, unqueue_sublist.
  - intros j' Hin. by apply Hdelay, Hsub.
Qed.

Lemma Keeps_run_callback id delivered : Keeps (run_callback id delivered).
Proof.
  intros w Hok. unfold run_callback. rewrite exec_bind.
  unfold eval, exec at 2, take_pending.
  destruct (find_job id (pending w)) as [j|] eqn:Hfind; [|done].
  apply find_job_Some in Hfind as [Hin _]. simpl.
  change (mkWorld (active_timers w) (job_queue w) (unqueue j (pending w))
            (next_job w) (outbox w) (log w))
    with (with_pending w (unqueue j (pending w))).
  rewrite exec_with_pending by apply IgnoresPending_timer_callback.
  rewrite <- (timer_callback_pending delivered j w).
  apply registry_ok_drop_pending.
  - by apply Keeps_timer_callback.
  - by rewrite timer_callback_pending.
  - rewrite timers_of_timer_callback, decide_True by done.
    apply dict_get_del_eq, Hok.
Qed.

Lemma step_keeps e : Keeps (step e).
Proof.
  destruct e; simpl.
  - apply Keeps_start.
  - apply Keeps_help_command.
  - apply Keeps_cancel_timer.
  - apply Keeps_status_timer.
  - apply Keeps_handle_time.
  - apply Keeps_button_callback.
  - apply Keeps_trigger.
  - apply Keeps_run_callback.
Qed.

Lemma reachable_registry_ok w : reachable w → registry_ok w.
Proof.
  induction 1 as [|e w Hw IH].
  - split.
    + constructor; try done.
      * intros j Hin. by apply elem_of_nil in Hin.
      * apply NoDup_nil_2.
      * intros j Hin. by apply elem_of_nil in Hin.
    + intros u. apply NoDup_nil_2.
  - by apply step_keeps.
Qed.

End Pending.

(** X18: in every state the bot can reach, each timer in the registry
    carries a job that names the timer's owner and id, that the scheduler
    still holds (queued, or triggered with its callback pending) and that
    was scheduled between one minute and 23 hours 59 minutes ahead: no
    stored timer is left without a callback to come. *)
Theorem reachable_timer_has_live_job w user_id timer_id info :
  reachable w →
  dict_get timer_id (timers_of w user_id) = Some info →
  ∃ j, job info = Some j
       ∧ job_user_id j = user_id ∧ job_timer_id j = timer_id
       ∧ (j ∈ job_queue w ∨ j ∈ pending w)
       ∧ 60 <= job_when j <= 86340.
Proof.
  intros Hreach Hget.
  destruct (reachable_registry_ok w Hreach)
    as [[Hlive _ _ Hdelay] _].
  destruct (Hlive user_id timer_id info Hget) as (j & Hjob & Hu & Ht & Hin).
  exists j. repeat (split; [done|]). split.
  - unfold live_jobs in Hin. by apply elem_of_app in Hin.
  - by apply Hdelay.
Qed.

Lemma reachable_timer_has_live_job_witness :
  let info := created_timer "aaaaaaaa-0000" 0 1 7 1 30 0 in
  reachable one_timer_world
  ∧ dict_get "aaaaaaaa" (timers_of one_timer_world 7) = Some info
  ∧ ∃ j, job info = Some j
         ∧ job_user_id j = 7 ∧ job_timer_id j = "aaaaaaaa"
         ∧ (j ∈ job_queue one_timer_world ∨ j ∈ pending one_timer_world)
         ∧ 60 <= job_when j <= 86340.
Proof.
  cbv zeta.
  set (info := created_timer "aaaaaaaa-0000" 0 1 7 1 30 0).
  assert (reachable one_timer_world) as Hreach
    by (apply reachable_run; constructor).
  assert (dict_get "aaaaaaaa" (timers_of one_timer_world 7) = Some info)
    as Hget by reflexivity.
  split; [exact Hreach|]. split; [exact Hget|].
  exact (reachable_timer_has_live_job one_timer_world 7 "aaaaaaaa" info
           Hreach Hget).
Defined.

(** ** Cancelling everything takes the jobs off the queue *)

Section CancelAllJobs.

Implicit Types (w : world) (user_id : Z) (j : Job).

Lemma queued_unqueue_other j j0 q :
  queued j q = false → queued j (unqueue j0 q) = false.
Proof.
  unfold queued, unqueue. induction q as [|x q IH]; [done|]. simpl.
  intros [Hx Hq]%orb_false_elim.
  destruct (negb (same_job j0 x)); simpl; [rewrite Hx|]; auto.
Qed.

Lemma remove_timer_keeps_unqueued w user_id timer_id j :
  queued j (job_queue w) = false →
  queued j (job_queue (exec (remove_timer user_id timer_id) w)) = false.
Proof.
  intros Hq.
  destruct (dict_get timer_id (timers_of w user_id)) as [info|] eqn:Hget.
  - unfold exec. erewrite remove_timer_found by done. simpl.
    destruct (job info) as [j0|].
    + rewrite cancel_job_unqueues. by apply queued_unqueue_other.
    + done.
  - by destruct (remove_timer_missing_effect w user_id timer_id Hget)
      as (_ & _ & -> & _).
Qed.

Lemma cancel_loop_keeps_unqueued user_id ids j :
  ∀ cancelled_count w,
    queued j (job_queue w) = false →
    queued j (job_queue (exec (cancel_loop user_id ids cancelled_count) w))
    = false.
Proof.
  induction ids as [|timer_id r IH]; intros c w Hq; [done|].
  simpl. rewrite exec_bind. by apply IH, remove_timer_keeps_unqueued.
Qed.

Lemma cancel_loop_unqueues user_id ids timer_id info j :
  ∀ cancelled_count w,
    timer_id ∈ ids →
    dict_get timer_id (timers_of w user_id) = Some info →
    job info = Some j →
    queued j (job_queue (exec (cancel_loop user_id ids cancelled_count) w))
    = false.
Proof.
  induction ids as [|t0 r IH]; intros c w Hin Hget Hjob;
    [by apply elem_of_nil in Hin|].
  simpl. rewrite exec_bind.
  destruct (decide (timer_id = t0)) as [<-|Hne].
  - apply cancel_loop_keeps_unqueued.
    destruct (remove_timer_found_effect w user_id timer_id info Hget)
      as (_ & _ & _ & Hqueue).
    rewrite (Hqueue j Hjob). apply queued_unqueue.
  - apply elem_of_cons in Hin as [?|Hin]; [done|].
    apply IH; try done.
    rewrite timers_of_remove_timer, decide_True by done.
    by rewrite dict_get_del_ne.
Qed.

Lemma dict_get_Some_keys {V : Type} k (v : V) d :
  dict_get k d = Some v → k ∈ map fst d.
Proof.
  induction d as [|[k0 v0] r IH]; simpl; [done|].
  destruct (decide (k = k0)) as [->|Hne]; [by left | right; auto].
Qed.

(** The run of the loop over the ids of the user's timers, as both the
    command and the button start it. *)
Lemma cancel_all_unqueues user_id timer_id info j w :
  dict_get timer_id (timers_of w user_id) = Some info →
  job info = Some j →
  let w0 := exec (get_timer_count user_id) w in
  let w1 := exec (get_user_timers user_id) w0 in
  queued j
    (job_queue
       (exec (cancel_loop user_id
                (map fst (eval (get_user_timers user_id) w0)) 0) w1))
  = false.
Proof.
  intros Hget Hjob. cbv zeta.
  apply (cancel_loop_unqueues user_id _ timer_id info j).
  - rewrite eval_get_user_timers, timers_of_get_timer_count.
    by apply (dict_get_Some_keys _ info).
  - by rewrite timers_of_get_user_timers, timers_of_get_timer_count.
  - done.
Qed.

End CancelAllJobs.

(** X19: cancelling everything, by the command or by the button, takes
    the job of each of the user's timers off the queue: the scheduler no
    longer finds it there, so it cannot come due later. *)
Theorem cancel_all_unqueues_jobs w user_id timer_id info j :
  dict_get timer_id (timers_of w user_id) = Some info →
  job info = Some j →
  let w' := exec (cancel_timer user_id) w in
  queued j (job_queue w') = false
  ∧ trigger (job_id j) w' = (tt, w')
  ∧ ∀ now edit_ok,
      queued j
        (job_queue
           (exec (button_callback now edit_ok user_id CancelAllTimers) w))
      = false.
Proof.
  intros Hget Hjob. cbv zeta.
  assert ((count_of w user_id >? 0) = true) as Hpos.
  { apply Z.gtb_lt. unfold count_of.
    destruct (timers_of w user_id); [done | simpl; lia]. }
  assert (queued j (job_queue (exec (cancel_timer user_id) w)) = false)
    as Hq.
  { unfold cancel_timer.
    rewrite exec_bind, eval_get_timer_count, Hpos, exec_bind, exec_bind.
    apply (cancel_all_unqueues user_id timer_id info j w Hget Hjob). }
  split_and!.
  - exact Hq.
  - unfold trigger. by rewrite find_job_not_queued.
  - intros now edit_ok. unfold button_callback, show.
    rewrite exec_bind.
    set (w0 := exec (send Answer user_id AnswerEmpty []) w).
    rewrite exec_bind, eval_get_timer_count.
    change (count_of w0 user_id) with (count_of w user_id).
    rewrite Hpos, exec_bind, exec_bind, exec_bind.
    apply (cancel_all_unqueues user_id timer_id info j w0 Hget Hjob).
Qed.

Lemma cancel_all_unqueues_jobs_witness :
  let info := created_timer "bbbbbbbb-0000" 10 11 7 2 0 1 in
  dict_get "bbbbbbbb" (timers_of three_timers_world 7) = Some info
  ∧ ∃ j, job info = Some j
         ∧ queued j (job_queue three_timers_world) = true
         ∧ queued j (job_queue (exec (cancel_timer 7) three_timers_world))
           = false.
Proof.
  cbv zeta.
  set (info := created_timer "bbbbbbbb-0000" 10 11 7 2 0 1).
  assert (dict_get "bbbbbbbb" (timers_of three_timers_world 7) = Some info)
    as Hget by reflexivity.
  split; [exact Hget|].
  destruct (job info) as [j|] eqn:Hjob; [|discriminate Hjob].
  exists j. split; [reflexivity|].
  split; [injection Hjob as <-; reflexivity|].
  exact (proj1 (cancel_all_unqueues_jobs three_timers_world 7 "bbbbbbbb"
                  info j Hget Hjob)).
Defined.
